(** * cpupower-gui (Qt port): the settings reconciliation logic of window.py

    A shallow embedding of the parts of [cpupower_gui/window.py] that decide
    what is written to the privileged helper and how its answers are turned
    into one error code:

    - the apply pass ([on_apply_clicked] and the four [_set_cpu_*] steps),
    - the edit handlers (frequency, governor, online, energy preference and
      the "apply to all" toggle),

    and of what stands around them: [load_cpu_settings], what follows the
    loop of [on_apply_clicked], the recall of a profile, the CPU table and
    its timer, the governor and energy preference combos, [lock], the
    profiles page and the profile actions of the tray menu of
    [cpupower_gui/main.py].

    Conventions.
    - [self.settings] is a Python dict from CPU number to [CpuSettings]; it
      is kept as an association list in insertion order, the order in which
      the loops of window.py visit it.
    - Every call on [HELPER] that changes the machine is recorded, with the
      integer the helper answered, in a trace.  The queries
      ([get_cpus_online], [cpu_allowed_offline], ...) only read the helper.
    - Frequencies are Python floats (MHz in the settings, kHz towards the
      helper); they are integers here. *)

From Stdlib Require Import ZArith List String Bool Lia.
From Stdlib Require Import Permutation.
Import ListNotations.
Local Open Scope string_scope.
Local Open Scope list_scope.
Local Open Scope Z_scope.

Set Implicit Arguments.

(** ** Python dicts keyed by CPU number *)

Module Dict.

Definition t (V : Type) := list (Z * V).

(** [d.get(k)] *)
Fixpoint get {V} (d : t V) (k : Z) : option V :=
  match d with
  | [] => None
  | (k', v) :: rest => if k' =? k then Some v else get rest k
  end.

Definition keys {V} (d : t V) : list Z := map fst d.

(** [for k, v in d.items(): v.attr = ...] : every value is updated. *)
Definition update_all {V} (f : V -> V) (d : t V) : t V :=
  map (fun kv => (fst kv, f (snd kv))) d.

(** [v = d.get(k); if v: v.attr = ...] : only the value under [k]. *)
Definition update_at {V} (f : V -> V) (k : Z) (d : t V) : t V :=
  map (fun kv => if fst kv =? k then (fst kv, f (snd kv)) else kv) d.

End Dict.

(** ** The privileged helper *)

(** The calls of window.py on [HELPER] that write to the machine. *)
Inductive Call : Type :=
| SetCpuOnline (cpu : Z)
| SetCpuOffline (cpu : Z)
| UpdateCpuGovernor (cpu : Z) (gov : string)
| UpdateCpuEnergyPrefs (cpu : Z) (pref : string)
| UpdateCpuSettings (cpu : Z) (fmin fmax : Z).

(** A call together with the integer the helper returned. *)
Definition Event : Type := (Call * Z)%type.

Definition call_cpu (c : Call) : Z :=
  match c with
  | SetCpuOnline cpu | SetCpuOffline cpu
  | UpdateCpuGovernor cpu _ | UpdateCpuEnergyPrefs cpu _
  | UpdateCpuSettings cpu _ _ => cpu
  end.

(** Calls that write frequency, governor or energy preference. *)
Definition is_update (c : Call) : bool :=
  match c with
  | SetCpuOnline _ | SetCpuOffline _ => false
  | _ => true
  end.

(** Calls that switch a CPU on or off. *)
Definition is_transition (c : Call) : bool := negb (is_update c).

(** The helper as window.py sees it over D-Bus: a process with a state of
    its own.  Queries read that state; a write answers an integer (0 on
    success, anything else on failure) and may change it. *)
Record Helper (H : Type) : Type := {
  isauthorized : H -> bool;
  get_cpus_online : H -> list Z;
  get_cpus_offline : H -> list Z;
  get_cpus_present : H -> list Z;
  cpu_allowed_offline : H -> Z -> bool;
  set_cpu_online : Z -> H -> Z * H;
  set_cpu_offline : Z -> H -> Z * H;
  update_cpu_governor : Z -> string -> H -> Z * H;
  update_cpu_energy_prefs : Z -> string -> H -> Z * H;
  update_cpu_settings : Z -> Z -> Z -> H -> Z * H
}.

(** The helper method behind each recorded call. *)
Definition perform {H} (helper : Helper H) (c : Call) : H -> Z * H :=
  match c with
  | SetCpuOnline cpu => set_cpu_online helper cpu
  | SetCpuOffline cpu => set_cpu_offline helper cpu
  | UpdateCpuGovernor cpu gov => update_cpu_governor helper cpu gov
  | UpdateCpuEnergyPrefs cpu pref => update_cpu_energy_prefs helper cpu pref
  | UpdateCpuSettings cpu fmin fmax => update_cpu_settings helper cpu fmin fmax
  end.

(** ** What the apply pass reads from a [CpuSettings] object

    [CpuSettings] lives in config.py.  The apply pass only reads these
    properties of it, so it is stated over any type that provides them. *)
Class CpuSettingsLike (C : Type) : Type := {
  changed : C -> bool;
  online : C -> bool;
  setting_changed : C -> string -> bool;
  governor : C -> option string;
  energy_pref : C -> option string;
  freqs_scaled : C -> option Z * option Z
}.

(** Python truth value of [conf.energy_pref]: [None] and the empty string
    are false. *)
Definition truthy (s : option string) : bool :=
  match s with
  | None => false
  | Some EmptyString => false
  | Some _ => true
  end.

(** ** The apply pass *)

Module Apply.

Section WithHelper.

Context {H : Type} (HELPER : Helper H).
Context {C : Type} `{CpuSettingsLike C}.

(** [self.energy_pref_avail] *)
Variable energy_pref_avail : bool.

(** Code that talks to the helper: it runs from a helper state and
    returns a value, the new helper state and the writes it issued. *)
Definition M (A : Type) : Type := H -> A * H * list Event.

Definition mret {A} (a : A) : M A := fun h => (a, h, []).

Definition bind {A B} (m : M A) (f : A -> M B) : M B :=
  fun h =>
    let '(a, h1, t1) := m h in
    let '(b, h2, t2) := f a h1 in
    (b, h2, t1 ++ t2).

Notation "x <- m ;; k" := (bind m (fun x => k))
  (at level 61, m at next level, right associativity).

(** One write: ask the helper and record the call with its answer. *)
Definition call (c : Call) : M Z :=
  fun h => let '(r, h') := perform HELPER c h in (r, h', [(c, r)]).

(** A query: read the helper state. *)
Definition ask {A} (q : H -> A) : M A := fun h => (q h, h, []).

Definition mem (cpu : Z) (l : list Z) : bool := existsb (Z.eqb cpu) l.

(** [is_online]: [(cpu in present) and (cpu in online)] *)
Definition is_online (cpu : Z) (h : H) : bool :=
  let online := get_cpus_online HELPER h in
  let present := get_cpus_present HELPER h in
  mem cpu present && mem cpu online.

(** [is_offline]: [(cpu in present) and (cpu in offline)] *)
Definition is_offline (cpu : Z) (h : H) : bool :=
  let offline := get_cpus_offline HELPER h in
  let present := get_cpus_present HELPER h in
  mem cpu present && mem cpu offline.

Definition Settings : Type := Dict.t C.

(** [_set_cpu_online].  The [_update_sliders()] after a switch-on only
    repaints the widgets, under [lock()], and touches neither the
    settings nor the machine. *)
Definition _set_cpu_online (settings : Settings) (cpu : Z) : M Z :=
  match Dict.get settings cpu with
  | None => mret 0
  | Some conf =>
      let cpu_online := online conf in
      off <- ask (is_offline cpu) ;;
      if off && cpu_online then
        ret <- call (SetCpuOnline cpu) ;;
        mret ret
      else
        on <- ask (is_online cpu) ;;
        if on && negb cpu_online then
          allowed <- ask (fun h => cpu_allowed_offline HELPER h cpu) ;;
          if allowed then call (SetCpuOffline cpu) else mret 0
        else mret 0
  end.

(** [_set_cpu_governor] *)
Definition _set_cpu_governor (settings : Settings) (cpu : Z) : M Z :=
  match Dict.get settings cpu with
  | None => mret (-1)
  | Some conf =>
      match governor conf with
      | None => mret (-1)
      | Some gov =>
          ret <- call (UpdateCpuGovernor cpu gov) ;;
          mret (if negb (ret =? 0) then -11 else 0)
      end
  end.

(** [_set_cpu_energy_preferences] *)
Definition _set_cpu_energy_preferences (settings : Settings) (cpu : Z)
  : M Z :=
  if negb energy_pref_avail then mret 0
  else
    match Dict.get settings cpu with
    | None => mret (-1)
    | Some conf =>
        match energy_pref conf with
        | Some pref =>
            if negb (truthy (Some pref)) then mret (-1)
            else
              ret <- call (UpdateCpuEnergyPrefs cpu pref) ;;
              mret (if negb (ret =? 0) then -12 else 0)
        | None => mret (-1)
        end
    end.

(** [_set_cpu_frequencies] *)
Definition _set_cpu_frequencies (settings : Settings) (cpu : Z) : M Z :=
  match Dict.get settings cpu with
  | None => mret (-1)
  | Some conf =>
      match freqs_scaled conf with
      | (Some fmin, Some fmax) =>
          ret <- call (UpdateCpuSettings cpu fmin fmax) ;;
          mret (if negb (ret =? 0) then -13 else 0)
      | _ => mret (-1)
      end
  end.

(** [[cpu for cpu, conf in self.settings.items() if conf.changed]] *)
Definition changed_cpus (settings : Settings) : list Z :=
  map fst (filter (fun kv => changed (snd kv)) settings).

(** [ret += step] when [cond] holds. *)
Definition add_if (cond : bool) (step : M Z) (ret : Z) : M Z :=
  if cond then r <- step ;; mret (ret + r) else mret ret.

(** The body of the loop of [on_apply_clicked] for one CPU, from the
    running total [ret].  [None] stands for the [AttributeError] of
    [conf.online] on a missing entry. *)
Definition apply_cpu (settings : Settings) (cpu : Z) (ret : Z)
  : M (option Z) :=
  match Dict.get settings cpu with
  | None => mret None
  | Some conf =>
      let cpu_online := online conf in
      r <- _set_cpu_online settings cpu ;;
      let ret := ret + r in
      if cpu_online then
        ret <- add_if (setting_changed conf "freqs")
                 (_set_cpu_frequencies settings cpu) ret ;;
        ret <- add_if (setting_changed conf "governor")
                 (_set_cpu_governor settings cpu) ret ;;
        ret <- add_if (setting_changed conf "energy_pref")
                 (_set_cpu_energy_preferences settings cpu) ret ;;
        mret (Some ret)
      else mret (Some ret)
  end.

(** [for cpu in changed_cpus: ...] *)
Fixpoint apply_loop (settings : Settings) (cpus : list Z) (ret : Z)
  : M (option Z) :=
  match cpus with
  | [] => mret (Some ret)
  | cpu :: rest =>
      o <- apply_cpu settings cpu ret ;;
      match o with
      | None => mret None
      | Some ret => apply_loop settings rest ret
      end
  end.

(** The pass proper: [ret = 0], then the loop over the changed CPUs. *)
Definition apply_pass (settings : Settings) : M (option Z) :=
  apply_loop settings (changed_cpus settings) 0.

(** [ERRORS] *)
Definition ERRORS : Dict.t string :=
  [ (-11, "Setting governor failed.");
    (-12, "Setting energy preferences failed.");
    (-13, "Setting frequencies failed.");
    (-23, "Setting governor and energy preferences failed.");
    (-24, "Setting governor and frequencies failed.");
    (-25, "Setting frequencies and energy preferences failed.") ].

(** [ERRORS.get(ret, default)] *)
Definition ERRORS_get (ret : Z) (default : string) : string :=
  match Dict.get ERRORS ret with
  | Some msg => msg
  | None => default
  end.

(** The end of [on_apply_clicked]: no dialog when [ret == 0], otherwise
    the error dialog with the table's message or the generic one. *)
Definition report (ret : Z) : option string :=
  if ret =? 0 then None
  else Some (ERRORS_get ret "Unknown error occurred.").

(** What the user gets from one click on Apply. *)
Inductive Outcome : Type :=
| Denied (msg : string)
| Applied (ret : Z) (dialog : option string)
| Crashed.

(** [on_apply_clicked].  The refresh of the settings after the loop
    re-reads the machine through config.py and is left out. *)
Definition on_apply_clicked (settings : Settings) : M Outcome :=
  authorized <- ask (isauthorized HELPER) ;;
  if negb authorized then
    mret (Denied "You don't have permissions to update CPU settings!")
  else
    o <- apply_pass settings ;;
    match o with
    | None => mret Crashed
    | Some ret => mret (Applied ret (report ret))
    end.

(** *** The pass, step by step

    The same pass, keeping for every executed step the CPU, the dimension,
    the writes it issued and the value it returned to [ret += ...]. *)

Inductive Dim : Type := Online | Freqs | Governor | EnergyPref.

Record Step : Type := {
  step_cpu : Z;
  step_dim : Dim;
  step_calls : list Event;
  step_ret : Z
}.

Definition logged (cpu : Z) (d : Dim) (m : M Z) : M (list Step) :=
  fun h =>
    let '(r, h', t) := m h in
    ([{| step_cpu := cpu; step_dim := d; step_calls := t; step_ret := r |}],
     h', t).

Definition logged_if (cond : bool) (cpu : Z) (d : Dim) (m : M Z)
  : M (list Step) :=
  if cond then logged cpu d m else mret [].

Definition cpu_steps (settings : Settings) (cpu : Z)
  : M (option (list Step)) :=
  match Dict.get settings cpu with
  | None => mret None
  | Some conf =>
      s0 <- logged cpu Online (_set_cpu_online settings cpu) ;;
      if online conf then
        s1 <- logged_if (setting_changed conf "freqs") cpu Freqs
                (_set_cpu_frequencies settings cpu) ;;
        s2 <- logged_if (setting_changed conf "governor") cpu Governor
                (_set_cpu_governor settings cpu) ;;
        s3 <- logged_if (setting_changed conf "energy_pref") cpu EnergyPref
                (_set_cpu_energy_preferences settings cpu) ;;
        mret (Some (s0 ++ s1 ++ s2 ++ s3))
      else mret (Some s0)
  end.

Fixpoint loop_steps (settings : Settings) (cpus : list Z)
  : M (option (list Step)) :=
  match cpus with
  | [] => mret (Some [])
  | cpu :: rest =>
      o <- cpu_steps settings cpu ;;
      match o with
      | None => mret None
      | Some l =>
          o' <- loop_steps settings rest ;;
          mret (option_map (app l) o')
      end
  end.

Definition pass_steps (settings : Settings) : M (option (list Step)) :=
  loop_steps settings (changed_cpus settings).

(** Sum of the values the steps returned. *)
Definition total (l : list Step) : Z :=
  fold_right (fun s acc => step_ret s + acc) 0 l.

(** [-11 if ret != 0 else 0] and its siblings. *)
Definition mapped (code raw : Z) : Z := if raw =? 0 then 0 else code.

(** The name [setting_changed] is asked about before a step runs. *)
Definition dim_name (d : Dim) : string :=
  match d with
  | Online => "online"
  | Freqs => "freqs"
  | Governor => "governor"
  | EnergyPref => "energy_pref"
  end.

(** What a step of each dimension can look like, given the settings
    [conf] of its CPU: either it returned without a write, or it issued
    exactly one write and returned the helper's answer, raw for the online
    dimension and mapped to the fixed code for the others. *)
Definition step_shape (conf : C) (s : Step) : Prop :=
  let cpu := step_cpu s in
  match step_dim s with
  | Online =>
      (step_calls s = [] /\ step_ret s = 0)
      \/ (step_calls s = [(SetCpuOnline cpu, step_ret s)]
          /\ online conf = true)
      \/ (step_calls s = [(SetCpuOffline cpu, step_ret s)]
          /\ online conf = false)
  | Freqs =>
      (step_calls s = [] /\ step_ret s = -1
       /\ (fst (freqs_scaled conf) = None \/ snd (freqs_scaled conf) = None))
      \/ (exists fmin fmax raw,
             freqs_scaled conf = (Some fmin, Some fmax)
             /\ step_calls s = [(UpdateCpuSettings cpu fmin fmax, raw)]
             /\ step_ret s = mapped (-13) raw)
  | Governor =>
      (step_calls s = [] /\ step_ret s = -1 /\ governor conf = None)
      \/ (exists gov raw,
             governor conf = Some gov
             /\ step_calls s = [(UpdateCpuGovernor cpu gov, raw)]
             /\ step_ret s = mapped (-11) raw)
  | EnergyPref =>
      (step_calls s = [] /\ step_ret s = 0 /\ energy_pref_avail = false)
      \/ (step_calls s = [] /\ step_ret s = -1 /\ energy_pref_avail = true
          /\ truthy (energy_pref conf) = false)
      \/ (exists pref raw,
             energy_pref_avail = true /\ energy_pref conf = Some pref
             /\ step_calls s = [(UpdateCpuEnergyPrefs cpu pref, raw)]
             /\ step_ret s = mapped (-12) raw)
  end.

(** A step of the pass over [settings]: its CPU has an entry, the three
    update dimensions only run for a CPU whose target is online and whose
    field counts as changed, and the step has the shape of its
    dimension. *)
Definition step_ok (settings : Settings) (s : Step) : Prop :=
  exists conf,
    Dict.get settings (step_cpu s) = Some conf
    /\ (step_dim s <> Online ->
        online conf = true
        /\ setting_changed conf (dim_name (step_dim s)) = true)
    /\ step_shape conf s.

(** The writes of a list of steps, in order. *)
Definition writes (l : list Step) : list Event := flat_map step_calls l.

(** The live state of [cpu] on the machine disagrees with the target. *)
Definition live_disagrees (cpu : Z) (target : bool) (h : H) : bool :=
  (is_offline cpu h && target) || (is_online cpu h && negb target).

End WithHelper.

End Apply.

(** ** [CpuSettings] *)

Module Config.

(** The editable values of one CPU. *)
Record Fields : Type := {
  f_online : bool;
  f_freqs : Z * Z;
  f_govid : option nat;
  f_energy_pref_id : Z
}.

(** Modelled from the spec: the class [CpuSettings] of config.py, which is
    missing from the sources at hand.  One object holds the hardware facts
    of its CPU (frequency limits in MHz, the governors and the energy
    preferences in their fixed order), the values being edited and the
    baseline last read from the machine.  The governor is an index into
    [governors] or unset; the energy preference is an index into
    [energy_prefs], with [-1] for unset as window.py tests it. *)
Record CpuSettings : Type := {
  cpu : Z;
  hw_lims : Z * Z;
  governors : list string;
  energy_prefs : list string;
  current : Fields;
  baseline : Fields
}.

Definition with_current (conf : CpuSettings) (f : Fields) : CpuSettings :=
  {| cpu := cpu conf; hw_lims := hw_lims conf; governors := governors conf;
     energy_prefs := energy_prefs conf; current := f;
     baseline := baseline conf |}.

Definition freqs (conf : CpuSettings) : Z * Z := f_freqs (current conf).
Definition govid (conf : CpuSettings) : option nat := f_govid (current conf).
Definition energy_pref_id (conf : CpuSettings) : Z :=
  f_energy_pref_id (current conf).
Definition is_online (conf : CpuSettings) : bool := f_online (current conf).

Definition governor_name (conf : CpuSettings) : option string :=
  match govid conf with
  | Some i => nth_error (governors conf) i
  | None => None
  end.

Definition energy_pref_name (conf : CpuSettings) : option string :=
  if energy_pref_id conf <? 0 then None
  else nth_error (energy_prefs conf) (Z.to_nat (energy_pref_id conf)).

Definition pair_eqb (a b : Z * Z) : bool :=
  (fst a =? fst b) && (snd a =? snd b).

Definition govid_eqb (a b : option nat) : bool :=
  match a, b with
  | Some i, Some j => Nat.eqb i j
  | None, None => true
  | _, _ => false
  end.

(** Modelled from the spec: [settingChanged(field)] is true iff that field
    differs from the baseline. *)
Definition field_changed (conf : CpuSettings) (name : string) : bool :=
  let c := current conf in
  let b := baseline conf in
  if String.eqb name "freqs" then negb (pair_eqb (f_freqs c) (f_freqs b))
  else if String.eqb name "governor" then
    negb (govid_eqb (f_govid c) (f_govid b))
  else if String.eqb name "energy_pref" then
    negb (f_energy_pref_id c =? f_energy_pref_id b)
  else if String.eqb name "online" then
    negb (Bool.eqb (f_online c) (f_online b))
  else false.

(** Modelled from the spec: [changed] is derived, true iff any editable
    field differs from the baseline. *)
Definition any_changed (conf : CpuSettings) : bool :=
  field_changed conf "online" || field_changed conf "freqs"
  || field_changed conf "governor" || field_changed conf "energy_pref".

(** Modelled from the spec: values go to the helper in kHz, the settings
    hold MHz. *)
Definition scaled (conf : CpuSettings) : option Z * option Z :=
  (Some (1000 * fst (freqs conf)), Some (1000 * snd (freqs conf))).

#[export] Instance CpuSettings_like : CpuSettingsLike CpuSettings := {|
  changed := any_changed;
  online := is_online;
  setting_changed := field_changed;
  governor := governor_name;
  energy_pref := energy_pref_name;
  freqs_scaled := scaled
|}.

Definition clamp (lo hi v : Z) : Z := Z.max lo (Z.min hi v).

Fixpoint index_of (s : string) (l : list string) : option nat :=
  match l with
  | [] => None
  | x :: rest =>
      if String.eqb x s then Some O else option_map S (index_of s rest)
  end.

(** Modelled from the spec: [setFreqs] clamps both values into the
    hardware limits.  For a pair still crossed after clamping the spec
    moves the bound the user did not touch, which a setter that is handed
    only the pair cannot tell; the model then lifts max the way
    [_on_freq_changed] of window.py does.  window.py never hands over a
    crossed pair. *)
Definition set_freqs (conf : CpuSettings) (fs : Z * Z) : CpuSettings :=
  let '(lo, hi) := hw_lims conf in
  let fmin := clamp lo hi (fst fs) in
  let fmax := clamp lo hi (snd fs) in
  let fmax := if fmin >? fmax then Z.min (fmin + 10) hi else fmax in
  let c := current conf in
  with_current conf
    {| f_online := f_online c; f_freqs := (fmin, fmax);
       f_govid := f_govid c; f_energy_pref_id := f_energy_pref_id c |}.

(** Modelled from the spec: [setGovernor(name)] does nothing when the name
    is not among [governors], otherwise it sets the index. *)
Definition set_governor (conf : CpuSettings) (gov : option string)
  : CpuSettings :=
  match gov with
  | None => conf
  | Some name =>
      match index_of name (governors conf) with
      | None => conf
      | Some i =>
          let c := current conf in
          with_current conf
            {| f_online := f_online c; f_freqs := f_freqs c;
               f_govid := Some i; f_energy_pref_id := f_energy_pref_id c |}
      end
  end.

(** Modelled from the spec: [setEnergyPref(id)] does nothing when energy
    preferences are unsupported or the identifier is not among
    [energy_prefs]. *)
Definition set_energy_pref (conf : CpuSettings) (pref : option string)
  : CpuSettings :=
  match pref with
  | None => conf
  | Some name =>
      match index_of name (energy_prefs conf) with
      | None => conf
      | Some i =>
          let c := current conf in
          with_current conf
            {| f_online := f_online c; f_freqs := f_freqs c;
               f_govid := f_govid c; f_energy_pref_id := Z.of_nat i |}
      end
  end.

(** Modelled from the spec: [setOnline(bool)] is unconditional. *)
Definition set_online (conf : CpuSettings) (b : bool) : CpuSettings :=
  let c := current conf in
  with_current conf
    {| f_online := b; f_freqs := f_freqs c;
       f_govid := f_govid c; f_energy_pref_id := f_energy_pref_id c |}.

End Config.

(** ** The edit handlers of the main window *)

Module Edit.

Import Config.

(** A [QSlider] or [QDoubleSpinBox]: Qt keeps the value inside the range
    on every [setValue] and [setRange]. *)
Record Range : Type := { minimum : Z; maximum : Z; value : Z }.

Definition qBound (lo v hi : Z) : Z := Z.max lo (Z.min hi v).

Definition setValue (v : Z) (w : Range) : Range :=
  {| minimum := minimum w; maximum := maximum w;
     value := qBound (minimum w) v (maximum w) |}.

Definition setRange (lo hi : Z) (w : Range) : Range :=
  setValue (value w) {| minimum := lo; maximum := Z.max lo hi; value := value w |}.

(** The part of [CpupowerGuiWindow] the handlers read and write.  The
    table model, the combo contents and the button states only present the
    settings and are left out. *)
Record Window : Type := {
  settings : Dict.t CpuSettings;
  refreshing : bool;
  toall_btn : bool;                 (* toall_btn.isChecked() *)
  energy_per_cpu : bool;
  cpu_combo : option Z;             (* currentData() of the selected entry *)
  gov_combo : option string;        (* gov_combo.currentData() *)
  energy_combo : option string;     (* energy_combo.currentData() *)
  min_slider : Range;
  max_slider : Range;
  min_spin : Range;
  max_spin : Range
}.

Definition with_settings (w : Window) (s : Dict.t CpuSettings) : Window :=
  {| settings := s; refreshing := refreshing w; toall_btn := toall_btn w;
     energy_per_cpu := energy_per_cpu w; cpu_combo := cpu_combo w;
     gov_combo := gov_combo w; energy_combo := energy_combo w;
     min_slider := min_slider w; max_slider := max_slider w;
     min_spin := min_spin w; max_spin := max_spin w |}.

(** The four frequency widgets replaced; [lock()] leaves [refreshing]
    false behind it. *)
Definition with_freq_widgets (w : Window) (sl_min sl_max sp_min sp_max : Range)
  (r : bool) : Window :=
  {| settings := settings w; refreshing := r; toall_btn := toall_btn w;
     energy_per_cpu := energy_per_cpu w; cpu_combo := cpu_combo w;
     gov_combo := gov_combo w; energy_combo := energy_combo w;
     min_slider := sl_min; max_slider := sl_max;
     min_spin := sp_min; max_spin := sp_max |}.

(** [_get_active_cpu] *)
Definition _get_active_cpu (w : Window) : Z :=
  match cpu_combo w with
  | Some cpu => cpu
  | None => 0
  end.

(** The slider and spin box part of [_update_sliders]. *)
Definition _update_sliders (w : Window) : Window :=
  let cpu := _get_active_cpu w in
  match Dict.get (settings w) cpu with
  | None => w
  | Some conf =>
      let '(freq_min_hw, freq_max_hw) := hw_lims conf in
      let '(freq_min, freq_max) := freqs conf in
      with_freq_widgets w
        (setValue freq_min (setRange freq_min_hw freq_max_hw (min_slider w)))
        (setValue freq_max (setRange freq_min_hw freq_max_hw (max_slider w)))
        (setValue freq_min (setRange freq_min_hw freq_max_hw (min_spin w)))
        (setValue freq_max (setRange freq_min_hw freq_max_hw (max_spin w)))
        false
  end.

(** [_update_settings_freqs] *)
Definition _update_settings_freqs (w : Window) (cpu : Z) (fmin fmax : Z)
  : Window :=
  if toall_btn w then
    with_settings w
      (Dict.update_all (fun conf => set_freqs conf (fmin, fmax)) (settings w))
  else
    with_settings w
      (Dict.update_at (fun conf => set_freqs conf (fmin, fmax)) cpu
         (settings w)).

(** The pair [_on_freq_changed] makes of the two spin box values. *)
Definition resolve_freqs (fmin fmax fmin_hw fmax_hw : Z) : Z * Z :=
  if fmin >? fmax then (fmin, Z.min (fmin + 10) fmax_hw)
  else if fmax <? fmin then (Z.max (fmax - 10) fmin_hw, fmax)
  else (fmin, fmax).

(** [_on_freq_changed]; [None] is the [KeyError] of [self.settings[cpu]]. *)
Definition _on_freq_changed (w : Window) : option Window :=
  let cpu := _get_active_cpu w in
  let fmin := value (min_spin w) in
  let fmax := value (max_spin w) in
  match Dict.get (settings w) cpu with
  | None => None
  | Some conf =>
      let '(fmin_hw, fmax_hw) := hw_lims conf in
      let '(fmin, fmax) := resolve_freqs fmin fmax fmin_hw fmax_hw in
      let w :=
        with_freq_widgets w
          (setValue fmin (min_slider w)) (setValue fmax (max_slider w))
          (setValue fmin (min_spin w)) (setValue fmax (max_spin w)) false in
      Some (_update_settings_freqs w cpu fmin fmax)
  end.

(** [on_min_spin_changed(value)] *)
Definition on_min_spin_changed (w : Window) (v : Z) : option Window :=
  if refreshing w then Some w
  else
    _on_freq_changed
      (with_freq_widgets w (setValue v (min_slider w)) (max_slider w)
         (min_spin w) (max_spin w) (refreshing w)).

(** [on_max_spin_changed(value)] *)
Definition on_max_spin_changed (w : Window) (v : Z) : option Window :=
  if refreshing w then Some w
  else
    _on_freq_changed
      (with_freq_widgets w (min_slider w) (setValue v (max_slider w))
         (min_spin w) (max_spin w) (refreshing w)).

(** [on_min_slider_changed(value)] *)
Definition on_min_slider_changed (w : Window) (v : Z) : option Window :=
  if refreshing w then Some w
  else
    _on_freq_changed
      (with_freq_widgets w (min_slider w) (max_slider w)
         (setValue v (min_spin w)) (max_spin w) (refreshing w)).

(** [on_max_slider_changed(value)] *)
Definition on_max_slider_changed (w : Window) (v : Z) : option Window :=
  if refreshing w then Some w
  else
    _on_freq_changed
      (with_freq_widgets w (min_slider w) (max_slider w)
         (min_spin w) (setValue v (max_spin w)) (refreshing w)).

(** The user types [v] into the min (max) spin box: Qt stores the bounded
    value and emits [valueChanged] with it. *)
Definition type_min_spin (w : Window) (v : Z) : option Window :=
  let sp := setValue v (min_spin w) in
  on_min_spin_changed
    (with_freq_widgets w (min_slider w) (max_slider w) sp (max_spin w)
       (refreshing w))
    (value sp).

Definition type_max_spin (w : Window) (v : Z) : option Window :=
  let sp := setValue v (max_spin w) in
  on_max_spin_changed
    (with_freq_widgets w (min_slider w) (max_slider w) (min_spin w) sp
       (refreshing w))
    (value sp).

(** [on_governor_changed(index)] *)
Definition on_governor_changed (w : Window) (index : Z) : Window :=
  if refreshing w || (index <? 0) then w
  else
    let gov := gov_combo w in
    let cpu := _get_active_cpu w in
    if toall_btn w then
      with_settings w
        (Dict.update_all (fun conf => set_governor conf gov) (settings w))
    else
      with_settings w
        (Dict.update_at (fun conf => set_governor conf gov) cpu (settings w)).

(** [on_energy_pref_changed(index)] *)
Definition on_energy_pref_changed (w : Window) (index : Z) : Window :=
  if refreshing w || (index <? 0) then w
  else
    let pref := energy_combo w in
    let cpu := _get_active_cpu w in
    if energy_per_cpu w then
      with_settings w
        (Dict.update_at (fun conf => set_energy_pref conf pref) cpu
           (settings w))
    else
      with_settings w
        (Dict.update_all (fun conf => set_energy_pref conf pref) (settings w)).

(** [on_cpu_online_toggled(checked)]; [None] is the [KeyError] of
    [self.settings[cpu]]. *)
Definition on_cpu_online_toggled (w : Window) (checked : bool)
  : option Window :=
  if refreshing w then Some w
  else
    let cpu := _get_active_cpu w in
    match Dict.get (settings w) cpu with
    | None => None
    | Some _ =>
        Some (with_settings w
                (Dict.update_at (fun conf => set_online conf checked) cpu
                   (settings w)))
    end.

(** One round of the loop of [on_toall_toggled] for the entry [c].  The
    source object is the active CPU's entry of the same dict, read again
    before every assignment. *)
Definition copy_active (active c : Z) (d : Dict.t CpuSettings)
  : Dict.t CpuSettings :=
  let assign (f : CpuSettings -> CpuSettings -> CpuSettings) d :=
    match Dict.get d active with
    | None => d
    | Some src => Dict.update_at (fun conf => f src conf) c d
    end in
  let d := assign (fun src conf => set_freqs conf (freqs src)) d in
  let d := assign (fun src conf => set_governor conf (governor_name src)) d in
  let d := assign (fun src conf => set_online conf (Config.is_online src)) d in
  assign (fun src conf => set_energy_pref conf (energy_pref_name src)) d.

(** [on_toall_toggled(checked)] *)
Definition on_toall_toggled (w : Window) (checked : bool) : option Window :=
  if checked then
    let cpu := _get_active_cpu w in
    match Dict.get (settings w) cpu with
    | None => None
    | Some _ =>
        Some (with_settings w
                (fold_left (fun d c => copy_active cpu c d)
                   (Dict.keys (settings w)) (settings w)))
    end
  else Some w.

(** The window with the "apply to all" button in state [b]. *)
Definition with_toall (w : Window) (b : bool) : Window :=
  {| settings := settings w; refreshing := refreshing w; toall_btn := b;
     energy_per_cpu := energy_per_cpu w; cpu_combo := cpu_combo w;
     gov_combo := gov_combo w; energy_combo := energy_combo w;
     min_slider := min_slider w; max_slider := max_slider w;
     min_spin := min_spin w; max_spin := max_spin w |}.

(** Both spin boxes have the range [lo, hi], as [_update_sliders] sets it
    from the hardware limits of the active CPU, and hold a value inside
    it. *)
Definition boxes_ranged (lo hi : Z) (w : Window) : Prop :=
  minimum (min_spin w) = lo /\ maximum (min_spin w) = hi
  /\ lo <= value (min_spin w) <= hi
  /\ minimum (max_spin w) = lo /\ maximum (max_spin w) = hi
  /\ lo <= value (max_spin w) <= hi.

(** The frequencies stored for the active CPU. *)
Definition active_freqs (w : Window) : option (Z * Z) :=
  option_map freqs (Dict.get (settings w) (_get_active_cpu w)).

(** The conflict rule in the words of the spec, for a request that moves
    min from [old_min] to [new_min]: min takes the requested value and max
    is pushed by the same delta, clamped into the hardware limits again. *)
Definition pushed_by_same_delta (lo hi old_min old_max new_min : Z)
  : Z * Z :=
  let delta := new_min - old_min in
  (clamp lo hi new_min, clamp lo hi (old_max + delta)).

End Edit.

(** ** A reference machine and plain settings, for the examples *)

Module Sim.

(** The values one [CpuSettings] object shows to the apply pass, written
    down as they are read. *)
Record View : Type := {
  v_changed : bool;
  v_online : bool;
  v_changed_fields : list string;
  v_governor : option string;
  v_energy_pref : option string;
  v_freqs_scaled : option Z * option Z
}.

#[export] Instance View_like : CpuSettingsLike View := {|
  changed := v_changed;
  online := v_online;
  setting_changed := fun v name => existsb (String.eqb name) (v_changed_fields v);
  governor := v_governor;
  energy_pref := v_energy_pref;
  freqs_scaled := v_freqs_scaled
|}.

Definition Call_eqb (a b : Call) : bool :=
  match a, b with
  | SetCpuOnline x, SetCpuOnline y => x =? y
  | SetCpuOffline x, SetCpuOffline y => x =? y
  | UpdateCpuGovernor x g, UpdateCpuGovernor y g' => (x =? y) && String.eqb g g'
  | UpdateCpuEnergyPrefs x p, UpdateCpuEnergyPrefs y p' =>
      (x =? y) && String.eqb p p'
  | UpdateCpuSettings x a1 b1, UpdateCpuSettings y a2 b2 =>
      (x =? y) && (a1 =? a2) && (b1 =? b2)
  | _, _ => false
  end.

(** A machine: which CPUs are present, online and offline, which may not
    be switched off, and the writes it refuses, each with the integer it
    answers; every other write succeeds with 0. *)
Record Machine : Type := {
  authorized : bool;
  present : list Z;
  cpus_online : list Z;
  cpus_offline : list Z;
  pinned : list Z;
  refused : list (Call * Z)
}.

Fixpoint answer (l : list (Call * Z)) (c : Call) : Z :=
  match l with
  | [] => 0
  | (c', r) :: rest => if Call_eqb c' c then r else answer rest c
  end.

Definition remove_cpu (cpu : Z) (l : list Z) : list Z :=
  filter (fun c => negb (c =? cpu)) l.

Definition switch (on : bool) (cpu : Z) (m : Machine) : Z * Machine :=
  let r := answer (refused m)
             (if on then SetCpuOnline cpu else SetCpuOffline cpu) in
  if r =? 0 then
    (r, {| authorized := authorized m; present := present m;
           cpus_online := if on then cpu :: cpus_online m
                          else remove_cpu cpu (cpus_online m);
           cpus_offline := if on then remove_cpu cpu (cpus_offline m)
                           else cpu :: cpus_offline m;
           pinned := pinned m; refused := refused m |})
  else (r, m).

Definition machine : Helper Machine := {|
  isauthorized := authorized;
  get_cpus_online := cpus_online;
  get_cpus_offline := cpus_offline;
  get_cpus_present := present;
  cpu_allowed_offline := fun m cpu => negb (existsb (Z.eqb cpu) (pinned m));
  set_cpu_online := switch true;
  set_cpu_offline := switch false;
  update_cpu_governor := fun cpu gov m =>
    (answer (refused m) (UpdateCpuGovernor cpu gov), m);
  update_cpu_energy_prefs := fun cpu pref m =>
    (answer (refused m) (UpdateCpuEnergyPrefs cpu pref), m);
  update_cpu_settings := fun cpu fmin fmax m =>
    (answer (refused m) (UpdateCpuSettings cpu fmin fmax), m)
|}.

(** Four CPUs, all online, CPU 0 pinned, with the given refusals. *)
Definition four_cpus (refused : list (Call * Z)) : Machine :=
  {| authorized := true; present := [0; 1; 2; 3];
     cpus_online := [0; 1; 2; 3]; cpus_offline := []; pinned := [0];
     refused := refused |}.

(** An online CPU none of whose settings differ from the baseline. *)
Definition untouched : View :=
  {| v_changed := false; v_online := true; v_changed_fields := [];
     v_governor := Some "powersave"; v_energy_pref := Some "balance_power";
     v_freqs_scaled := (Some 800000, Some 3200000) |}.

(** An online CPU with new frequency bounds and a new governor. *)
Definition freq_and_governor : View :=
  {| v_changed := true; v_online := true;
     v_changed_fields := ["freqs"; "governor"];
     v_governor := Some "performance"; v_energy_pref := Some "balance_power";
     v_freqs_scaled := (Some 1200000, Some 3200000) |}.

(** A CPU to be switched off whose other fields were edited as well. *)
Definition to_offline : View :=
  {| v_changed := true; v_online := false;
     v_changed_fields := ["online"; "freqs"; "governor"; "energy_pref"];
     v_governor := Some "performance"; v_energy_pref := Some "performance";
     v_freqs_scaled := (Some 1200000, Some 3200000) |}.

(** A CPU to be switched on with a new governor. *)
Definition to_online : View :=
  {| v_changed := true; v_online := true;
     v_changed_fields := ["online"; "governor"];
     v_governor := Some "performance"; v_energy_pref := None;
     v_freqs_scaled := (Some 800000, Some 3200000) |}.

(** A CPU to be switched on, nothing else edited. *)
Definition switch_on : View :=
  {| v_changed := true; v_online := true; v_changed_fields := ["online"];
     v_governor := Some "powersave"; v_energy_pref := None;
     v_freqs_scaled := (Some 800000, Some 3200000) |}.

(** A CPU whose frequencies, governor and energy preference all count as
    changed while none of them has a value. *)
Definition nothing_set : View :=
  {| v_changed := true; v_online := true;
     v_changed_fields := ["freqs"; "governor"; "energy_pref"];
     v_governor := None; v_energy_pref := None;
     v_freqs_scaled := (None, None) |}.

(** Four CPUs with CPU 3 offline. *)
Definition cpu3_offline (refused : list (Call * Z)) : Machine :=
  {| authorized := true; present := [0; 1; 2; 3];
     cpus_online := [0; 1; 2]; cpus_offline := [3]; pinned := [0];
     refused := refused |}.

(** The settings of one CPU as read from the machine: limits 800 to 3200
    MHz, governor powersave, energy preference balance_power. *)
Definition fresh : Config.Fields :=
  {| Config.f_online := true; Config.f_freqs := (800, 3200);
     Config.f_govid := Some 1%nat; Config.f_energy_pref_id := 1 |}.

Definition cpu_conf (n : Z) : Config.CpuSettings :=
  {| Config.cpu := n; Config.hw_lims := (800, 3200);
     Config.governors := ["performance"; "powersave"];
     Config.energy_prefs := ["performance"; "balance_power"];
     Config.current := fresh; Config.baseline := fresh |}.

(** A CPU currently set to 1000 to 2000 MHz. *)
Definition cpu_conf_1000_2000 (n : Z) : Config.CpuSettings :=
  Config.set_freqs (cpu_conf n) (1000, 2000).

Definition box (v : Z) : Edit.Range :=
  {| Edit.minimum := 800; Edit.maximum := 3200; Edit.value := v |}.

(** The window over four CPUs with CPU [active] selected, showing its
    frequencies [fmin] and [fmax]. *)
Definition window (d : Dict.t Config.CpuSettings) (active : Z)
  (toall per_cpu : bool) (fmin fmax : Z) : Edit.Window :=
  {| Edit.settings := d; Edit.refreshing := false; Edit.toall_btn := toall;
     Edit.energy_per_cpu := per_cpu; Edit.cpu_combo := Some active;
     Edit.gov_combo := Some "performance";
     Edit.energy_combo := Some "performance";
     Edit.min_slider := box fmin; Edit.max_slider := box fmax;
     Edit.min_spin := box fmin; Edit.max_spin := box fmax |}.

Definition four_fresh : Dict.t Config.CpuSettings :=
  [(0, cpu_conf 0); (1, cpu_conf 1); (2, cpu_conf 2); (3, cpu_conf 3)].

End Sim.

(** ** More of window.py and main.py

    The rest of what the two files decide themselves: how the settings
    dict is filled, where the profiles are listed, and what a write of the
    apply pass is about. *)

Module Trace.

(** The dimension a write belongs to. *)
Definition call_dim (c : Call) : Apply.Dim :=
  match c with
  | SetCpuOnline _ | SetCpuOffline _ => Apply.Online
  | UpdateCpuSettings _ _ _ => Apply.Freqs
  | UpdateCpuGovernor _ _ => Apply.Governor
  | UpdateCpuEnergyPrefs _ _ => Apply.EnergyPref
  end.

(** At most one write, and of dimension [d] for [cpu]. *)
Definition only (d : Apply.Dim) (cpu : Z) (t : list Event) : Prop :=
  (List.length t <= 1)%nat
  /\ forall e, In e t -> call_cpu (fst e) = cpu /\ call_dim (fst e) = d.

End Trace.

Module Startup.

(** [d[k] = v]: an existing key keeps its place, a new one goes last. *)
Fixpoint dict_set {V} (d : Dict.t V) (k : Z) (v : V) : Dict.t V :=
  match d with
  | [] => [(k, v)]
  | (k', v') :: rest =>
      if k' =? k then (k', v) :: rest else (k', v') :: dict_set rest k v
  end.

Section WithConstructor.

Context {C : Type}.

(** [CpuSettings(cpu)], which reads the machine, and the property
    [energy_pref_avail] of the object; both come from config.py. *)
Variable new_settings : Z -> C.
Variable conf_energy_pref_avail : C -> bool.

(** [load_cpu_settings], from the list [online_cpus] returned by the
    helper, the dict so far and the flag so far.  The dict is filled
    before [self.settings[0]] is read; [None] in the second place is the
    [KeyError] of that read. *)
Definition load_cpu_settings (online_cpus : list Z) (settings : Dict.t C)
  (energy_pref_avail : bool) : Dict.t C * option bool :=
  let settings :=
    fold_left (fun d cpu => dict_set d cpu (new_settings cpu)) online_cpus
      settings in
  match settings with
  | [] => (settings, Some energy_pref_avail)
  | _ :: _ =>
      (settings, option_map conf_energy_pref_avail (Dict.get settings 0))
  end.

End WithConstructor.

End Startup.

Module Profiles.

(** What window.py and main.py read of a profile object of config.py. *)
Record Profile : Type := {
  name : string;
  _custom : bool;
  system : bool
}.

(** A row of the profiles page: its label and whether it has a delete
    button. *)
Record Row : Type := { row_name : string; row_deletable : bool }.

(** The three lists of the profiles page. *)
Record Layouts : Type := {
  user_profiles_layout : list Row;
  system_profiles_layout : list Row;
  builtin_profiles_layout : list Row
}.

(** [_add_profile_row(name, layout, deletable)] *)
Definition _add_profile_row (name : string) (layout : list Row)
  (deletable : bool) : list Row :=
  layout ++ [{| row_name := name; row_deletable := deletable |}].

Section WithStore.

(** [self.conf.get_profile] *)
Variable get_profile : string -> Profile.

(** The body of the loop of [_generate_profiles_list]. *)
Definition place_profile (l : Layouts) (prof_name : string) : Layouts :=
  let profile := get_profile prof_name in
  if _custom profile then
    if negb (system profile) then
      {| user_profiles_layout :=
           _add_profile_row prof_name (user_profiles_layout l) true;
         system_profiles_layout := system_profiles_layout l;
         builtin_profiles_layout := builtin_profiles_layout l |}
    else
      {| user_profiles_layout := user_profiles_layout l;
         system_profiles_layout :=
           _add_profile_row prof_name (system_profiles_layout l) false;
         builtin_profiles_layout := builtin_profiles_layout l |}
  else
    {| user_profiles_layout := user_profiles_layout l;
       system_profiles_layout := system_profiles_layout l;
       builtin_profiles_layout :=
         _add_profile_row prof_name (builtin_profiles_layout l) false |}.

(** [_generate_profiles_list]: the three lists are cleared, then every
    name of [self.conf.profiles] is placed. *)
Definition _generate_profiles_list (profiles : list string) : Layouts :=
  fold_left place_profile profiles
    {| user_profiles_layout := []; system_profiles_layout := [];
       builtin_profiles_layout := [] |}.

End WithStore.

(** An entry of the tray menu: an action that applies a profile, or a
    separator. *)
Inductive MenuItem : Type :=
| Action (p : Profile)
| Separator.

(** One of the three loops of [_add_profile_actions]: an action for every
    profile the loop does not skip. *)
Definition add_actions (keep : Profile -> bool) (profiles : list Profile)
  (menu : list MenuItem) : list MenuItem :=
  fold_left (fun m p => if keep p then m ++ [Action p] else m) profiles menu.

(** [_add_profile_actions] of main.py, on the profile objects of
    [config.profiles] in their order. *)
Definition _add_profile_actions (menu : list MenuItem)
  (profiles : list Profile) : list MenuItem :=
  let menu := add_actions (fun p => negb (_custom p)) profiles menu in
  let menu := menu ++ [Separator] in
  let menu := add_actions (fun p => system p) profiles menu in
  let menu := menu ++ [Separator] in
  add_actions (fun p => _custom p && negb (system p)) profiles menu.

(** The profiles the actions of a menu apply, in order. *)
Fixpoint actions (menu : list MenuItem) : list Profile :=
  match menu with
  | [] => []
  | Action p :: rest => p :: actions rest
  | Separator :: rest => actions rest
  end.

End Profiles.

(** ** What "apply to all" copies *)

Module Copy.

Import Config.

(** The frequencies of [conf] are ordered and inside its hardware
    limits. *)
Definition freqs_settled (conf : CpuSettings) : Prop :=
  fst (hw_lims conf) <= fst (freqs conf)
  /\ fst (freqs conf) <= snd (freqs conf)
  /\ snd (freqs conf) <= snd (hw_lims conf).

(** [conf] shows what [src] shows, on the same hardware. *)
Definition follows (src conf : CpuSettings) : Prop :=
  hw_lims conf = hw_lims src
  /\ governors conf = governors src
  /\ energy_prefs conf = energy_prefs src
  /\ is_online conf = is_online src
  /\ governor_name conf = governor_name src
  /\ energy_pref_name conf = energy_pref_name src
  /\ (freqs_settled src -> freqs conf = freqs src).

(** [conf'] is the entry [conf0] after the values of [src] were assigned
    to it: the hardware facts are those of [conf0], the online target is
    that of [src], and each other value is that of [src] where the
    hardware of [conf0] offers it. *)
Definition copied (src conf0 conf' : CpuSettings) : Prop :=
  hw_lims conf' = hw_lims conf0
  /\ governors conf' = governors conf0
  /\ energy_prefs conf' = energy_prefs conf0
  /\ is_online conf' = is_online src
  /\ (hw_lims conf0 = hw_lims src -> freqs_settled src ->
      freqs conf' = freqs src)
  /\ (forall gov, governor_name src = Some gov -> In gov (governors conf0) ->
      governor_name conf' = Some gov)
  /\ (forall pref, energy_pref_name src = Some pref ->
      In pref (energy_prefs conf0) -> energy_pref_name conf' = Some pref).

End Copy.

(** ** The CPU table *)

Module Table.

Import Config.

Section WithCells.

(** [str.capitalize], and the Python floats of the "Current freq." column
    with their [0.0]. *)
Variable capitalize : string -> string.
Variable Freq : Type.
Variable zero : Freq.

(** One row of [CpuTableModel._data]:
    [cpu, online, fmin, fmax, governor, current_freq, changed]. *)
Record Row : Type := {
  r_cpu : Z;
  r_online : bool;
  r_fmin : Z;
  r_fmax : Z;
  r_governor : string;
  r_current_freq : Freq;
  r_changed : bool
}.

Definition with_current_freq (r : Row) (freq : Freq) : Row :=
  {| r_cpu := r_cpu r; r_online := r_online r; r_fmin := r_fmin r;
     r_fmax := r_fmax r; r_governor := r_governor r;
     r_current_freq := freq; r_changed := r_changed r |}.

Definition with_changed (r : Row) (changed : bool) : Row :=
  {| r_cpu := r_cpu r; r_online := r_online r; r_fmin := r_fmin r;
     r_fmax := r_fmax r; r_governor := r_governor r;
     r_current_freq := r_current_freq r; r_changed := changed |}.

(** [self._data[row] = f(self._data[row])] *)
Fixpoint set_nth (n : nat) (f : Row -> Row) (data : list Row) : list Row :=
  match data, n with
  | [], _ => []
  | r :: rest, O => f r :: rest
  | r :: rest, S n => r :: set_nth n f rest
  end.

(** [0 <= row < len(self._data)] *)
Definition valid_row (row : Z) (data : list Row) : bool :=
  (0 <=? row) && (row <? Z.of_nat (List.length data)).

(** [update_row(row, data)] *)
Definition update_row (row : Z) (new_row : Row) (data : list Row)
  : list Row :=
  if valid_row row data then set_nth (Z.to_nat row) (fun _ => new_row) data
  else data.

(** [update_current_freq(row, freq)] *)
Definition update_current_freq (row : Z) (freq : Freq) (data : list Row)
  : list Row :=
  if valid_row row data
  then set_nth (Z.to_nat row) (fun r => with_current_freq r freq) data
  else data.

(** [set_changed(row, changed)] *)
Definition set_changed (row : Z) (changed : bool) (data : list Row)
  : list Row :=
  if valid_row row data
  then set_nth (Z.to_nat row) (fun r => with_changed r changed) data
  else data.

(** The row [_update_table] makes of one entry of the settings. *)
Definition row_of (cpu : Z) (conf : CpuSettings) : Row :=
  {| r_cpu := cpu;
     r_online := is_online conf;
     r_fmin := fst (freqs conf);
     r_fmax := snd (freqs conf);
     r_governor :=
       match governor_name conf with
       | Some gov => if truthy (Some gov) then capitalize gov else EmptyString
       | None => EmptyString
       end;
     r_current_freq := zero;
     r_changed := any_changed conf |}.

(** [_update_table]: the rows handed to [set_data]. *)
Definition _update_table (settings : Dict.t CpuSettings) : list Row :=
  fold_left (fun data kv => data ++ [row_of (fst kv) (snd kv)]) settings [].

(** [_update_current_freq]; [read cpu] stands for
    [read_current_freq(cpu) / 1e3]. *)
Definition _update_current_freq (online_cpus : list Z) (read : Z -> Freq)
  (data : list Row) : list Row :=
  fst (fold_left
         (fun st cpu =>
            (update_current_freq (snd st) (read cpu) (fst st), snd st + 1))
         online_cpus (data, 0)).

(** [_update_cpu_combo]: the data of the entries of the CPU combo. *)
Definition _update_cpu_combo (online_cpus : list Z) : list Z :=
  fold_left (fun items cpu => items ++ [cpu]) online_cpus [].

(** What [on_energy_pref_changed] does to the table: it calls
    [set_changed] with the CPU number for the row, once per entry it
    assigned to, and does not rebuild the table. *)
Definition on_energy_pref_changed (w : Edit.Window) (index : Z)
  (data : list Row) : list Row :=
  if Edit.refreshing w || (index <? 0) then data
  else
    let pref := Edit.energy_combo w in
    let cpu := Edit._get_active_cpu w in
    if Edit.energy_per_cpu w then
      match Dict.get (Edit.settings w) cpu with
      | None => data
      | Some conf =>
          set_changed cpu (any_changed (set_energy_pref conf pref)) data
      end
    else
      fold_left
        (fun data kv =>
           set_changed (fst kv)
             (any_changed (set_energy_pref (snd kv) pref)) data)
        (Edit.settings w) data.

(** The cells of a row that show the settings: all but the current
    frequency. *)
Definition settings_cells (r : Row)
  : Z * bool * Z * Z * string * bool :=
  (r_cpu r, r_online r, r_fmin r, r_fmax r, r_governor r, r_changed r).

End WithCells.

End Table.

(** ** Recalling a profile *)

Module Recall.

Section WithSettings.

Context {C : Type}.

(** [CpuSettings(cpu)], the property [energy_pref_avail], the list
    [governors] and the three setters [_set_profile_settings] assigns
    through; all of config.py.  [F] is what a profile holds under
    ["freqs"]. *)
Variable new_settings : Z -> C.
Variable conf_energy_pref_avail : C -> bool.
Variable F : Type.
Variable governors : C -> list string.
Variable set_freqs_scaled : C -> F -> C.
Variable set_governor : C -> string -> C.
Variable set_online : C -> bool -> C.

(** The settings a profile holds for one CPU, as window.py reads them:
    [settings["freqs"]], [settings["governor"]], [settings["online"]]. *)
Record Entry : Type := {
  e_freqs : F;
  e_governor : string;
  e_online : bool
}.

(** The three assignments of the loop body. *)
Definition assign (conf : C) (s : Entry) : C :=
  let conf := set_freqs_scaled conf (e_freqs s) in
  let conf :=
    if existsb (String.eqb (e_governor s)) (governors conf)
    then set_governor conf (e_governor s)
    else conf in
  set_online conf (e_online s).

(** One round of the loop: a CPU without settings is skipped. *)
Definition recall_cpu (d : Dict.t C) (cpu : Z) (s : Entry) : Dict.t C :=
  match Dict.get d cpu with
  | None => d
  | Some _ => Dict.update_at (fun conf => assign conf s) cpu d
  end.

(** [_set_profile_settings], from the list the helper returns, the
    settings and the flag so far and [profile.settings].  The result is
    the settings, the flag [energy_pref_avail] and the state of the
    "apply to all" button; [None] is the [KeyError] of
    [load_cpu_settings]. *)
Definition _set_profile_settings (online_cpus : list Z)
  (settings : Dict.t C) (energy_pref_avail : bool)
  (prof_settings : Dict.t Entry) : option (Dict.t C * bool * bool) :=
  match Startup.load_cpu_settings new_settings conf_energy_pref_avail
          online_cpus settings energy_pref_avail with
  | (_, None) => None
  | (settings, Some energy_pref_avail) =>
      let toall_btn := false in
      Some (fold_left (fun d kv => recall_cpu d (fst kv) (snd kv))
              prof_settings settings,
            energy_pref_avail, toall_btn)
  end.

End WithSettings.

End Recall.

(** ** The governor and energy preference combos *)

Module Combos.

Import Config.

(** A [QComboBox]: the text and the data of its entries and the current
    index, [-1] when there is none. *)
Record Combo : Type := {
  items : list (string * string);
  currentIndex : Z;
  isEnabled : bool
}.

Definition clear (c : Combo) : Combo :=
  {| items := []; currentIndex := -1; isEnabled := isEnabled c |}.

(** The first entry of an empty combo becomes the current one. *)
Definition addItem (text data : string) (c : Combo) : Combo :=
  {| items := items c ++ [(text, data)];
     currentIndex := match items c with
                     | [] => 0
                     | _ :: _ => currentIndex c
                     end;
     isEnabled := isEnabled c |}.

(** An index outside the entries leaves the combo without a current
    entry. *)
Definition setCurrentIndex (index : Z) (c : Combo) : Combo :=
  {| items := items c;
     currentIndex :=
       if (0 <=? index) && (index <? Z.of_nat (List.length (items c)))
       then index else -1;
     isEnabled := isEnabled c |}.

Definition setEnabled (b : bool) (c : Combo) : Combo :=
  {| items := items c; currentIndex := currentIndex c; isEnabled := b |}.

Definition currentData (c : Combo) : option string :=
  if currentIndex c <? 0 then None
  else option_map snd (nth_error (items c) (Z.to_nat (currentIndex c))).

Section WithText.

(** [str.capitalize] and [pref.replace("_", " ")]. *)
Variable capitalize : string -> string.
Variable spaced : string -> string.

(** [_update_gov_combo], for the settings [conf] of the active CPU. *)
Definition _update_gov_combo (conf : CpuSettings) (gov_combo : Combo)
  : Combo :=
  let gov_combo := clear gov_combo in
  match govid conf with
  | Some governor =>
      let gov_combo :=
        fold_left (fun c gov => addItem (capitalize gov) gov c)
          (governors conf) gov_combo in
      setEnabled true (setCurrentIndex (Z.of_nat governor) gov_combo)
  | None => setEnabled false gov_combo
  end.

(** [_update_energy_pref_combo] *)
Definition _update_energy_pref_combo (conf : CpuSettings)
  (energy_combo : Combo) : Combo :=
  let energy_combo := clear energy_combo in
  if negb (energy_pref_id conf =? -1) then
    let energy_combo :=
      fold_left (fun c pref => addItem (capitalize (spaced pref)) pref c)
        (energy_prefs conf) energy_combo in
    setEnabled true (setCurrentIndex (energy_pref_id conf) energy_combo)
  else setEnabled false energy_combo.

End WithText.

(** The window when the two combos hold [gov] and [pref]. *)
Definition with_combo_data (w : Edit.Window) (gov pref : option string)
  : Edit.Window :=
  {| Edit.settings := Edit.settings w; Edit.refreshing := Edit.refreshing w;
     Edit.toall_btn := Edit.toall_btn w;
     Edit.energy_per_cpu := Edit.energy_per_cpu w;
     Edit.cpu_combo := Edit.cpu_combo w;
     Edit.gov_combo := gov; Edit.energy_combo := pref;
     Edit.min_slider := Edit.min_slider w;
     Edit.max_slider := Edit.max_slider w;
     Edit.min_spin := Edit.min_spin w; Edit.max_spin := Edit.max_spin w |}.

(** The user picks entry [index] of the governor combo: the combo makes
    it the current one and [on_governor_changed] runs with the current
    index. *)
Definition pick_governor (w : Edit.Window) (gov_combo : Combo) (index : Z)
  : Edit.Window :=
  let gov_combo := setCurrentIndex index gov_combo in
  Edit.on_governor_changed
    (with_combo_data w (currentData gov_combo) (Edit.energy_combo w))
    (currentIndex gov_combo).

(** The same for the energy preference combo. *)
Definition pick_energy_pref (w : Edit.Window) (energy_combo : Combo)
  (index : Z) : Edit.Window :=
  let energy_combo := setCurrentIndex index energy_combo in
  Edit.on_energy_pref_changed
    (with_combo_data w (Edit.gov_combo w) (currentData energy_combo))
    (currentIndex energy_combo).

End Combos.

(** ** The lock around widget updates *)

Module Locking.

Import Edit.

Definition set_refreshing (w : Window) (b : bool) : Window :=
  with_freq_widgets w (min_slider w) (max_slider w) (min_spin w) (max_spin w)
    b.

(** [with self.lock(): body].  The body returns the window it leaves and
    whether it ran to its end; [lock] sets [refreshing] before the body
    and resets it after the [yield], which a body that raises never
    reaches: the generator has no [try]. *)
Definition lock (body : Window -> Window * bool) (w : Window)
  : Window * bool :=
  let (w, finished) := body (set_refreshing w true) in
  if finished then (set_refreshing w false, true) else (w, false).

(** The signals of the edit widgets whose handlers start with
    [if self.refreshing: return]. *)
Inductive EditEvent : Type :=
| OnlineToggled (checked : bool)
| MinSliderChanged (value : Z)
| MaxSliderChanged (value : Z)
| MinSpinChanged (value : Z)
| MaxSpinChanged (value : Z)
| GovernorChanged (index : Z)
| EnergyPrefChanged (index : Z).

(** The handler each signal is connected to. *)
Definition handle (w : Window) (e : EditEvent) : option Window :=
  match e with
  | OnlineToggled checked => on_cpu_online_toggled w checked
  | MinSliderChanged v => on_min_slider_changed w v
  | MaxSliderChanged v => on_max_slider_changed w v
  | MinSpinChanged v => on_min_spin_changed w v
  | MaxSpinChanged v => on_max_spin_changed w v
  | GovernorChanged index => Some (on_governor_changed w index)
  | EnergyPrefChanged index => Some (on_energy_pref_changed w index)
  end.

(** One signal after the other; [None] when a handler raised. *)
Fixpoint handle_all (w : Window) (events : list EditEvent)
  : option Window :=
  match events with
  | [] => Some w
  | e :: rest =>
      match handle w e with
      | Some w => handle_all w rest
      | None => None
      end
  end.

End Locking.

(** ** A click on Apply, to its end *)

Module Click.

Section WithWindow.

Context {H : Type} (HELPER : Helper H).
Context {C : Type} `{CpuSettingsLike C}.

(** [HELPER.get_cpus_available()], and what config.py provides:
    [CpuSettings(cpu)] and [update_conf()], which read the machine as the
    writes left it, the property [energy_pref_avail] and [reset_conf()]. *)
Variable get_cpus_available : H -> list Z.
Variable new_settings : H -> Z -> C.
Variable conf_energy_pref_avail : C -> bool.
Variable update_conf : H -> C -> C.
Variable reset_conf : C -> C.

(** What [on_apply_clicked] reads and writes of the window. *)
Record Window : Type := {
  settings : Dict.t C;
  energy_pref_avail : bool;
  refreshing : bool;
  active_cpu : Z;                   (* _get_active_cpu() *)
  profile_index : Z                 (* profile_combo.currentIndex() *)
}.

Definition with_settings (w : Window) (s : Dict.t C) : Window :=
  {| settings := s; energy_pref_avail := energy_pref_avail w;
     refreshing := refreshing w; active_cpu := active_cpu w;
     profile_index := profile_index w |}.

(** How a click on Apply ends: with the permission error, with an
    exception ([KeyError] of [self.settings[...]], [AttributeError] of
    [conf.online]) before any dialog, or at the last line, with the sum,
    the error dialog if one is shown, and the window. *)
Inductive End : Type :=
| Denied (msg : string)
| Raised
| Finished (ret : Z) (dialog : option string) (w : Window).

Definition and_then {A B} (o : option A) (f : A -> option B) : option B :=
  match o with
  | Some a => f a
  | None => None
  end.

(** [_update_sliders], for this part of the window: without settings for
    the active CPU it returns at once; with them its [lock()] ends with
    [refreshing] false.  The handlers its widget updates set off return
    at their first line, under the lock. *)
Definition _update_sliders (w : Window) : Window :=
  match Dict.get (settings w) (active_cpu w) with
  | None => w
  | Some _ =>
      {| settings := settings w; energy_pref_avail := energy_pref_avail w;
         refreshing := false; active_cpu := active_cpu w;
         profile_index := profile_index w |}
  end.

(** [_refresh_cpu_settings(cpu)]; [None] is the [KeyError] of
    [self.settings[cpu]]. *)
Definition _refresh_cpu_settings (h : H) (cpu : Z) (w : Window)
  : option Window :=
  match Dict.get (settings w) cpu with
  | None => None
  | Some _ =>
      Some (_update_sliders
              (with_settings w
                 (Dict.update_at (update_conf h) cpu (settings w))))
  end.

(** [for cpu in self.settings.keys(): self._refresh_cpu_settings(cpu)] *)
Fixpoint refresh_all (h : H) (cpus : list Z) (w : Window) : option Window :=
  match cpus with
  | [] => Some w
  | cpu :: rest =>
      and_then (_refresh_cpu_settings h cpu w) (refresh_all h rest)
  end.

(** [load_cpu_settings]; [None] is the [KeyError] of [self.settings[0]]. *)
Definition load_cpu_settings (h : H) (w : Window) : option Window :=
  match
    Startup.load_cpu_settings (new_settings h) conf_energy_pref_avail
      (get_cpus_available h) (settings w) (energy_pref_avail w)
  with
  | (s, Some flag) =>
      Some {| settings := s; energy_pref_avail := flag;
              refreshing := refreshing w; active_cpu := active_cpu w;
              profile_index := profile_index w |}
  | (_, None) => None
  end.

(** [on_profile_changed(index)] for an entry whose data is [None], as
    that of entry 0, "No profile": the settings are loaded again and
    every entry is reset. *)
Definition on_profile_changed (h : H) (index : Z) (w : Window)
  : option Window :=
  if refreshing w || (index <? 0) then Some w
  else
    and_then (load_cpu_settings h w)
      (fun w =>
         Some (_update_sliders
                 (with_settings w (Dict.update_all reset_conf (settings w))))).

(** [self.profile_combo.setCurrentIndex(0)]: when another entry was the
    current one the combo emits [currentIndexChanged(0)] and
    [on_profile_changed] runs. *)
Definition select_no_profile (h : H) (w : Window) : option Window :=
  if profile_index w =? 0 then Some w
  else
    on_profile_changed h 0
      {| settings := settings w; energy_pref_avail := energy_pref_avail w;
         refreshing := refreshing w; active_cpu := active_cpu w;
         profile_index := 0 |}.

(** What follows the loop of [on_apply_clicked], up to the test of
    [ret].  The [_update_sliders()] that [_set_cpu_online] runs after a
    switch-on is run again here for every key, by the refresh. *)
Definition after_the_loop (h : H) (w : Window) : option Window :=
  and_then (refresh_all h (Dict.keys (settings w)) w)
    (fun w =>
       and_then (select_no_profile h w)
         (fun w =>
            and_then (load_cpu_settings h w)
              (fun w => Some (_update_sliders w)))).

(** [on_apply_clicked], with what follows the loop. *)
Definition on_apply_clicked (w : Window) (h : H) : End * H * list Event :=
  if negb (isauthorized HELPER h) then
    (Denied "You don't have permissions to update CPU settings!", h, [])
  else
    let '(o, h', t) :=
      Apply.apply_pass HELPER (energy_pref_avail w) (settings w) h in
    match o with
    | None => (Raised, h', t)
    | Some ret =>
        match after_the_loop h' w with
        | None => (Raised, h', t)
        | Some w => (Finished ret (Apply.report ret) w, h', t)
        end
    end.

End WithWindow.

End Click.

(** ** More settings for the examples *)

Module Cases.

(** An online CPU whose frequencies, governor and energy preference were
    all edited. *)
Definition all_three : Sim.View :=
  {| Sim.v_changed := true; Sim.v_online := true;
     Sim.v_changed_fields := ["freqs"; "governor"; "energy_pref"];
     Sim.v_governor := Some "performance";
     Sim.v_energy_pref := Some "performance";
     Sim.v_freqs_scaled := (Some 1200000, Some 3200000) |}.

(** An online CPU with a new energy preference. *)
Definition energy_only : Sim.View :=
  {| Sim.v_changed := true; Sim.v_online := true;
     Sim.v_changed_fields := ["energy_pref"];
     Sim.v_governor := Some "powersave";
     Sim.v_energy_pref := Some "power";
     Sim.v_freqs_scaled := (Some 800000, Some 3200000) |}.

(** An online CPU with new frequencies and a new governor whose energy
    preference counts as changed but is unset. *)
Definition no_preference : Sim.View :=
  {| Sim.v_changed := true; Sim.v_online := true;
     Sim.v_changed_fields := ["freqs"; "governor"; "energy_pref"];
     Sim.v_governor := Some "performance";
     Sim.v_energy_pref := None;
     Sim.v_freqs_scaled := (Some 1200000, Some 3200000) |}.

(** An online CPU of which only the energy preference counts as changed,
    and is unset. *)
Definition preference_unset : Sim.View :=
  {| Sim.v_changed := true; Sim.v_online := true;
     Sim.v_changed_fields := ["energy_pref"];
     Sim.v_governor := Some "powersave";
     Sim.v_energy_pref := None;
     Sim.v_freqs_scaled := (Some 800000, Some 3200000) |}.

(** Three profiles: a built-in one, one of the system and one of the
    user. *)
Definition balanced : Profiles.Profile :=
  {| Profiles.name := "Balanced"; Profiles._custom := false;
     Profiles.system := false |}.

Definition site : Profiles.Profile :=
  {| Profiles.name := "site"; Profiles._custom := true;
     Profiles.system := true |}.

Definition mine : Profiles.Profile :=
  {| Profiles.name := "mine"; Profiles._custom := true;
     Profiles.system := false |}.

Definition profile_named (n : string) : Profiles.Profile :=
  if String.eqb n "Balanced" then balanced
  else if String.eqb n "site" then site
  else mine.

(** Four CPUs as read from the machine, but for CPU 1: set to 1000 to
    2000 MHz, governor performance, to be switched off. *)
Definition cpu1_edited : Dict.t Config.CpuSettings :=
  [(0, Sim.cpu_conf 0);
   (1, Config.set_online
         (Config.set_governor (Sim.cpu_conf_1000_2000 1) (Some "performance"))
         false);
   (2, Sim.cpu_conf 2); (3, Sim.cpu_conf 3)].

End Cases.

(** * Properties *)

Unset Implicit Arguments.

Module DictFacts.
Import Dict.

Lemma get_In {V} (d : t V) k v : get d k = Some v -> In (k, v) d.
Proof.
  induction d as [|[k' v'] d IH]; simpl; [discriminate|].
  destruct (Z.eqb_spec k' k) as [->|_].
  - intros [= ->]. now left.
  - intros Hg. right. now apply IH.
Qed.

Lemma In_keys_get {V} (d : t V) k :
  In k (keys d) -> exists v, get d k = Some v.
Proof.
  induction d as [|[k' v'] d IH]; simpl; [contradiction|].
  intros Hin. destruct (Z.eqb_spec k' k) as [->|Hne].
  - now exists v'.
  - destruct Hin as [Heq|Hin]; [contradiction|]. now apply IH.
Qed.

Lemma In_get {V} (d : t V) k v :
  NoDup (keys d) -> In (k, v) d -> get d k = Some v.
Proof.
  induction d as [|[k' v'] d IH]; simpl; [contradiction|].
  intros Hnd Hin. inversion Hnd as [|? ? Hnotin Hnd']; subst.
  destruct Hin as [[= -> ->]|Hin].
  - now rewrite Z.eqb_refl.
  - destruct (Z.eqb_spec k' k) as [->|_].
    + exfalso. apply Hnotin. now apply (in_map fst) in Hin.
    + now apply IH.
Qed.

Lemma keys_update_all {V} (f : V -> V) (d : t V) :
  keys (update_all f d) = keys d.
Proof.
  unfold keys, update_all. rewrite map_map. now apply map_ext.
Qed.

Lemma keys_update_at {V} (f : V -> V) k (d : t V) :
  keys (update_at f k d) = keys d.
Proof.
  unfold keys, update_at. rewrite map_map. apply map_ext.
  intros [k' v]; simpl. now destruct (k' =? k).
Qed.

Lemma get_update_all {V} (f : V -> V) (d : t V) k :
  get (update_all f d) k = option_map f (get d k).
Proof.
  induction d as [|[k' v'] d IH]; simpl; [reflexivity|].
  now destruct (k' =? k).
Qed.

Lemma get_update_at_same {V} (f : V -> V) (d : t V) k :
  get (update_at f k d) k = option_map f (get d k).
Proof.
  induction d as [|[k' v'] d IH]; simpl; [reflexivity|].
  destruct (Z.eqb_spec k' k) as [->|Hne]; simpl.
  - now rewrite Z.eqb_refl.
  - destruct (Z.eqb_spec k' k); [contradiction|]. exact IH.
Qed.

Lemma get_update_at_other {V} (f : V -> V) (d : t V) k k0 :
  k0 <> k -> get (update_at f k d) k0 = get d k0.
Proof.
  intros Hne. induction d as [|[k' v'] d IH]; simpl; [reflexivity|].
  destruct (Z.eqb_spec k' k) as [->|Hne']; simpl.
  - destruct (Z.eqb_spec k k0); [congruence|]. exact IH.
  - destruct (k' =? k0); [reflexivity|]. exact IH.
Qed.

End DictFacts.

(** ** The steps of the apply pass *)

Section ApplyFacts.

Import Apply.

Context {H : Type} (HELPER : Helper H).
Context {C : Type} `{CpuSettingsLike C}.
Variable energy_pref_avail : bool.

Ltac run :=
  unfold _set_cpu_online, _set_cpu_governor, _set_cpu_frequencies,
    _set_cpu_energy_preferences, logged_if, logged, add_if, bind, call, ask,
    mret in *.

(** [_set_cpu_online], case by case. *)
Lemma set_cpu_online_run (settings : Dict.t C) cpu h :
  _set_cpu_online HELPER settings cpu h =
  match Dict.get settings cpu with
  | None => (0, h, [])
  | Some conf =>
      if is_offline HELPER cpu h && online conf then
        let '(r, h') := set_cpu_online HELPER cpu h in
        (r, h', [(SetCpuOnline cpu, r)])
      else if is_online HELPER cpu h && negb (online conf) then
        if cpu_allowed_offline HELPER h cpu then
          let '(r, h') := set_cpu_offline HELPER cpu h in
          (r, h', [(SetCpuOffline cpu, r)])
        else (0, h, [])
      else (0, h, [])
  end.
Proof.
  run. destruct (Dict.get settings cpu) as [conf|]; [|reflexivity].
  destruct (is_offline HELPER cpu h && online conf); simpl.
  - destruct (set_cpu_online HELPER cpu h) as [r h']. reflexivity.
  - destruct (is_online HELPER cpu h && negb (online conf)); [|reflexivity].
    destruct (cpu_allowed_offline HELPER h cpu); [|reflexivity].
    simpl. destruct (set_cpu_offline HELPER cpu h) as [r h']. reflexivity.
Qed.

Lemma set_cpu_governor_run (settings : Dict.t C) cpu h :
  _set_cpu_governor HELPER settings cpu h =
  match Dict.get settings cpu with
  | None => (-1, h, [])
  | Some conf =>
      match governor conf with
      | None => (-1, h, [])
      | Some gov =>
          let '(raw, h') := update_cpu_governor HELPER cpu gov h in
          (mapped (-11) raw, h', [(UpdateCpuGovernor cpu gov, raw)])
      end
  end.
Proof.
  run. destruct (Dict.get settings cpu) as [conf|]; [|reflexivity].
  destruct (governor conf) as [gov|]; [|reflexivity]. simpl.
  destruct (update_cpu_governor HELPER cpu gov h) as [raw h'].
  unfold mapped. now destruct (raw =? 0).
Qed.

Lemma set_cpu_frequencies_run (settings : Dict.t C) cpu h :
  _set_cpu_frequencies HELPER settings cpu h =
  match Dict.get settings cpu with
  | None => (-1, h, [])
  | Some conf =>
      match freqs_scaled conf with
      | (Some fmin, Some fmax) =>
          let '(raw, h') := update_cpu_settings HELPER cpu fmin fmax h in
          (mapped (-13) raw, h', [(UpdateCpuSettings cpu fmin fmax, raw)])
      | _ => (-1, h, [])
      end
  end.
Proof.
  run. destruct (Dict.get settings cpu) as [conf|]; [|reflexivity].
  destruct (freqs_scaled conf) as [[fmin|] [fmax|]]; try reflexivity. simpl.
  destruct (update_cpu_settings HELPER cpu fmin fmax h) as [raw h'].
  unfold mapped. now destruct (raw =? 0).
Qed.

Lemma set_cpu_energy_preferences_run (settings : Dict.t C) cpu h :
  _set_cpu_energy_preferences HELPER energy_pref_avail settings cpu h =
  if negb energy_pref_avail then (0, h, [])
  else
    match Dict.get settings cpu with
    | None => (-1, h, [])
    | Some conf =>
        match energy_pref conf with
        | Some pref =>
            if truthy (Some pref) then
              let '(raw, h') := update_cpu_energy_prefs HELPER cpu pref h in
              (mapped (-12) raw, h', [(UpdateCpuEnergyPrefs cpu pref, raw)])
            else (-1, h, [])
        | None => (-1, h, [])
        end
    end.
Proof.
  run. destruct energy_pref_avail; [|reflexivity]. cbn [negb].
  destruct (Dict.get settings cpu) as [conf|]; [|reflexivity].
  destruct (energy_pref conf) as [pref|]; [|reflexivity].
  destruct (truthy (Some pref)); [|reflexivity]. cbn [negb perform].
  destruct (update_cpu_energy_prefs HELPER cpu pref h) as [raw h'].
  unfold mapped. now destruct (raw =? 0).
Qed.

Lemma total_app (a b : list Step) : total (a ++ b) = total a + total b.
Proof.
  unfold total. induction a as [|s a IH]; simpl; [reflexivity|].
  rewrite IH. lia.
Qed.

Lemma writes_app (a b : list Step) : writes (a ++ b) = writes a ++ writes b.
Proof. unfold writes. now rewrite flat_map_app. Qed.

Lemma In_writes (l : list Step) e :
  In e (writes l) <-> exists s, In s l /\ In e (step_calls s).
Proof. unfold writes. apply in_flat_map. Qed.

(** Each step function leaves a step of the shape of its dimension. *)
Lemma shape_online (settings : Dict.t C) cpu conf h r h' t :
  Dict.get settings cpu = Some conf ->
  _set_cpu_online HELPER settings cpu h = (r, h', t) ->
  step_shape energy_pref_avail conf
    {| step_cpu := cpu; step_dim := Online; step_calls := t; step_ret := r |}.
Proof.
  intros Hget. rewrite set_cpu_online_run, Hget. unfold step_shape; simpl.
  destruct (is_offline HELPER cpu h && online conf) eqn:E1.
  - apply andb_prop in E1 as [_ Hon].
    destruct (set_cpu_online HELPER cpu h); intros [= <- <- <-]. auto.
  - destruct (is_online HELPER cpu h && negb (online conf)) eqn:E2.
    + apply andb_prop in E2 as [_ Hoff]. apply negb_true_iff in Hoff.
      destruct (cpu_allowed_offline HELPER h cpu).
      * destruct (set_cpu_offline HELPER cpu h); intros [= <- <- <-]. auto.
      * intros [= <- <- <-]. auto.
    + intros [= <- <- <-]. auto.
Qed.

Lemma shape_freqs (settings : Dict.t C) cpu conf h r h' t :
  Dict.get settings cpu = Some conf ->
  _set_cpu_frequencies HELPER settings cpu h = (r, h', t) ->
  step_shape energy_pref_avail conf
    {| step_cpu := cpu; step_dim := Freqs; step_calls := t; step_ret := r |}.
Proof.
  intros Hget. rewrite set_cpu_frequencies_run, Hget.
  unfold step_shape; simpl.
  destruct (freqs_scaled conf) as [[fmin|] [fmax|]]; simpl;
    try (intros [= <- <- <-]; left; auto).
  destruct (update_cpu_settings HELPER cpu fmin fmax h) as [raw h1].
  intros [= <- <- <-]. right. now exists fmin, fmax, raw.
Qed.

Lemma shape_governor (settings : Dict.t C) cpu conf h r h' t :
  Dict.get settings cpu = Some conf ->
  _set_cpu_governor HELPER settings cpu h = (r, h', t) ->
  step_shape energy_pref_avail conf
    {| step_cpu := cpu; step_dim := Governor; step_calls := t;
       step_ret := r |}.
Proof.
  intros Hget. rewrite set_cpu_governor_run, Hget.
  unfold step_shape; simpl.
  destruct (governor conf) as [gov|].
  - destruct (update_cpu_governor HELPER cpu gov h) as [raw h1].
    intros [= <- <- <-]. right. now exists gov, raw.
  - intros [= <- <- <-]. left. auto.
Qed.

Lemma shape_energy (settings : Dict.t C) cpu conf h r h' t :
  Dict.get settings cpu = Some conf ->
  _set_cpu_energy_preferences HELPER energy_pref_avail settings cpu h
  = (r, h', t) ->
  step_shape energy_pref_avail conf
    {| step_cpu := cpu; step_dim := EnergyPref; step_calls := t;
       step_ret := r |}.
Proof.
  intros Hget. rewrite set_cpu_energy_preferences_run, Hget.
  unfold step_shape; cbn [step_dim step_calls step_ret step_cpu].
  destruct energy_pref_avail; cbn [negb].
  - destruct (energy_pref conf) as [pref|] eqn:Epref.
    + destruct (truthy (Some pref)) eqn:Et.
      * destruct (update_cpu_energy_prefs HELPER cpu pref h) as [raw h1].
        intros [= <- <- <-]. right; right. now exists pref, raw.
      * intros [= <- <- <-]. right; left. auto.
    + intros [= <- <- <-]. right; left. auto.
  - intros [= <- <- <-]. left. auto.
Qed.

(** A guarded step in both readings of the pass. *)
Lemma logged_if_spec (cond : bool) cpu d (m : M Z) (h : H) :
  exists l h',
    logged_if cond cpu d m h = (l, h', writes l)
    /\ (forall ret, add_if cond m ret h = (ret + total l, h', writes l))
    /\ ((cond = false /\ l = [] /\ h' = h)
        \/ (cond = true /\ exists r t,
               m h = (r, h', t)
               /\ l = [{| step_cpu := cpu; step_dim := d; step_calls := t;
                          step_ret := r |}])).
Proof.
  unfold logged_if, add_if, logged, bind, mret. destruct cond.
  - destruct (m h) as [[r h'] t] eqn:Em.
    exists [{| step_cpu := cpu; step_dim := d; step_calls := t;
               step_ret := r |}], h'.
    unfold writes, total; simpl. rewrite !app_nil_r. repeat split.
    + intros ret. f_equal. f_equal. lia.
    + right. split; [reflexivity|]. now exists r, t.
  - exists [], h. unfold writes, total; simpl. repeat split.
    + intros ret. f_equal. f_equal. lia.
    + left. auto.
Qed.

Lemma dims_nodup (cpu : Z) (l1 l2 l3 : list Step) (s0 : Step) :
  step_dim s0 = Online ->
  (l1 = [] \/ exists s, l1 = [s] /\ step_dim s = Freqs) ->
  (l2 = [] \/ exists s, l2 = [s] /\ step_dim s = Governor) ->
  (l3 = [] \/ exists s, l3 = [s] /\ step_dim s = EnergyPref) ->
  NoDup (map step_dim ([s0] ++ l1 ++ l2 ++ l3)).
Proof.
  intros H0' [->|(s1 & -> & H1)] [->|(s2 & -> & H2)] [->|(s3 & -> & H3)];
    simpl; rewrite ?H0', ?H1, ?H2, ?H3;
    repeat (constructor; [simpl; intuition discriminate|]); constructor.
Qed.

(** One CPU of the pass: the loop body and its step-by-step reading agree,
    and the steps are the ones the source runs. *)
Lemma cpu_steps_spec (settings : Dict.t C) cpu conf h :
  Dict.get settings cpu = Some conf ->
  exists l h',
    cpu_steps HELPER energy_pref_avail settings cpu h = (Some l, h', writes l)
    /\ (forall ret,
           apply_cpu HELPER energy_pref_avail settings cpu ret h
           = (Some (ret + total l), h', writes l))
    /\ Forall (step_ok energy_pref_avail settings) l
    /\ Forall (fun s => step_cpu s = cpu) l
    /\ NoDup (map step_dim l)
    /\ (online conf = true -> forall d, d <> Online ->
        setting_changed conf (dim_name d) = true -> In d (map step_dim l)).
Proof.
  intros Hget. unfold cpu_steps, apply_cpu. rewrite Hget. unfold bind at 1 5.
  unfold logged.
  destruct (_set_cpu_online HELPER settings cpu h) as [[r0 h0] t0] eqn:E0.
  pose proof (shape_online _ _ _ _ _ _ _ Hget E0) as S0.
  set (s0 := {| step_cpu := cpu; step_dim := Online; step_calls := t0;
                step_ret := r0 |}) in *.
  assert (Hok0 : step_ok energy_pref_avail settings s0).
  { exists conf. split; [exact Hget|]. split; [|exact S0].
    intros Hd. now elim Hd. }
  destruct (online conf) eqn:Eon.
  - destruct (logged_if_spec (setting_changed conf "freqs") cpu Freqs
                (_set_cpu_frequencies HELPER settings cpu) h0)
      as (l1 & h1 & E1 & A1 & D1).
    destruct (logged_if_spec (setting_changed conf "governor") cpu Governor
                (_set_cpu_governor HELPER settings cpu) h1)
      as (l2 & h2 & E2 & A2 & D2).
    destruct (logged_if_spec (setting_changed conf "energy_pref") cpu
                EnergyPref
                (_set_cpu_energy_preferences HELPER energy_pref_avail
                   settings cpu) h2)
      as (l3 & h3 & E3 & A3 & D3).
    exists ([s0] ++ l1 ++ l2 ++ l3), h3.
    assert (Hw : writes ([s0] ++ l1 ++ l2 ++ l3)
                 = t0 ++ writes l1 ++ writes l2 ++ writes l3 ++ []).
    { rewrite !writes_app, app_nil_r. unfold writes at 1; simpl.
      now rewrite app_nil_r. }
    split; [|split; [|split; [|split; [|split]]]].
    + unfold bind, mret. rewrite E1, E2, E3, Hw. reflexivity.
    + intros ret. unfold bind, mret. rewrite A1, A2, A3, Hw.
      rewrite !total_app.
      replace (total [s0]) with r0 by (unfold total; simpl; lia).
      do 2 f_equal. f_equal. lia.
    + apply Forall_app; split; [now constructor|].
      apply Forall_app; split; [|apply Forall_app; split].
      * destruct D1 as [(_ & -> & _)|(Hc & r & t & Em & ->)];
          constructor; [|constructor].
        exists conf. repeat split; auto.
        eapply shape_freqs; eauto.
      * destruct D2 as [(_ & -> & _)|(Hc & r & t & Em & ->)];
          constructor; [|constructor].
        exists conf. repeat split; auto.
        eapply shape_governor; eauto.
      * destruct D3 as [(_ & -> & _)|(Hc & r & t & Em & ->)];
          constructor; [|constructor].
        exists conf. repeat split; auto.
        eapply shape_energy; eauto.
    + apply Forall_app; split; [now constructor|].
      apply Forall_app; split; [|apply Forall_app; split].
      * destruct D1 as [(_ & -> & _)|(_ & r & t & _ & ->)]; repeat constructor.
      * destruct D2 as [(_ & -> & _)|(_ & r & t & _ & ->)]; repeat constructor.
      * destruct D3 as [(_ & -> & _)|(_ & r & t & _ & ->)]; repeat constructor.
    + apply (dims_nodup cpu); [reflexivity| | |].
      * destruct D1 as [(_ & -> & _)|(_ & r & t & _ & ->)]; eauto.
      * destruct D2 as [(_ & -> & _)|(_ & r & t & _ & ->)]; eauto.
      * destruct D3 as [(_ & -> & _)|(_ & r & t & _ & ->)]; eauto.
    + intros _ d Hd Hch. rewrite !map_app, !in_app_iff.
      destruct d; simpl in Hch; [now elim Hd| | |].
      * right; left.
        destruct D1 as [(Hc & _)|(_ & r & t & _ & ->)]; [congruence|].
        now left.
      * right; right; left.
        destruct D2 as [(Hc & _)|(_ & r & t & _ & ->)]; [congruence|].
        now left.
      * right; right; right.
        destruct D3 as [(Hc & _)|(_ & r & t & _ & ->)]; [congruence|].
        now left.
  - exists [s0], h0. unfold mret, writes, total; simpl. rewrite !app_nil_r.
    repeat split.
    + intros ret. do 2 f_equal.  f_equal. lia.
    + now constructor.
    + now constructor.
    + repeat constructor. intros [].
    + discriminate.
Qed.

Lemma keys_of_one_cpu (cpu : Z) (l : list Step) :
  Forall (fun s => step_cpu s = cpu) l ->
  NoDup (map step_dim l) ->
  NoDup (map (fun s => (step_cpu s, step_dim s)) l).
Proof.
  induction l as [|s l IH]; simpl; intros Hall Hnd; [constructor|].
  inversion Hall as [|? ? Hs Hl]; subst.
  inversion Hnd as [|? ? Hnotin Hnd']; subst.
  constructor; [|now apply IH].
  intros Hin. apply Hnotin. apply in_map_iff in Hin as (s' & Heq & Hin).
  apply in_map_iff. exists s'. split; [congruence|exact Hin].
Qed.

(** The loop over a list of CPUs that all have an entry. *)
Lemma loop_steps_spec (settings : Dict.t C) (cpus : list Z) :
  (forall cpu, In cpu cpus -> exists conf, Dict.get settings cpu = Some conf) ->
  forall h, exists l h',
    loop_steps HELPER energy_pref_avail settings cpus h
    = (Some l, h', writes l)
    /\ (forall ret,
           apply_loop HELPER energy_pref_avail settings cpus ret h
           = (Some (ret + total l), h', writes l))
    /\ Forall (step_ok energy_pref_avail settings) l
    /\ Forall (fun s => In (step_cpu s) cpus) l
    /\ (NoDup cpus -> NoDup (map (fun s => (step_cpu s, step_dim s)) l))
    /\ (forall cpu conf, In cpu cpus -> Dict.get settings cpu = Some conf ->
        online conf = true -> forall d, d <> Online ->
        setting_changed conf (dim_name d) = true ->
        exists s, In s l /\ step_cpu s = cpu /\ step_dim s = d).
Proof.
  induction cpus as [|cpu rest IH]; intros Hkeys h.
  - exists [], h. simpl. unfold mret, writes, total; simpl. repeat split.
    + intros ret. do 2 f_equal. f_equal. lia.
    + constructor.
    + constructor.
    + intros _. constructor.
    + intros cpu conf [].
  - destruct (Hkeys cpu (or_introl eq_refl)) as [conf Hget].
    destruct (@cpu_steps_spec settings cpu conf h Hget)
      as (l0 & h0 & E0 & A0 & Hok0 & Hcpu0 & Hnd0 & Hin0).
    destruct (IH (fun c Hc => Hkeys c (or_intror Hc)) h0)
      as (l1 & h1 & E1 & A1 & Hok1 & Hcpu1 & Hnd1 & Hin1).
    exists (l0 ++ l1), h1.
    split; [|split; [|split; [|split; [|split]]]].
    + simpl. unfold bind at 1. rewrite E0. unfold bind, mret. rewrite E1.
      simpl. now rewrite writes_app, app_nil_r.
    + intros ret. simpl. unfold bind. rewrite A0, A1.
      rewrite writes_app, total_app. do 2 f_equal. f_equal. lia.
    + apply Forall_app. now split.
    + apply Forall_app. split.
      * eapply Forall_impl; [|exact Hcpu0]. intros s ->. now left.
      * eapply Forall_impl; [|exact Hcpu1]. intros s Hs. now right.
    + intros Hnd. inversion Hnd as [|? ? Hnotin Hnd']; subst.
      rewrite map_app. apply NoDup_app.
      * now apply (keys_of_one_cpu cpu).
      * now apply Hnd1.
      * intros [c d] Ha Hb.
        apply in_map_iff in Ha as (sa & [= <- <-] & Ha).
        apply in_map_iff in Hb as (sb & [= Hc Hd] & Hb).
        rewrite Forall_forall in Hcpu0, Hcpu1.
        apply Hnotin. rewrite <- (Hcpu0 _ Ha), <- Hc. now apply Hcpu1.
    + intros c conf' [<-|Hc] Hget' Hon d Hd Hch.
      * rewrite Hget in Hget'. injection Hget' as <-.
        specialize (Hin0 Hon d Hd Hch).
        apply in_map_iff in Hin0 as (s & Hsd & Hs).
        exists s. rewrite Forall_forall in Hcpu0.
        repeat split; auto. apply in_or_app. now left.
      * destruct (Hin1 c conf' Hc Hget' Hon d Hd Hch) as (s & Hs & Hsc & Hsd).
        exists s. repeat split; auto. apply in_or_app. now right.
Qed.

Lemma changed_cpus_keys (settings : Dict.t C) cpu :
  In cpu (changed_cpus settings) -> In cpu (Dict.keys settings).
Proof.
  unfold changed_cpus, Dict.keys. intros Hin.
  apply in_map_iff in Hin as ([k v] & <- & Hin).
  apply filter_In in Hin as [Hin _]. now apply (in_map fst) in Hin.
Qed.

Lemma changed_cpus_nodup (settings : Dict.t C) :
  NoDup (Dict.keys settings) -> NoDup (changed_cpus settings).
Proof.
  unfold changed_cpus, Dict.keys.
  induction settings as [|[k v] d IH]; simpl; intros Hnd; [constructor|].
  inversion Hnd as [|? ? Hnotin Hnd']; subst.
  destruct (changed v); simpl; [|now apply IH].
  constructor; [|now apply IH].
  intros Hin. apply Hnotin. apply in_map_iff in Hin as ([k' v'] & <- & Hin).
  apply filter_In in Hin as [Hin _]. now apply (in_map fst) in Hin.
Qed.

Lemma changed_cpus_In (settings : Dict.t C) cpu conf :
  Dict.get settings cpu = Some conf -> changed conf = true ->
  In cpu (changed_cpus settings).
Proof.
  intros Hget Hch. apply DictFacts.get_In in Hget.
  unfold changed_cpus. apply in_map_iff. exists (cpu, conf).
  split; [reflexivity|]. apply filter_In. now split.
Qed.

(** The whole pass: it always runs to the end, its result is the sum of
    what its steps returned, and its trace is their writes in order. *)
Lemma pass_spec (settings : Dict.t C) (h : H) :
  exists l h',
    pass_steps HELPER energy_pref_avail settings h = (Some l, h', writes l)
    /\ apply_pass HELPER energy_pref_avail settings h
       = (Some (total l), h', writes l)
    /\ Forall (step_ok energy_pref_avail settings) l
    /\ (NoDup (Dict.keys settings) -> NoDup l)
    /\ (forall cpu conf, Dict.get settings cpu = Some conf ->
        changed conf = true -> online conf = true ->
        forall d, d <> Online -> setting_changed conf (dim_name d) = true ->
        exists s, In s l /\ step_cpu s = cpu /\ step_dim s = d).
Proof.
  unfold pass_steps, apply_pass.
  destruct (@loop_steps_spec settings (changed_cpus settings)) with (h := h)
    as (l & h' & E & A & Hok & _ & Hnd & Hin).
  { intros cpu Hc. apply DictFacts.In_keys_get.
    now apply changed_cpus_keys. }
  exists l, h'. repeat split; auto.
  - intros Hk. eapply NoDup_map_inv. apply Hnd. now apply changed_cpus_nodup.
  - intros cpu conf Hget Hch. apply Hin; auto.
    eapply changed_cpus_In; eauto.
Qed.

(** *** Sums of step values *)

Lemma total_all_zero (l : list Step) :
  (forall s, In s l -> step_ret s = 0) -> total l = 0.
Proof.
  unfold total. induction l as [|s l IH]; simpl; intros Hz; [reflexivity|].
  rewrite IH by auto. rewrite (Hz s) by auto. reflexivity.
Qed.

Lemma total_one (l : list Step) (s : Step) :
  NoDup l -> In s l ->
  (forall s', In s' l -> s' <> s -> step_ret s' = 0) ->
  total l = step_ret s.
Proof.
  induction l as [|x l IH]; simpl; intros Hnd Hin Hz; [contradiction|].
  inversion Hnd as [|? ? Hnotin Hnd']; subst.
  change (total (x :: l)) with (step_ret x + total l).
  destruct Hin as [->|Hin].
  - rewrite total_all_zero; [lia|].
    intros s' Hs'. apply Hz; [now right|]. intros ->. contradiction.
  - rewrite IH by auto. rewrite (Hz x); [lia|now left|].
    intros ->. contradiction.
Qed.

Lemma total_two (l : list Step) (s1 s2 : Step) :
  NoDup l -> In s1 l -> In s2 l -> s1 <> s2 ->
  (forall s', In s' l -> s' <> s1 -> s' <> s2 -> step_ret s' = 0) ->
  total l = step_ret s1 + step_ret s2.
Proof.
  induction l as [|x l IH]; simpl; intros Hnd H1 H2 Hne Hz; [contradiction|].
  inversion Hnd as [|? ? Hnotin Hnd']; subst.
  change (total (x :: l)) with (step_ret x + total l).
  destruct H1 as [->|H1], H2 as [->|H2].
  - now elim Hne.
  - rewrite (@total_one l s2); auto.
    intros s' Hs' Hn. apply Hz; auto. intros ->. contradiction.
  - rewrite (@total_one l s1); auto; [lia|].
    intros s' Hs' Hn. apply Hz; auto. intros ->. contradiction.
  - rewrite IH by auto. rewrite (Hz x); [lia|now left| |];
      intros ->; contradiction.
Qed.

Lemma total_nonpos (l : list Step) (s : Step) :
  (forall s', In s' l -> step_ret s' <= 0) -> In s l ->
  total l <= step_ret s.
Proof.
  induction l as [|x l IH]; simpl; intros Hle Hin; [contradiction|].
  change (total (x :: l)) with (step_ret x + total l).
  assert (Htl : total l <= 0).
  { clear IH Hin. induction l as [|y l IHl]; [unfold total; simpl; lia|].
    change (total (y :: l)) with (step_ret y + total l).
    assert (step_ret y <= 0) by (apply Hle; simpl; auto).
    assert (total l <= 0) by (apply IHl; intros; apply Hle; simpl in *; tauto).
    lia. }
  destruct Hin as [->|Hin]; [lia|].
  assert (step_ret x <= 0) by auto.
  assert (total l <= step_ret s) by auto. lia.
Qed.

Lemma total_zero_nonpos (l : list Step) :
  (forall s, In s l -> step_ret s <= 0) -> total l = 0 ->
  forall s, In s l -> step_ret s = 0.
Proof.
  intros Hle Hz s Hin. pose proof (total_nonpos l s Hle Hin).
  specialize (Hle s Hin). lia.
Qed.

Lemma mapped_values (code raw : Z) :
  (raw = 0 /\ mapped code raw = 0) \/ (raw <> 0 /\ mapped code raw = code).
Proof. unfold mapped. destruct (Z.eqb_spec raw 0); auto. Qed.

(** With every helper answer at most 0 for the transitions, no step
    returns a positive value. *)
Lemma step_ret_nonpos (settings : Dict.t C) (s : Step) :
  step_ok energy_pref_avail settings s ->
  (forall c raw, In (c, raw) (step_calls s) -> is_transition c = true ->
                 raw <= 0) ->
  step_ret s <= 0.
Proof.
  intros (conf & _ & _ & Hshape) Hraw. unfold step_shape in Hshape.
  destruct (step_dim s).
  - destruct Hshape as [(_ & ->)|[(Hc & _)|(Hc & _)]]; [lia| |].
    + apply (Hraw (SetCpuOnline (step_cpu s))); [|reflexivity].
      rewrite Hc. now left.
    + apply (Hraw (SetCpuOffline (step_cpu s))); [|reflexivity].
      rewrite Hc. now left.
  - destruct Hshape as [(_ & -> & _)|(a & b & raw & _ & _ & ->)]; [lia|].
    destruct (mapped_values (-13) raw) as [[_ ->]|[_ ->]]; lia.
  - destruct Hshape as [(_ & -> & _)|(g & raw & _ & _ & ->)]; [lia|].
    destruct (mapped_values (-11) raw) as [[_ ->]|[_ ->]]; lia.
  - destruct Hshape
      as [(_ & -> & _)|[(_ & -> & _)|(p & raw & _ & _ & _ & ->)]]; [lia|lia|].
    destruct (mapped_values (-12) raw) as [[_ ->]|[_ ->]]; lia.
Qed.

(** A step that returned 0 got 0 from the helper for every write. *)
Lemma step_ret_zero_raw (settings : Dict.t C) (s : Step) :
  step_ok energy_pref_avail settings s -> step_ret s = 0 ->
  forall c raw, In (c, raw) (step_calls s) -> raw = 0.
Proof.
  intros (conf & _ & _ & Hshape) Hz c raw Hin. unfold step_shape in Hshape.
  destruct (step_dim s).
  - destruct Hshape as [(Hc & _)|[(Hc & _)|(Hc & _)]]; rewrite Hc in Hin;
      simpl in Hin; [contradiction| |];
      destruct Hin as [[= _ <-]|[]]; exact Hz.
  - destruct Hshape as [(Hc & _)|(a & b & raw' & _ & Hc & Hr)];
      rewrite Hc in Hin; simpl in Hin; [contradiction|].
    destruct Hin as [[= _ <-]|[]].
    destruct (mapped_values (-13) raw') as [[? _]|[_ Hm]]; [assumption|lia].
  - destruct Hshape as [(Hc & _)|(g & raw' & _ & Hc & Hr)];
      rewrite Hc in Hin; simpl in Hin; [contradiction|].
    destruct Hin as [[= _ <-]|[]].
    destruct (mapped_values (-11) raw') as [[? _]|[_ Hm]]; [assumption|lia].
  - destruct Hshape
      as [(Hc & _)|[(Hc & _)|(p & raw' & _ & _ & Hc & Hr)]];
      rewrite Hc in Hin; simpl in Hin; [contradiction|contradiction|].
    destruct Hin as [[= _ <-]|[]].
    destruct (mapped_values (-12) raw') as [[? _]|[_ Hm]]; [assumption|lia].
Qed.

(** After the authorization check, [on_apply_clicked] is the pass followed
    by the report. *)
Lemma on_apply_clicked_authorized (settings : Dict.t C) h ret h' t :
  isauthorized HELPER h = true ->
  apply_pass HELPER energy_pref_avail settings h = (Some ret, h', t) ->
  on_apply_clicked HELPER energy_pref_avail settings h
  = (Applied ret (report ret), h', t).
Proof.
  intros Hauth Hpass. unfold on_apply_clicked, bind, ask, mret.
  rewrite Hauth. simpl. rewrite Hpass. now rewrite app_nil_r.
Qed.

(** ** The claims about the apply pass *)

(** C1, as amended.  In an apply pass, when on one changed CPU the
    governor write and the frequency write both get a non-zero answer from
    the helper, and every other step of the pass returns 0, that is, every
    other write and every switch is answered 0 and no other step lacks its
    value, the overall result is exactly -24, reported with the message of
    the governor-and-frequencies entry of the table. *)
Theorem composite_governor_and_frequency_failure
  (settings : Dict.t C) (h h' : H) (l : list Step) (t : list Event)
  (cpu : Z) (sg sf : Step) :
  NoDup (Dict.keys settings) ->
  isauthorized HELPER h = true ->
  pass_steps HELPER energy_pref_avail settings h = (Some l, h', t) ->
  In sg l -> step_cpu sg = cpu -> step_dim sg = Governor ->
  In sf l -> step_cpu sf = cpu -> step_dim sf = Freqs ->
  (exists c raw, step_calls sg = [(c, raw)] /\ raw <> 0) ->
  (exists c raw, step_calls sf = [(c, raw)] /\ raw <> 0) ->
  (forall s, In s l -> s <> sg -> s <> sf -> step_ret s = 0) ->
  apply_pass HELPER energy_pref_avail settings h = (Some (-24), h', t)
  /\ on_apply_clicked HELPER energy_pref_avail settings h
     = (Applied (-24) (Some "Setting governor and frequencies failed."),
        h', t).
Proof.
  intros Hnd Hauth Hsteps Hsg Hcg Hdg Hsf Hcf Hdf Hfg Hff Hrest.
  destruct (pass_spec settings h) as (l0 & h0 & E & A & Hok & Hnodup & _).
  rewrite Hsteps in E. injection E as <- <- ->.
  rewrite Forall_forall in Hok.
  assert (Hg : step_ret sg = -11).
  { destruct (Hok sg Hsg) as (conf & _ & _ & Hshape).
    unfold step_shape in Hshape. rewrite Hdg in Hshape.
    destruct Hfg as (c & raw & Hc & Hraw).
    destruct Hshape as [(Hc' & _)|(g & raw' & _ & Hc' & ->)];
      rewrite Hc in Hc'; [discriminate|]. injection Hc' as _ <-.
    destruct (mapped_values (-11) raw) as [[? _]|[_ ->]];
      [contradiction|reflexivity]. }
  assert (Hf : step_ret sf = -13).
  { destruct (Hok sf Hsf) as (conf & _ & _ & Hshape).
    unfold step_shape in Hshape. rewrite Hdf in Hshape.
    destruct Hff as (c & raw & Hc & Hraw).
    destruct Hshape as [(Hc' & _)|(a & b & raw' & _ & Hc' & ->)];
      rewrite Hc in Hc'; [discriminate|]. injection Hc' as _ <-.
    destruct (mapped_values (-13) raw) as [[? _]|[_ ->]];
      [contradiction|reflexivity]. }
  assert (Htotal : total l = -24).
  { rewrite (total_two l sg sf); auto; [lia|]. intros ->. congruence. }
  rewrite Htotal in A. split; [exact A|].
  now rewrite (on_apply_clicked_authorized settings h (-24) h' (writes l)).
Qed.

(** C2.  In an apply pass, for a CPU whose target online value is false,
    no write of frequencies, governor or energy preference is issued,
    whichever of its fields count as changed. *)
Theorem no_update_for_offline_target
  (settings : Dict.t C) (h h' : H) (o : option Z) (t : list Event)
  (cpu : Z) (conf : C) :
  Dict.get settings cpu = Some conf ->
  online conf = false ->
  apply_pass HELPER energy_pref_avail settings h = (o, h', t) ->
  forall c raw, In (c, raw) t -> call_cpu c = cpu -> is_update c = false.
Proof.
  intros Hget Hoff Hpass c raw Hin Hcpu.
  destruct (pass_spec settings h) as (l & h0 & _ & A & Hok & _).
  rewrite Hpass in A. injection A as -> -> ->.
  apply In_writes in Hin as (s & Hs & Hin).
  rewrite Forall_forall in Hok.
  destruct (Hok s Hs) as (conf' & Hget' & Hon & Hshape).
  unfold step_shape in Hshape.
  destruct (step_dim s) eqn:Ed.
  - destruct Hshape as [(Hc & _)|[(Hc & _)|(Hc & _)]]; rewrite Hc in Hin;
      simpl in Hin; [contradiction| |];
      destruct Hin as [[= <- _]|[]]; reflexivity.
  - exfalso. destruct Hon as [Hon _]; [discriminate|].
    destruct Hshape as [(Hc & _)|(a & b & raw' & _ & Hc & _)];
      rewrite Hc in Hin; simpl in Hin; [contradiction|].
    destruct Hin as [[= <- _]|[]]. simpl in Hcpu. congruence.
  - exfalso. destruct Hon as [Hon _]; [discriminate|].
    destruct Hshape as [(Hc & _)|(g & raw' & _ & Hc & _)];
      rewrite Hc in Hin; simpl in Hin; [contradiction|].
    destruct Hin as [[= <- _]|[]]. simpl in Hcpu. congruence.
  - exfalso. destruct Hon as [Hon _]; [discriminate|].
    destruct Hshape as [(Hc & _)|[(Hc & _)|(p & raw' & _ & _ & Hc & _)]];
      rewrite Hc in Hin; simpl in Hin; [contradiction|contradiction|].
    destruct Hin as [[= <- _]|[]]. simpl in Hcpu. congruence.
Qed.

(** C4.  The online step of a CPU issues a switch only when the live
    state reported by the helper disagrees with the target online value,
    and then the one towards the target; when the target is offline and
    the helper says the CPU may not go offline, nothing is issued and the
    step contributes 0. *)
Theorem transition_only_on_disagreement
  (settings : Dict.t C) (cpu : Z) (conf : C) (h h' : H) (r : Z)
  (t : list Event) :
  Dict.get settings cpu = Some conf ->
  _set_cpu_online HELPER settings cpu h = (r, h', t) ->
  (forall c raw, In (c, raw) t ->
     live_disagrees HELPER cpu (online conf) h = true
     /\ c = (if online conf then SetCpuOnline cpu else SetCpuOffline cpu))
  /\ (live_disagrees HELPER cpu (online conf) h = false ->
      t = [] /\ r = 0 /\ h' = h)
  /\ (online conf = false -> cpu_allowed_offline HELPER h cpu = false ->
      t = [] /\ r = 0 /\ h' = h).
Proof.
  intros Hget. rewrite set_cpu_online_run, Hget. unfold live_disagrees.
  destruct (is_offline HELPER cpu h) eqn:Eoff,
           (is_online HELPER cpu h) eqn:Eon,
           (online conf) eqn:Etarget,
           (cpu_allowed_offline HELPER h cpu) eqn:Eallowed; simpl;
    try destruct (set_cpu_online HELPER cpu h) as [r1 h1];
    try destruct (set_cpu_offline HELPER cpu h) as [r2 h2];
    intros [= <- <- <-];
    (split; [intros c raw Hin; simpl in Hin;
             try contradiction; destruct Hin as [[= <- _]|[]]; auto
            |split; [intros Hd|intros Ht Ha]; try discriminate; auto]).
Qed.

(** C8.  When no CPU's settings are changed, the apply pass issues no
    write at all and returns 0; an authorized click on Apply then ends
    without an error dialog, and an unauthorized click never starts the
    pass. *)
Theorem nothing_changed_nothing_written (settings : Dict.t C) (h : H) :
  (forall cpu conf, In (cpu, conf) settings -> changed conf = false) ->
  apply_pass HELPER energy_pref_avail settings h = (Some 0, h, [])
  /\ on_apply_clicked HELPER energy_pref_avail settings h
     = (if isauthorized HELPER h then Applied 0 None
        else Denied "You don't have permissions to update CPU settings!",
        h, []).
Proof.
  intros Hnone.
  assert (Hcpus : changed_cpus settings = []).
  { unfold changed_cpus.
    replace (filter (fun kv => changed (snd kv)) settings) with (@nil (Z * C));
      [reflexivity|].
    symmetry. induction settings as [|[k v] d IH]; simpl; [reflexivity|].
    rewrite (Hnone k v) by now left.
    apply IH. intros cpu conf Hin. apply (Hnone cpu conf). now right. }
  assert (Hpass : apply_pass HELPER energy_pref_avail settings h
                  = (Some 0, h, [])).
  { unfold apply_pass. rewrite Hcpus. reflexivity. }
  split; [exact Hpass|].
  unfold on_apply_clicked, bind, ask, mret.
  destruct (isauthorized HELPER h); simpl; [|reflexivity].
  rewrite Hpass. reflexivity.
Qed.

(** C5, as amended.  The apply pass always runs to its end and returns
    the arithmetic sum of what its steps returned, CPU by CPU and dimension
    by dimension.  Provided the helper never answers a positive integer to
    an online or offline switch, a returned 0 means that every step
    returned 0 and every write got 0 from the helper.  A sum that is
    neither 0 nor one of the six codes of the table is reported with the
    generic unknown-error message, and only the sum 0 ends without an
    error dialog. *)
Theorem aggregate_is_sum_of_steps (settings : Dict.t C) (h : H) :
  isauthorized HELPER h = true ->
  exists l h',
    pass_steps HELPER energy_pref_avail settings h = (Some l, h', writes l)
    /\ apply_pass HELPER energy_pref_avail settings h
       = (Some (total l), h', writes l)
    /\ on_apply_clicked HELPER energy_pref_avail settings h
       = (Applied (total l) (report (total l)), h', writes l)
    /\ ((forall c raw, In (c, raw) (writes l) -> is_transition c = true ->
                       raw <= 0) ->
        total l = 0 ->
        (forall s, In s l -> step_ret s = 0)
        /\ (forall c raw, In (c, raw) (writes l) -> raw = 0))
    /\ (total l <> 0 -> Dict.get ERRORS (total l) = None ->
        report (total l) = Some "Unknown error occurred.")
    /\ (report (total l) = None <-> total l = 0).
Proof.
  intros Hauth.
  destruct (pass_spec settings h) as (l & h' & E & A & Hok & _).
  exists l, h'. rewrite Forall_forall in Hok.
  split; [exact E|]. split; [exact A|].
  split; [now apply on_apply_clicked_authorized|].
  split; [|split].
  - intros Hraw Hz.
    assert (Hall : forall s, In s l -> step_ret s = 0).
    { apply total_zero_nonpos; [|exact Hz].
      intros s Hs. apply (step_ret_nonpos settings); [now apply Hok|].
      intros c raw Hin. apply Hraw. apply In_writes. now exists s. }
    split; [exact Hall|].
    intros c raw Hin. apply In_writes in Hin as (s & Hs & Hin).
    apply (step_ret_zero_raw settings s (Hok s Hs) (Hall s Hs) c raw Hin).
  - intros Hnz Hnone. unfold report, ERRORS_get.
    destruct (Z.eqb_spec (total l) 0); [contradiction|]. now rewrite Hnone.
  - unfold report. destruct (Z.eqb_spec (total l) 0); split; intros;
      try reflexivity; try assumption; try discriminate; contradiction.
Qed.

(** C9, as amended.  When the online step of a CPU issued its switch and
    the helper answered a non-zero integer, the step returns that integer
    as it is.  If every other step of the pass returned 0, the overall
    result is that raw integer; it is reported with the generic
    unknown-error message when it is not one of the six codes of the
    table, and with the table's message for that code when it is. *)
Theorem failed_transition_is_added_raw
  (settings : Dict.t C) (h h' : H) (l : list Step) (t : list Event)
  (s : Step) (c : Call) (raw : Z) :
  NoDup (Dict.keys settings) ->
  isauthorized HELPER h = true ->
  pass_steps HELPER energy_pref_avail settings h = (Some l, h', t) ->
  In s l -> step_dim s = Online -> step_calls s = [(c, raw)] -> raw <> 0 ->
  (forall s', In s' l -> s' <> s -> step_ret s' = 0) ->
  step_ret s = raw
  /\ apply_pass HELPER energy_pref_avail settings h = (Some raw, h', t)
  /\ on_apply_clicked HELPER energy_pref_avail settings h
     = (Applied raw (Some (ERRORS_get raw "Unknown error occurred.")), h', t)
  /\ (Dict.get ERRORS raw = None ->
      ERRORS_get raw "Unknown error occurred." = "Unknown error occurred.")
  /\ (forall msg, Dict.get ERRORS raw = Some msg ->
      ERRORS_get raw "Unknown error occurred." = msg).
Proof.
  intros Hnd Hauth Hsteps Hs Hd Hc Hraw Hrest.
  destruct (pass_spec settings h) as (l0 & h0 & E & A & Hok & Hnodup & _).
  rewrite Hsteps in E. injection E as <- <- ->.
  rewrite Forall_forall in Hok.
  assert (Hret : step_ret s = raw).
  { destruct (Hok s Hs) as (conf & _ & _ & Hshape).
    unfold step_shape in Hshape. rewrite Hd, Hc in Hshape.
    destruct Hshape as [(Hc' & _)|[(Hc' & _)|(Hc' & _)]];
      [discriminate| |]; now injection Hc' as _ ->. }
  assert (Htotal : total l = raw).
  { rewrite (total_one l s); auto. }
  rewrite Htotal in A.
  split; [exact Hret|]. split; [exact A|]. split; [|split].
  - rewrite (on_apply_clicked_authorized settings h raw h' (writes l));
      auto.
    unfold report. now destruct (Z.eqb_spec raw 0).
  - intros Hnone. unfold ERRORS_get. now rewrite Hnone.
  - intros msg Hsome. unfold ERRORS_get. now rewrite Hsome.
Qed.

(** C10, as amended.  For a CPU with an entry in the settings: when its
    governor is unset the governor step returns -1 without any write; so do
    the frequency step when one of the two scaled frequencies is missing
    and, when energy preferences are available, the energy-preference step
    when the preference is missing or empty.  When energy preferences are
    not available that step returns 0 without any write, whatever the
    preference.  Hence a pass over a changed, online CPU whose governor
    counts as changed but is unset ends with a negative result and an error
    dialog even when every write it issued got 0 from the helper. *)
Theorem missing_value_contributes_minus_one
  (settings : Dict.t C) (cpu : Z) (conf : C) (h : H) :
  Dict.get settings cpu = Some conf ->
  (governor conf = None ->
   _set_cpu_governor HELPER settings cpu h = (-1, h, []))
  /\ (energy_pref_avail = true -> truthy (energy_pref conf) = false ->
      _set_cpu_energy_preferences HELPER energy_pref_avail settings cpu h
      = (-1, h, []))
  /\ (fst (freqs_scaled conf) = None \/ snd (freqs_scaled conf) = None ->
      _set_cpu_frequencies HELPER settings cpu h = (-1, h, []))
  /\ (changed conf = true -> online conf = true ->
      setting_changed conf "governor" = true -> governor conf = None ->
      forall o h' t,
        apply_pass HELPER energy_pref_avail settings h = (o, h', t) ->
        (forall c raw, In (c, raw) t -> raw = 0) ->
        exists ret msg,
          o = Some ret /\ ret < 0 /\ report ret = Some msg)
  /\ (energy_pref_avail = false ->
      _set_cpu_energy_preferences HELPER energy_pref_avail settings cpu h
      = (0, h, [])).
Proof.
  intros Hget. split; [|split; [|split; [|split]]].
  - intros Hgov. now rewrite set_cpu_governor_run, Hget, Hgov.
  - intros Hav Hpref. rewrite set_cpu_energy_preferences_run, Hget, Hav.
    cbn [negb]. destruct (energy_pref conf) as [pref|]; [|reflexivity].
    now rewrite Hpref.
  - intros Hmiss. rewrite set_cpu_frequencies_run, Hget.
    destruct (freqs_scaled conf) as [[a|] [b|]]; simpl in Hmiss;
      try reflexivity. now destruct Hmiss.
  - intros Hch Hon Hsel Hgov o h' t Hpass Hraw.
    destruct (pass_spec settings h) as (l & h0 & _ & A & Hok & _ & Hin).
    rewrite Hpass in A. injection A as -> -> ->.
    rewrite Forall_forall in Hok.
    destruct (Hin cpu conf Hget Hch Hon Governor) as (s & Hs & Hc & Hd);
      [discriminate|exact Hsel|].
    assert (Hminus : step_ret s = -1).
    { destruct (Hok s Hs) as (conf' & Hget' & _ & Hshape).
      rewrite Hc, Hget in Hget'. injection Hget' as <-.
      unfold step_shape in Hshape. rewrite Hd in Hshape.
      destruct Hshape as [(_ & -> & _)|(g & raw & Hg & _)];
        [reflexivity|congruence]. }
    assert (Hle : total l <= -1).
    { rewrite <- Hminus. apply total_nonpos; [|exact Hs].
      intros s' Hs'. apply (step_ret_nonpos settings); [now apply Hok|].
      intros c raw Hcin _. rewrite (Hraw c raw); [lia|].
      apply In_writes. now exists s'. }
    exists (total l), (ERRORS_get (total l) "Unknown error occurred.").
    split; [reflexivity|]. split; [lia|].
    unfold report. destruct (Z.eqb_spec (total l) 0); [lia|reflexivity].
  - intros Hav. unfold _set_cpu_energy_preferences. now rewrite Hav.
Qed.

End ApplyFacts.

(** ** The apply pass on the reference machine *)

Section ApplyExamples.

Import Config Apply Sim.

Ltac distinct_keys := repeat (constructor; [simpl; intuition lia|]); constructor.

(** C1 on four CPUs: CPU 1 gets new frequencies and a new governor and the
    helper refuses both writes. *)
Lemma composite_governor_and_frequency_failure_witness :
  on_apply_clicked machine true [(0, untouched); (1, freq_and_governor)]
    (four_cpus [(UpdateCpuGovernor 1 "performance", 5);
                (UpdateCpuSettings 1 1200000 3200000, -1)])
  = (Applied (-24) (Some "Setting governor and frequencies failed."),
     four_cpus [(UpdateCpuGovernor 1 "performance", 5);
                (UpdateCpuSettings 1 1200000 3200000, -1)],
     [(UpdateCpuSettings 1 1200000 3200000, -1);
      (UpdateCpuGovernor 1 "performance", 5)]).
Proof.
  refine (proj2 (composite_governor_and_frequency_failure
    machine true
    [(0, untouched); (1, freq_and_governor)] _ _
    [ {| step_cpu := 1; step_dim := Online; step_calls := [];
         step_ret := 0 |};
      {| step_cpu := 1; step_dim := Freqs;
         step_calls := [(UpdateCpuSettings 1 1200000 3200000, -1)];
         step_ret := -13 |};
      {| step_cpu := 1; step_dim := Governor;
         step_calls := [(UpdateCpuGovernor 1 "performance", 5)];
         step_ret := -11 |} ] _ 1
    {| step_cpu := 1; step_dim := Governor;
       step_calls := [(UpdateCpuGovernor 1 "performance", 5)];
       step_ret := -11 |}
    {| step_cpu := 1; step_dim := Freqs;
       step_calls := [(UpdateCpuSettings 1 1200000 3200000, -1)];
       step_ret := -13 |}
    _ _ _ _ _ _ _ _ _ _ _ _)).
  - distinct_keys.
  - reflexivity.
  - reflexivity.
  - simpl. auto.
  - reflexivity.
  - reflexivity.
  - simpl. auto.
  - reflexivity.
  - reflexivity.
  - exists (UpdateCpuGovernor 1 "performance"), 5. split; [reflexivity|lia].
  - exists (UpdateCpuSettings 1 1200000 3200000), (-1).
    split; [reflexivity|lia].
  - intros s [<-|[<-|[<-|[]]]] Hg Hf; [reflexivity| |];
      exfalso; [now apply Hf|now apply Hg].
Defined.

(** C2 on four CPUs: CPU 2 is to be switched off while its frequencies,
    governor and energy preference were edited too; the only write of the
    pass is the switch. *)
Lemma no_update_for_offline_target_witness :
  apply_pass machine true [(0, untouched); (2, to_offline)] (four_cpus [])
  = (Some 0,
     {| authorized := true; present := [0; 1; 2; 3];
        cpus_online := [0; 1; 3]; cpus_offline := [2]; pinned := [0];
        refused := [] |},
     [(SetCpuOffline 2, 0)])
  /\ is_update (SetCpuOffline 2) = false.
Proof.
  split; [reflexivity|].
  exact (no_update_for_offline_target machine true
           [(0, untouched); (2, to_offline)] (four_cpus [])
           {| authorized := true; present := [0; 1; 2; 3];
              cpus_online := [0; 1; 3]; cpus_offline := [2]; pinned := [0];
              refused := [] |}
           (Some 0) [(SetCpuOffline 2, 0)] 2 to_offline
           eq_refl eq_refl eq_refl (SetCpuOffline 2) 0 (or_introl eq_refl)
           eq_refl).
Defined.

(** C4 on four CPUs: CPU 0 is pinned, so a request to switch it off issues
    nothing and contributes 0. *)
Lemma transition_only_on_disagreement_witness :
  (forall c raw, In (c, raw) (@nil Event) ->
     live_disagrees machine 0 false (four_cpus []) = true
     /\ c = SetCpuOffline 0)
  /\ (live_disagrees machine 0 false (four_cpus []) = false ->
      @nil Event = [] /\ 0 = 0 /\ four_cpus [] = four_cpus [])
  /\ (false = false -> cpu_allowed_offline machine (four_cpus []) 0 = false ->
      @nil Event = [] /\ 0 = 0 /\ four_cpus [] = four_cpus []).
Proof.
  exact (transition_only_on_disagreement machine
           [(0, to_offline)] 0 to_offline (four_cpus []) (four_cpus []) 0 []
           eq_refl eq_refl).
Defined.

(** C8 on four CPUs whose settings equal their baseline. *)
Lemma nothing_changed_nothing_written_witness :
  apply_pass machine true four_fresh (four_cpus [])
  = (Some 0, four_cpus [], [])
  /\ on_apply_clicked machine true four_fresh (four_cpus [])
     = (Applied 0 None, four_cpus [], []).
Proof.
  apply (nothing_changed_nothing_written machine true four_fresh
           (four_cpus [])).
  intros cpu conf Hin. simpl in Hin.
  destruct Hin as [[= _ <-]|[[= _ <-]|[[= _ <-]|[[= _ <-]|[]]]]];
    reflexivity.
Defined.

(** C5 on four CPUs where every write succeeds. *)
Lemma aggregate_is_sum_of_steps_witness :
  exists l h',
    pass_steps machine true [(0, untouched); (1, freq_and_governor)]
      (four_cpus [])
    = (Some l, h', writes l)
    /\ apply_pass machine true [(0, untouched); (1, freq_and_governor)]
         (four_cpus [])
       = (Some (total l), h', writes l)
    /\ on_apply_clicked machine true [(0, untouched); (1, freq_and_governor)]
         (four_cpus [])
       = (Applied (total l) (report (total l)), h', writes l)
    /\ ((forall c raw, In (c, raw) (writes l) -> is_transition c = true ->
                       raw <= 0) ->
        total l = 0 ->
        (forall s, In s l -> step_ret s = 0)
        /\ (forall c raw, In (c, raw) (writes l) -> raw = 0))
    /\ (total l <> 0 -> Dict.get ERRORS (total l) = None ->
        report (total l) = Some "Unknown error occurred.")
    /\ (report (total l) = None <-> total l = 0).
Proof.
  exact (aggregate_is_sum_of_steps machine true
           [(0, untouched); (1, freq_and_governor)] (four_cpus []) eq_refl).
Defined.

(** C5 as first stated fails: CPU 3 is switched on and gets a new governor,
    the helper answers 11 to the switch and 1 to the governor write, and
    the pass returns 11 - 11 = 0, which ends without an error dialog. *)
Lemma returned_zero_with_failed_writes :
  on_apply_clicked machine true [(3, to_online)]
    (cpu3_offline [(SetCpuOnline 3, 11);
                   (UpdateCpuGovernor 3 "performance", 1)])
  = (Applied 0 None,
     cpu3_offline [(SetCpuOnline 3, 11);
                   (UpdateCpuGovernor 3 "performance", 1)],
     [(SetCpuOnline 3, 11); (UpdateCpuGovernor 3 "performance", 1)])
  /\ ~ (forall c raw,
          In (c, raw) [(SetCpuOnline 3, 11);
                       (UpdateCpuGovernor 3 "performance", 1)] ->
          raw = 0).
Proof.
  split; [reflexivity|].
  intros Hall. specialize (Hall (SetCpuOnline 3) 11 (or_introl eq_refl)).
  discriminate.
Qed.

(** C9 on four CPUs with CPU 3 offline: the switch-on gets -1 from the
    helper, which is in no entry of the table. *)
Lemma failed_transition_is_added_raw_witness :
  -1 = -1
  /\ apply_pass machine true [(3, switch_on)]
       (cpu3_offline [(SetCpuOnline 3, -1)])
     = (Some (-1), cpu3_offline [(SetCpuOnline 3, -1)],
        [(SetCpuOnline 3, -1)])
  /\ on_apply_clicked machine true [(3, switch_on)]
       (cpu3_offline [(SetCpuOnline 3, -1)])
     = (Applied (-1) (Some (ERRORS_get (-1) "Unknown error occurred.")),
        cpu3_offline [(SetCpuOnline 3, -1)], [(SetCpuOnline 3, -1)])
  /\ (Dict.get ERRORS (-1) = None ->
      ERRORS_get (-1) "Unknown error occurred." = "Unknown error occurred.")
  /\ (forall msg, Dict.get ERRORS (-1) = Some msg ->
      ERRORS_get (-1) "Unknown error occurred." = msg).
Proof.
  refine (failed_transition_is_added_raw machine true [(3, switch_on)]
            (cpu3_offline [(SetCpuOnline 3, -1)])
            (cpu3_offline [(SetCpuOnline 3, -1)])
            [ {| step_cpu := 3; step_dim := Online;
                 step_calls := [(SetCpuOnline 3, -1)]; step_ret := -1 |} ]
            [(SetCpuOnline 3, -1)]
            {| step_cpu := 3; step_dim := Online;
               step_calls := [(SetCpuOnline 3, -1)]; step_ret := -1 |}
            (SetCpuOnline 3) (-1) _ eq_refl eq_refl _ eq_refl eq_refl _ _).
  - distinct_keys.
  - simpl. auto.
  - lia.
  - intros s' [<-|[]] Hne. now elim Hne.
Defined.

(** C9 as first stated fails: the helper answers -13 to the switch-on of
    CPU 3, nothing else is written, and the user is told that setting the
    frequencies failed. *)
Lemma failed_transition_inside_table :
  on_apply_clicked machine true [(3, switch_on)]
    (cpu3_offline [(SetCpuOnline 3, -13)])
  = (Applied (-13) (Some "Setting frequencies failed."),
     cpu3_offline [(SetCpuOnline 3, -13)], [(SetCpuOnline 3, -13)])
  /\ Dict.get ERRORS (-13) <> None
  /\ report (-13) <> Some "Unknown error occurred.".
Proof.
  split; [reflexivity|]. split; discriminate.
Qed.

(** C10 on a CPU none of whose edited values is set: each of the three
    steps returns -1 without a write, and the pass, which issues no write
    at all, ends with -3 and an error dialog. *)
Lemma missing_value_contributes_minus_one_witness :
  _set_cpu_governor machine [(1, nothing_set)] 1 (four_cpus [])
  = (-1, four_cpus [], [])
  /\ _set_cpu_energy_preferences machine true [(1, nothing_set)] 1
       (four_cpus [])
     = (-1, four_cpus [], [])
  /\ _set_cpu_frequencies machine [(1, nothing_set)] 1 (four_cpus [])
     = (-1, four_cpus [], [])
  /\ exists ret msg, Some (-3) = Some ret /\ ret < 0 /\ report ret = Some msg.
Proof.
  destruct (missing_value_contributes_minus_one machine true
              [(1, nothing_set)] 1 nothing_set (four_cpus []) eq_refl)
    as (Hgov & Hpref & Hfreq & Hpass & _).
  split; [exact (Hgov eq_refl)|].
  split; [exact (Hpref eq_refl eq_refl)|].
  split; [exact (Hfreq (or_introl eq_refl))|].
  apply (Hpass eq_refl eq_refl eq_refl eq_refl (Some (-3)) (four_cpus []) []).
  - reflexivity.
  - intros c raw [].
Defined.

End ApplyExamples.

(** ** The edit handlers *)

Section EditFacts.

Import Config Edit.

Lemma qBound_in_range (lo hi v : Z) : lo <= hi -> lo <= qBound lo v hi <= hi.
Proof. unfold qBound. lia. Qed.

Lemma clamp_inside (lo hi v : Z) : lo <= v <= hi -> clamp lo hi v = v.
Proof. unfold clamp. lia. Qed.

(** The [elif] of [_on_freq_changed] tests the condition of the [if]
    before it again: min is never moved. *)
Lemma resolve_freqs_run (fmin fmax fmin_hw fmax_hw : Z) :
  resolve_freqs fmin fmax fmin_hw fmax_hw
  = if fmin >? fmax then (fmin, Z.min (fmin + 10) fmax_hw) else (fmin, fmax).
Proof.
  unfold resolve_freqs. destruct (Z.gtb_spec fmin fmax); [reflexivity|].
  destruct (Z.ltb_spec fmax fmin); [lia|reflexivity].
Qed.

Lemma resolve_freqs_ordered (fmin fmax lo hi : Z) :
  lo <= fmin <= hi -> lo <= fmax <= hi ->
  lo <= fst (resolve_freqs fmin fmax lo hi)
  /\ fst (resolve_freqs fmin fmax lo hi) <= snd (resolve_freqs fmin fmax lo hi)
  /\ snd (resolve_freqs fmin fmax lo hi) <= hi.
Proof.
  intros Hmin Hmax. rewrite resolve_freqs_run.
  destruct (Z.gtb_spec fmin fmax); simpl; lia.
Qed.

(** The setter keeps a pair that is ordered and inside the limits. *)
Lemma set_freqs_inside (conf : CpuSettings) (lo hi a b : Z) :
  hw_lims conf = (lo, hi) -> lo <= a -> a <= b -> b <= hi ->
  freqs (set_freqs conf (a, b)) = (a, b).
Proof.
  intros Hlims Ha Hab Hb. unfold set_freqs, freqs. rewrite Hlims. simpl.
  rewrite !clamp_inside by lia.
  destruct (Z.gtb_spec a b); [lia|reflexivity].
Qed.

(** What the setter stores is always ordered and inside the limits. *)
Lemma set_freqs_invariant (conf : CpuSettings) (lo hi : Z) (fs : Z * Z) :
  hw_lims conf = (lo, hi) -> lo <= hi ->
  lo <= fst (freqs (set_freqs conf fs))
  /\ fst (freqs (set_freqs conf fs)) <= snd (freqs (set_freqs conf fs))
  /\ snd (freqs (set_freqs conf fs)) <= hi.
Proof.
  intros Hlims Hle. unfold set_freqs, freqs. rewrite Hlims. simpl.
  unfold clamp.
  destruct (Z.gtb_spec (Z.max lo (Z.min hi (fst fs)))
              (Z.max lo (Z.min hi (snd fs)))); simpl; lia.
Qed.

(** [_on_freq_changed] stores, for the active CPU, the pair it made of the
    two spin box values. *)
Lemma on_freq_changed_stores (w : Window) (conf : CpuSettings) (lo hi : Z) :
  Dict.get (settings w) (_get_active_cpu w) = Some conf ->
  hw_lims conf = (lo, hi) ->
  exists w',
    _on_freq_changed w = Some w'
    /\ _get_active_cpu w' = _get_active_cpu w
    /\ Dict.get (settings w') (_get_active_cpu w)
       = Some (set_freqs conf
                 (resolve_freqs (value (min_spin w)) (value (max_spin w))
                    lo hi)).
Proof.
  intros Hget Hlims. unfold _on_freq_changed. rewrite Hget, Hlims.
  destruct (resolve_freqs (value (min_spin w)) (value (max_spin w)) lo hi)
    as [fmin fmax] eqn:Er.
  eexists. split; [reflexivity|].
  unfold _update_settings_freqs; simpl.
  destruct (toall_btn w); simpl; split; try reflexivity.
  - now rewrite DictFacts.get_update_all, Hget.
  - now rewrite DictFacts.get_update_at_same, Hget.
Qed.

(** On a window whose spin boxes are ranged to the limits of the active
    CPU, [_on_freq_changed] returns and stores an ordered pair inside the
    limits. *)
Lemma on_freq_changed_within_limits
  (w : Window) (conf : CpuSettings) (lo hi : Z) :
  Dict.get (settings w) (_get_active_cpu w) = Some conf ->
  hw_lims conf = (lo, hi) ->
  boxes_ranged lo hi w ->
  exists w' fmin fmax,
    _on_freq_changed w = Some w'
    /\ active_freqs w' = Some (fmin, fmax)
    /\ resolve_freqs (value (min_spin w)) (value (max_spin w)) lo hi
       = (fmin, fmax)
    /\ lo <= fmin /\ fmin <= fmax /\ fmax <= hi.
Proof.
  intros Hget Hlims (_ & _ & Hmin_v & _ & _ & Hmax_v).
  destruct (on_freq_changed_stores w conf lo hi Hget Hlims)
    as (w' & Hrun & Hactive & Hstored).
  pose proof (resolve_freqs_ordered (value (min_spin w)) (value (max_spin w))
                lo hi Hmin_v Hmax_v) as (Ha & Hab & Hb).
  destruct (resolve_freqs (value (min_spin w)) (value (max_spin w)) lo hi)
    as [fmin fmax] eqn:Er. simpl in Ha, Hab, Hb.
  exists w', fmin, fmax. split; [exact Hrun|]. split.
  { unfold active_freqs. rewrite Hactive, Hstored. simpl.
    now rewrite (set_freqs_inside conf lo hi fmin fmax). }
  auto.
Qed.

Ltac ranged_after_edit :=
  match goal with
  | Hr : boxes_ranged _ _ _ |- _ =>
      unfold boxes_ranged, setValue, qBound in *; simpl in *;
      decompose [and] Hr; repeat split; try assumption; lia
  end.

(** C3, as amended.  With the spin boxes ranged to the hardware limits of
    the active CPU, whatever value arrives through the min or max spin box
    or slider, the handler returns and the pair stored for the active CPU
    satisfies hwMin <= min <= max <= hwMax.  When the requested min, as
    bounded by the box, lies above the current max, min keeps the requested
    value and max is set to min + 10, cut at hwMax: the values are not
    swapped. *)
Theorem stored_frequencies_within_limits
  (w : Window) (conf : CpuSettings) (lo hi v : Z) :
  Dict.get (settings w) (_get_active_cpu w) = Some conf ->
  hw_lims conf = (lo, hi) -> lo <= hi ->
  refreshing w = false ->
  boxes_ranged lo hi w ->
  Forall
    (fun handler : Window -> Z -> option Window =>
       exists w' fmin fmax,
         handler w v = Some w'
         /\ active_freqs w' = Some (fmin, fmax)
         /\ lo <= fmin /\ fmin <= fmax /\ fmax <= hi)
    [type_min_spin; type_max_spin; on_min_spin_changed; on_max_spin_changed;
     on_min_slider_changed; on_max_slider_changed]
  /\ (value (max_spin w) < qBound lo v hi ->
      Forall
        (fun handler : Window -> Z -> option Window =>
           option_map active_freqs (handler w v)
           = Some (Some (qBound lo v hi, Z.min (qBound lo v hi + 10) hi)))
        [type_min_spin; on_min_slider_changed]).
Proof.
  intros Hget Hlims Hle Hrefresh Hranged.
  pose proof (qBound_in_range lo hi v Hle) as Hv.
  assert (Hrun : forall wm,
             settings wm = settings w -> cpu_combo wm = cpu_combo w ->
             boxes_ranged lo hi wm ->
             exists w' fmin fmax,
               _on_freq_changed wm = Some w'
               /\ active_freqs w' = Some (fmin, fmax)
               /\ resolve_freqs (value (min_spin wm)) (value (max_spin wm))
                    lo hi = (fmin, fmax)
               /\ lo <= fmin /\ fmin <= fmax /\ fmax <= hi).
  { intros wm Hs Hc Hr. apply (on_freq_changed_within_limits wm conf); auto.
    unfold _get_active_cpu. rewrite Hs, Hc. exact Hget. }
  split.
  - repeat (apply Forall_cons || apply Forall_nil);
      unfold type_min_spin, type_max_spin, on_min_spin_changed,
        on_max_spin_changed, on_min_slider_changed, on_max_slider_changed;
      simpl; rewrite Hrefresh;
      match goal with |- context [_on_freq_changed ?x] =>
        destruct (Hrun x eq_refl eq_refl)
          as (w' & fmin & fmax & Hr & Hf & _ & Hb);
          [ranged_after_edit|exists w', fmin, fmax; auto]
      end.
  - intros Hconflict.
    assert (Hmin_lo : minimum (min_spin w) = lo) by apply Hranged.
    assert (Hmin_hi : maximum (min_spin w) = hi) by apply Hranged.
    repeat (apply Forall_cons || apply Forall_nil);
      unfold type_min_spin, on_min_spin_changed, on_min_slider_changed;
      simpl; rewrite Hrefresh;
      match goal with |- context [_on_freq_changed ?x] =>
        destruct (Hrun x eq_refl eq_refl)
          as (w' & fmin & fmax & Hr & Hf & He & _);
          [ranged_after_edit|]
      end;
      rewrite Hr; simpl; rewrite Hf; simpl in He;
      rewrite Hmin_lo, Hmin_hi, resolve_freqs_run in He;
      destruct (Z.gtb_spec (qBound lo v hi) (value (max_spin w))); try lia;
      now injection He as <- <-.
Qed.

(** [_update_sliders] ranges both spin boxes to the hardware limits of the
    active CPU. *)
Lemma update_sliders_ranges (w : Window) (conf : CpuSettings) (lo hi : Z) :
  Dict.get (settings w) (_get_active_cpu w) = Some conf ->
  hw_lims conf = (lo, hi) -> lo <= hi ->
  boxes_ranged lo hi (_update_sliders w)
  /\ settings (_update_sliders w) = settings w
  /\ _get_active_cpu (_update_sliders w) = _get_active_cpu w
  /\ refreshing (_update_sliders w) = false.
Proof.
  intros Hget Hlims Hle. unfold _update_sliders. rewrite Hget, Hlims.
  destruct (freqs conf) as [fmin fmax].
  unfold boxes_ranged, setValue, setRange, qBound; simpl.
  repeat split; lia.
Qed.

Lemma index_of_nth (name : string) (l : list string) (i : nat) :
  index_of name l = Some i -> nth_error l i = Some name.
Proof.
  revert i. induction l as [|x l IH]; simpl; intros i; [discriminate|].
  destruct (String.eqb_spec x name) as [->|_].
  - now intros [= <-].
  - destruct (index_of name l) as [j|]; simpl; [|discriminate].
    intros [= <-]. simpl. now apply IH.
Qed.

Lemma In_index_of (name : string) (l : list string) :
  In name l -> exists i, index_of name l = Some i.
Proof.
  induction l as [|x l IH]; simpl; [contradiction|]. intros Hin.
  destruct (String.eqb_spec x name) as [->|Hne]; [now exists O|].
  destruct Hin as [Heq|Hin]; [contradiction|].
  destruct (IH Hin) as [i ->]. now exists (S i).
Qed.

(** Setting an energy preference the CPU offers reads back as set. *)
Lemma set_energy_pref_reads_back (conf : CpuSettings) (pref : string) :
  In pref (energy_prefs conf) ->
  energy_pref_name (set_energy_pref conf (Some pref)) = Some pref.
Proof.
  intros Hin. destruct (In_index_of pref _ Hin) as [i Hi].
  unfold set_energy_pref. rewrite Hi.
  unfold energy_pref_name, energy_pref_id. simpl.
  destruct (Z.ltb_spec (Z.of_nat i) 0); [lia|].
  rewrite Nat2Z.id. now apply index_of_nth.
Qed.

(** Setting a governor the CPU offers reads back as set. *)
Lemma set_governor_reads_back (conf : CpuSettings) (gov : string) :
  In gov (governors conf) ->
  governor_name (set_governor conf (Some gov)) = Some gov.
Proof.
  intros Hin. destruct (In_index_of gov _ Hin) as [i Hi].
  unfold set_governor. rewrite Hi.
  unfold governor_name, govid. simpl. now apply index_of_nth.
Qed.

(** The frequency, governor and online setters leave the energy preference
    alone. *)
Lemma setters_keep_energy_pref (conf : CpuSettings) :
  (forall fs, energy_pref_name (set_freqs conf fs) = energy_pref_name conf)
  /\ (forall gov,
         energy_pref_name (set_governor conf gov) = energy_pref_name conf)
  /\ (forall b, energy_pref_name (set_online conf b) = energy_pref_name conf).
Proof.
  split; [|split].
  - intros fs. unfold set_freqs. now destruct (hw_lims conf).
  - intros [gov|]; [|reflexivity]. unfold set_governor.
    now destruct (index_of gov (governors conf)).
  - reflexivity.
Qed.

(** A governor edit: every CPU when "apply to all" is on, the active CPU
    alone when it is off, and no energy preference is altered. *)
Lemma governor_edit_scope (w : Window) (index : Z) (cpu : Z) :
  refreshing w = false -> 0 <= index ->
  Dict.get (settings (on_governor_changed w index)) cpu
  = (if toall_btn w || (cpu =? _get_active_cpu w)
     then option_map (fun conf => set_governor conf (gov_combo w))
            (Dict.get (settings w) cpu)
     else Dict.get (settings w) cpu)
  /\ option_map energy_pref_name
       (Dict.get (settings (on_governor_changed w index)) cpu)
     = option_map energy_pref_name (Dict.get (settings w) cpu).
Proof.
  intros Hrefresh Hindex. unfold on_governor_changed. rewrite Hrefresh.
  destruct (Z.ltb_spec index 0); [lia|]. simpl.
  assert (Hframe : forall conf,
             energy_pref_name (set_governor conf (gov_combo w))
             = energy_pref_name conf)
    by (intros conf; apply setters_keep_energy_pref).
  destruct (toall_btn w); simpl.
  - rewrite DictFacts.get_update_all.
    destruct (Dict.get (settings w) cpu); simpl; [|easy].
    now rewrite Hframe.
  - destruct (Z.eqb_spec cpu (_get_active_cpu w)) as [->|Hne].
    + rewrite DictFacts.get_update_at_same.
      destruct (Dict.get (settings w) (_get_active_cpu w)); simpl; [|easy].
      now rewrite Hframe.
    + now rewrite DictFacts.get_update_at_other.
Qed.

(** A frequency edit, likewise. *)
Lemma freq_edit_scope (w : Window) (active fmin fmax : Z) (cpu : Z) :
  Dict.get (settings (_update_settings_freqs w active fmin fmax)) cpu
  = (if toall_btn w || (cpu =? active)
     then option_map (fun conf => set_freqs conf (fmin, fmax))
            (Dict.get (settings w) cpu)
     else Dict.get (settings w) cpu)
  /\ option_map energy_pref_name
       (Dict.get (settings (_update_settings_freqs w active fmin fmax)) cpu)
     = option_map energy_pref_name (Dict.get (settings w) cpu).
Proof.
  unfold _update_settings_freqs.
  assert (Hframe : forall conf,
             energy_pref_name (set_freqs conf (fmin, fmax))
             = energy_pref_name conf)
    by (intros conf; apply setters_keep_energy_pref).
  destruct (toall_btn w); simpl.
  - rewrite DictFacts.get_update_all.
    destruct (Dict.get (settings w) cpu); simpl; [|easy].
    now rewrite Hframe.
  - destruct (Z.eqb_spec cpu active) as [->|Hne].
    + rewrite DictFacts.get_update_at_same.
      destruct (Dict.get (settings w) active); simpl; [|easy].
      now rewrite Hframe.
    + now rewrite DictFacts.get_update_at_other.
Qed.

(** An online edit reaches the active CPU alone, whatever the state of
    "apply to all". *)
Lemma online_edit_scope (w w' : Window) (checked : bool) (cpu : Z) :
  refreshing w = false ->
  on_cpu_online_toggled w checked = Some w' ->
  Dict.get (settings w') cpu
  = if cpu =? _get_active_cpu w
    then option_map (fun conf => set_online conf checked)
           (Dict.get (settings w) cpu)
    else Dict.get (settings w) cpu.
Proof.
  intros Hrefresh. unfold on_cpu_online_toggled. rewrite Hrefresh.
  destruct (Dict.get (settings w) (_get_active_cpu w)); [|discriminate].
  intros [= <-]. simpl.
  destruct (Z.eqb_spec cpu (_get_active_cpu w)) as [->|Hne].
  - now rewrite DictFacts.get_update_at_same.
  - now rewrite DictFacts.get_update_at_other.
Qed.

(** C7.  An energy-preference edit follows its own scope flag and never
    looks at "apply to all": with the global scope the setter is applied
    with the same value to the settings of every CPU, with the per-CPU
    scope to those of the active CPU alone; on every CPU that offers the
    chosen preference and is reached, it then reads back as set. *)
Theorem energy_preference_scope (w : Window) (index : Z) :
  refreshing w = false -> 0 <= index ->
  (forall cpu,
      Dict.get (settings (on_energy_pref_changed w index)) cpu
      = if negb (energy_per_cpu w) || (cpu =? _get_active_cpu w)
        then option_map (fun conf => set_energy_pref conf (energy_combo w))
               (Dict.get (settings w) cpu)
        else Dict.get (settings w) cpu)
  /\ (forall conf pref, In pref (energy_prefs conf) ->
        energy_pref_name (set_energy_pref conf (Some pref)) = Some pref)
  /\ (forall b,
        settings (on_energy_pref_changed (with_toall w b) index)
        = settings (on_energy_pref_changed w index)).
Proof.
  intros Hrefresh Hindex. split; [|split].
  - intros cpu. unfold on_energy_pref_changed. rewrite Hrefresh.
    destruct (Z.ltb_spec index 0); [lia|]. simpl.
    destruct (energy_per_cpu w); simpl.
    + destruct (Z.eqb_spec cpu (_get_active_cpu w)) as [->|Hne].
      * now rewrite DictFacts.get_update_at_same.
      * now rewrite DictFacts.get_update_at_other.
    + now rewrite DictFacts.get_update_all.
  - intros conf pref. apply set_energy_pref_reads_back.
  - intros b. unfold on_energy_pref_changed. simpl.
    destruct (refreshing w || (index <? 0)); [reflexivity|].
    now destruct (energy_per_cpu w).
Qed.

End EditFacts.

(** ** The edit handlers on the reference window *)

Section EditExamples.

Import Config Edit Sim.

(** C3 on CPU 1, set to 1000..2000 MHz within 800..3200, for the value
    2500: through the min box or slider it stores (2500, 2510). *)
Lemma stored_frequencies_within_limits_witness :
  Forall
    (fun handler : Window -> Z -> option Window =>
       exists w' fmin fmax,
         handler
           (window [(0, cpu_conf 0); (1, cpu_conf_1000_2000 1)] 1 false false
              1000 2000) 2500
         = Some w'
         /\ active_freqs w' = Some (fmin, fmax)
         /\ 800 <= fmin /\ fmin <= fmax /\ fmax <= 3200)
    [type_min_spin; type_max_spin; on_min_spin_changed; on_max_spin_changed;
     on_min_slider_changed; on_max_slider_changed]
  /\ Forall
       (fun handler : Window -> Z -> option Window =>
          option_map active_freqs
            (handler
               (window [(0, cpu_conf 0); (1, cpu_conf_1000_2000 1)] 1 false
                  false 1000 2000) 2500)
          = Some (Some (qBound 800 2500 3200,
                        Z.min (qBound 800 2500 3200 + 10) 3200)))
       [type_min_spin; on_min_slider_changed].
Proof.
  destruct (stored_frequencies_within_limits
              (window [(0, cpu_conf 0); (1, cpu_conf_1000_2000 1)] 1 false
                 false 1000 2000)
              (cpu_conf_1000_2000 1) 800 3200 2500)
    as [Hbounds Hconflict].
  - reflexivity.
  - reflexivity.
  - lia.
  - reflexivity.
  - unfold boxes_ranged. simpl. lia.
  - split; [exact Hbounds|]. apply Hconflict. simpl. unfold qBound. lia.
Defined.

(** C3 as first stated fails: CPU 1 is set to 1000..2000 MHz and the user
    asks for min = 2500, a move by 1500.  Pushing max by the same delta
    gives 3200 after clamping; window.py stores 2510. *)
Lemma max_not_pushed_by_requested_delta :
  option_map active_freqs
    (type_min_spin
       (window [(0, cpu_conf 0); (1, cpu_conf_1000_2000 1)] 1 false false
          1000 2000) 2500)
  = Some (Some (2500, 2510))
  /\ pushed_by_same_delta 800 3200 1000 2000 2500 = (2500, 3200)
  /\ (2500, 2510) <> pushed_by_same_delta 800 3200 1000 2000 2500.
Proof.
  split; [reflexivity|]. split; [reflexivity|]. discriminate.
Qed.

(** The same CPU when the user asks for max = 900, below min: the request
    is dropped and max comes back as min + 10; min is not lowered. *)
Example max_typed_below_min :
  option_map active_freqs
    (type_max_spin
       (window [(0, cpu_conf 0); (1, cpu_conf_1000_2000 1)] 1 false false
          1000 2000) 900)
  = Some (Some (1000, 1010)).
Proof. reflexivity. Qed.

(** C6 at its failing input: four CPUs online, "apply to all" on, CPU 1
    selected.  Unticking the online box switches the target of CPU 1 alone;
    CPUs 0, 2 and 3 keep their online target. *)
Theorem online_edit_is_not_broadcast :
  option_map
    (fun w => map (fun kv => (fst kv, Config.is_online (snd kv))) (settings w))
    (on_cpu_online_toggled (window four_fresh 1 true false 800 3200) false)
  = Some [(0, true); (1, false); (2, true); (3, true)].
Proof. reflexivity. Qed.

(** On the same window a governor edit does reach all four CPUs, and so
    does the online value when "apply to all" is switched on. *)
Example governor_edit_is_broadcast :
  map (fun kv => (fst kv, governor_name (snd kv)))
    (settings (on_governor_changed (window four_fresh 1 true false 800 3200) 0))
  = [(0, Some "performance"); (1, Some "performance");
     (2, Some "performance"); (3, Some "performance")].
Proof. reflexivity. Qed.

Example toall_copies_online :
  option_map
    (fun w => map (fun kv => (fst kv, Config.is_online (snd kv))) (settings w))
    (on_toall_toggled
       (window (Dict.update_at (fun conf => set_online conf false) 1 four_fresh)
          1 true false 800 3200) true)
  = Some [(0, false); (1, false); (2, false); (3, false)].
Proof. reflexivity. Qed.

(** C7 on four CPUs, global scope, "apply to all" off. *)
Lemma energy_preference_scope_witness :
  (forall cpu,
      Dict.get
        (settings
           (on_energy_pref_changed (window four_fresh 1 false false 800 3200)
              0)) cpu
      = if negb false || (cpu =? 1)
        then option_map (fun conf => set_energy_pref conf (Some "performance"))
               (Dict.get four_fresh cpu)
        else Dict.get four_fresh cpu)
  /\ (forall conf pref, In pref (energy_prefs conf) ->
        energy_pref_name (set_energy_pref conf (Some pref)) = Some pref)
  /\ (forall b,
        settings
          (on_energy_pref_changed
             (with_toall (window four_fresh 1 false false 800 3200) b) 0)
        = settings
            (on_energy_pref_changed (window four_fresh 1 false false 800 3200)
               0)).
Proof.
  apply (energy_preference_scope (window four_fresh 1 false false 800 3200) 0).
  - reflexivity.
  - lia.
Defined.

(** The two scopes side by side. *)
Example energy_pref_global_and_per_cpu :
  map (fun kv => (fst kv, energy_pref_name (snd kv)))
    (settings
       (on_energy_pref_changed (window four_fresh 1 false false 800 3200) 0))
  = [(0, Some "performance"); (1, Some "performance");
     (2, Some "performance"); (3, Some "performance")]
  /\ map (fun kv => (fst kv, energy_pref_name (snd kv)))
       (settings
          (on_energy_pref_changed (window four_fresh 1 true true 800 3200) 0))
     = [(0, Some "balance_power"); (1, Some "performance");
        (2, Some "balance_power"); (3, Some "balance_power")].
Proof. split; reflexivity. Qed.

(** The scenario of the spec: four CPUs online within 800..3200 MHz,
    "apply to all" off; the user sets max and then min of CPU 0 to 1200.
    Only CPU 0 counts as changed, and the apply pass writes its
    frequencies, in kHz, and nothing else; the helper accepts and the
    result is 0. *)
Example scenario_equal_bounds :
  match type_max_spin (window four_fresh 0 false false 800 3200) 1200 with
  | Some w1 =>
      match type_min_spin w1 1200 with
      | Some w2 =>
          map (fun kv => (fst kv, freqs (snd kv), changed (snd kv)))
            (settings w2)
          = [(0, (1200, 1200), true); (1, (800, 3200), false);
             (2, (800, 3200), false); (3, (800, 3200), false)]
          /\ Apply.on_apply_clicked machine true (settings w2) (four_cpus [])
             = (Apply.Applied 0 None, four_cpus [],
                [(UpdateCpuSettings 0 1200000 1200000, 0)])
      | None => False
      end
  | None => False
  end.
Proof. split; reflexivity. Qed.

End EditExamples.

(** ** More about the apply pass *)

Section ApplyMore.

Import Apply Trace.

Context {H : Type} (HELPER : Helper H).
Context {C : Type} `{CpuSettingsLike C}.
Variable energy_pref_avail : bool.

(** The pass once more, with the CPUs of its steps. *)
Lemma pass_spec_cpus (settings : Dict.t C) (h : H) :
  exists l h',
    apply_pass HELPER energy_pref_avail settings h
    = (Some (total l), h', writes l)
    /\ Forall (step_ok energy_pref_avail settings) l
    /\ Forall (fun s => In (step_cpu s) (changed_cpus settings)) l
    /\ (NoDup (Dict.keys settings) ->
        NoDup (map (fun s => (step_cpu s, step_dim s)) l)).
Proof.
  destruct (loop_steps_spec HELPER energy_pref_avail settings
              (changed_cpus settings)) with (h := h)
    as (l & h' & _ & A & Hok & Hcpus & Hnd & _).
  { intros cpu Hc. apply DictFacts.In_keys_get.
    now apply changed_cpus_keys. }
  exists l, h'. repeat split; auto.
  - apply A.
  - intros Hk. apply Hnd. now apply changed_cpus_nodup.
Qed.

(** What a write says about the settings of its CPU. *)
Lemma write_of_step (settings : Dict.t C) (s : Step) (c : Call) (raw : Z) :
  step_ok energy_pref_avail settings s ->
  In (c, raw) (step_calls s) ->
  step_calls s = [(c, raw)]
  /\ call_cpu c = step_cpu s /\ call_dim c = step_dim s
  /\ exists conf,
       Dict.get settings (step_cpu s) = Some conf
       /\ match c with
          | SetCpuOnline _ => online conf = true
          | SetCpuOffline _ => online conf = false
          | UpdateCpuSettings _ fmin fmax =>
              online conf = true /\ setting_changed conf "freqs" = true
              /\ freqs_scaled conf = (Some fmin, Some fmax)
          | UpdateCpuGovernor _ gov =>
              online conf = true /\ setting_changed conf "governor" = true
              /\ governor conf = Some gov
          | UpdateCpuEnergyPrefs _ pref =>
              online conf = true /\ setting_changed conf "energy_pref" = true
              /\ energy_pref conf = Some pref /\ energy_pref_avail = true
          end.
Proof.
  intros (conf & Hget & Hon & Hshape) Hin. unfold step_shape in Hshape.
  destruct (step_dim s) eqn:Ed.
  - destruct Hshape as [(Hc & _)|[(Hc & Ht)|(Hc & Ht)]]; rewrite Hc in Hin;
      simpl in Hin; [contradiction| |];
      destruct Hin as [[= <- <-]|[]];
      (split; [exact Hc|]); repeat split; exists conf; auto.
  - destruct Hon as [Hon Hch]; [discriminate|].
    destruct Hshape as [(Hc & _)|(a & b & raw' & Hf & Hc & _)];
      rewrite Hc in Hin; simpl in Hin; [contradiction|].
    destruct Hin as [[= <- <-]|[]].
    (split; [exact Hc|]); repeat split; exists conf; auto.
  - destruct Hon as [Hon Hch]; [discriminate|].
    destruct Hshape as [(Hc & _)|(g & raw' & Hg & Hc & _)];
      rewrite Hc in Hin; simpl in Hin; [contradiction|].
    destruct Hin as [[= <- <-]|[]].
    (split; [exact Hc|]); repeat split; exists conf; auto.
  - destruct Hon as [Hon Hch]; [discriminate|].
    destruct Hshape as [(Hc & _)|[(Hc & _)|(p & raw' & Hav & Hp & Hc & _)]];
      rewrite Hc in Hin; simpl in Hin; [contradiction|contradiction|].
    destruct Hin as [[= <- <-]|[]].
    (split; [exact Hc|]); repeat split; exists conf; auto.
Qed.

(** X2.  Every write of an apply pass is about a changed CPU and carries
    what the settings of that CPU hold: a switch goes towards the online
    target; frequencies, governor and energy preference are written only
    for a CPU whose target is online and whose field counts as changed,
    with the scaled frequencies, the governor and the preference of the
    settings; an energy preference is written only when energy preferences
    are available. *)
Theorem writes_carry_settings_values
  (settings : Dict.t C) (h h' : H) (o : option Z) (t : list Event)
  (c : Call) (raw : Z) :
  apply_pass HELPER energy_pref_avail settings h = (o, h', t) ->
  In (c, raw) t ->
  In (call_cpu c) (changed_cpus settings)
  /\ exists conf,
       Dict.get settings (call_cpu c) = Some conf
       /\ match c with
          | SetCpuOnline _ => online conf = true
          | SetCpuOffline _ => online conf = false
          | UpdateCpuSettings _ fmin fmax =>
              online conf = true /\ setting_changed conf "freqs" = true
              /\ freqs_scaled conf = (Some fmin, Some fmax)
          | UpdateCpuGovernor _ gov =>
              online conf = true /\ setting_changed conf "governor" = true
              /\ governor conf = Some gov
          | UpdateCpuEnergyPrefs _ pref =>
              online conf = true /\ setting_changed conf "energy_pref" = true
              /\ energy_pref conf = Some pref /\ energy_pref_avail = true
          end.
Proof.
  intros Hpass Hin.
  destruct (pass_spec_cpus settings h) as (l & h0 & A & Hok & Hcpus & _).
  rewrite Hpass in A. injection A as -> -> ->.
  apply In_writes in Hin as (s & Hs & Hin).
  rewrite Forall_forall in Hok, Hcpus.
  destruct (write_of_step settings s c raw (Hok s Hs) Hin)
    as (_ & Hcpu & _ & conf & Hget & Hvals).
  rewrite Hcpu. split; [now apply Hcpus|]. now exists conf.
Qed.

(** X3.  In one apply pass no CPU gets two writes of the same dimension:
    at most one switch, one frequency write, one governor write and one
    energy-preference write each. *)
Theorem one_write_per_cpu_and_dimension
  (settings : Dict.t C) (h h' : H) (o : option Z) (t : list Event) :
  NoDup (Dict.keys settings) ->
  apply_pass HELPER energy_pref_avail settings h = (o, h', t) ->
  NoDup (map (fun e => (call_cpu (fst e), call_dim (fst e))) t).
Proof.
  intros Hkeys Hpass.
  destruct (pass_spec_cpus settings h) as (l & h0 & A & Hok & _ & Hnd).
  rewrite Hpass in A. injection A as -> -> ->.
  specialize (Hnd Hkeys). clear Hpass Hkeys.
  induction l as [|s l IH]; [constructor|].
  inversion Hok as [|? ? Hs Hl]; subst.
  inversion Hnd as [|? ? Hnotin Hnd']; subst.
  unfold writes. simpl. rewrite map_app. apply NoDup_app.
  - destruct (step_calls s) as [|[c raw] rest] eqn:Ec; [constructor|].
    destruct (write_of_step settings s c raw Hs) as (Hone & _).
    { rewrite Ec. now left. }
    rewrite Ec in Hone. injection Hone as ->. simpl.
    constructor; [intros []|constructor].
  - now apply IH.
  - intros k Hk1 Hk2. apply Hnotin.
    apply in_map_iff in Hk1 as ([c raw] & <- & Hin1).
    destruct (write_of_step settings s c raw Hs Hin1) as (_ & Hc1 & Hd1 & _).
    simpl in Hk2. rewrite Hc1, Hd1 in Hk2.
    apply in_map_iff in Hk2 as ([c2 raw2] & Heq & Hin2).
    apply In_writes in Hin2 as (s2 & Hs2 & Hin2).
    rewrite Forall_forall in Hl.
    destruct (write_of_step settings s2 c2 raw2 (Hl s2 Hs2) Hin2)
      as (_ & Hc2 & Hd2 & _).
    simpl in Heq. rewrite Hc2, Hd2 in Heq.
    apply in_map_iff. now exists s2.
Qed.

Lemma shape_only (conf : C) (s : Step) :
  step_shape energy_pref_avail conf s ->
  only (step_dim s) (step_cpu s) (step_calls s).
Proof.
  unfold step_shape, only. intros Hshape.
  destruct (step_dim s).
  - destruct Hshape as [(-> & _)|[(-> & _)|(-> & _)]]; simpl;
      (split; [lia|]); intros e; try contradiction;
      intros [<-|[]]; auto.
  - destruct Hshape as [(-> & _)|(a & b & raw & _ & -> & _)]; simpl;
      (split; [lia|]); intros e; try contradiction;
      intros [<-|[]]; auto.
  - destruct Hshape as [(-> & _)|(g & raw & _ & -> & _)]; simpl;
      (split; [lia|]); intros e; try contradiction;
      intros [<-|[]]; auto.
  - destruct Hshape as [(-> & _)|[(-> & _)|(p & raw & _ & _ & -> & _)]];
      simpl; (split; [lia|]); intros e; try contradiction;
      intros [<-|[]]; auto.
Qed.

Lemma only_nil (d : Dim) (cpu : Z) : only d cpu [].
Proof. unfold only. simpl. split; [lia|]. intros e []. Qed.

(** A guarded step of the loop body and its writes. *)
Lemma add_if_only (cond : bool) (cpu : Z) (d : Dim) (m : M Z) (conf : C)
  (ret : Z) (h : H) :
  (forall r h' t, m h = (r, h', t) ->
     step_shape energy_pref_avail conf
       {| step_cpu := cpu; step_dim := d; step_calls := t; step_ret := r |}) ->
  exists r h' t, add_if cond m ret h = (r, h', t) /\ only d cpu t.
Proof.
  intros Hshape. unfold add_if, bind, mret. destruct cond.
  - destruct (m h) as [[r h'] t] eqn:Em.
    exists (ret + r), h', (t ++ []). split; [reflexivity|].
    rewrite app_nil_r. apply (shape_only conf _ (Hshape r h' t eq_refl)).
  - exists ret, h, []. split; [reflexivity|apply only_nil].
Qed.

(** The writes of the loop body for one CPU come in the order of the
    source: switch, frequencies, governor, energy preference. *)
Lemma apply_cpu_ordered (settings : Dict.t C) (cpu : Z) (conf : C)
  (ret : Z) (h : H) :
  Dict.get settings cpu = Some conf ->
  exists r h' t0 t1 t2 t3,
    apply_cpu HELPER energy_pref_avail settings cpu ret h
    = (Some r, h', t0 ++ t1 ++ t2 ++ t3)
    /\ only Online cpu t0 /\ only Freqs cpu t1
    /\ only Governor cpu t2 /\ only EnergyPref cpu t3.
Proof.
  intros Hget. unfold apply_cpu. rewrite Hget. unfold bind at 1.
  destruct (_set_cpu_online HELPER settings cpu h) as [[r0 h0] t0] eqn:E0.
  pose proof (shape_only conf _
                (shape_online HELPER energy_pref_avail settings cpu conf h
                   r0 h0 t0 Hget E0)) as O0.
  simpl in O0.
  destruct (online conf).
  - destruct (add_if_only (setting_changed conf "freqs") cpu Freqs
                (_set_cpu_frequencies HELPER settings cpu) conf (ret + r0) h0)
      as (r1 & h1 & t1 & E1 & O1).
    { intros r h' t. apply shape_freqs. exact Hget. }
    destruct (add_if_only (setting_changed conf "governor") cpu Governor
                (_set_cpu_governor HELPER settings cpu) conf r1 h1)
      as (r2 & h2 & t2 & E2 & O2).
    { intros r h' t. apply shape_governor. exact Hget. }
    destruct (add_if_only (setting_changed conf "energy_pref") cpu EnergyPref
                (_set_cpu_energy_preferences HELPER energy_pref_avail
                   settings cpu) conf r2 h2)
      as (r3 & h3 & t3 & E3 & O3).
    { intros r h' t. apply shape_energy. exact Hget. }
    exists r3, h3, t0, t1, t2, t3. unfold bind, mret.
    rewrite E1, E2, E3. rewrite app_nil_r. auto.
  - exists (ret + r0), h0, t0, [], [], []. unfold mret.
    exact (conj eq_refl
             (conj O0 (conj (only_nil _ _)
                         (conj (only_nil _ _) (only_nil _ _))))).
Qed.

(** X4.  The writes of an apply pass come CPU by CPU, in the order in
    which the changed CPUs stand in the settings, and for each CPU in the
    fixed order switch, frequencies, governor, energy preference, with at
    most one write of each. *)
Theorem writes_come_in_fixed_order (settings : Dict.t C) (h : H) :
  exists ret h' per_cpu,
    apply_pass HELPER energy_pref_avail settings h
    = (Some ret, h', List.concat per_cpu)
    /\ Forall2
         (fun cpu t =>
            exists t0 t1 t2 t3,
              t = t0 ++ t1 ++ t2 ++ t3
              /\ only Online cpu t0 /\ only Freqs cpu t1
              /\ only Governor cpu t2 /\ only EnergyPref cpu t3)
         (changed_cpus settings) per_cpu.
Proof.
  unfold apply_pass.
  assert (Hkeys : forall cpu, In cpu (changed_cpus settings) ->
                    exists conf, Dict.get settings cpu = Some conf).
  { intros cpu Hc. apply DictFacts.In_keys_get.
    now apply changed_cpus_keys. }
  generalize 0 as ret0. revert h.
  induction (changed_cpus settings) as [|cpu rest IH]; intros h ret0.
  - exists ret0, h, []. split; [reflexivity|constructor].
  - destruct (Hkeys cpu (or_introl eq_refl)) as [conf Hget].
    destruct (apply_cpu_ordered settings cpu conf ret0 h Hget)
      as (r & h1 & t0 & t1 & t2 & t3 & E & O0 & O1 & O2 & O3).
    destruct (IH (fun c Hc => Hkeys c (or_intror Hc)) h1 r)
      as (ret & h' & per_cpu & Eloop & Hall).
    exists ret, h', ((t0 ++ t1 ++ t2 ++ t3) :: per_cpu). split.
    + simpl. unfold bind. rewrite E, Eloop. reflexivity.
    + constructor; [|exact Hall]. now exists t0, t1, t2, t3.
Qed.

Lemma total_three (l : list Step) (s1 s2 s3 : Step) :
  NoDup l -> In s1 l -> In s2 l -> In s3 l ->
  s1 <> s2 -> s1 <> s3 -> s2 <> s3 ->
  (forall s', In s' l -> s' <> s1 -> s' <> s2 -> s' <> s3 -> step_ret s' = 0) ->
  total l = step_ret s1 + step_ret s2 + step_ret s3.
Proof.
  induction l as [|x l IH]; simpl; intros Hnd H1 H2 H3 N12 N13 N23 Hz;
    [contradiction|].
  inversion Hnd as [|? ? Hnotin Hnd']; subst.
  change (total (x :: l)) with (step_ret x + total l).
  destruct H1 as [->|H1], H2 as [->|H2], H3 as [->|H3];
    try (now elim N12); try (now elim N13); try (now elim N23).
  - rewrite (total_two l s2 s3); auto; [lia|].
    intros s' Hs' Hn2 Hn3. apply Hz; auto. intros ->. contradiction.
  - rewrite (total_two l s1 s3); auto; [lia|].
    intros s' Hs' Hn1 Hn3. apply Hz; auto. intros ->. contradiction.
  - rewrite (total_two l s1 s2); auto; [lia|].
    intros s' Hs' Hn1 Hn2. apply Hz; auto. intros ->. contradiction.
  - rewrite IH by auto. rewrite (Hz x); [lia|now left| | |];
      intros ->; contradiction.
Qed.

(** What a step returns when its write was refused. *)
Lemma refused_step_ret (settings : Dict.t C) (s : Step) :
  step_ok energy_pref_avail settings s ->
  (exists c raw, step_calls s = [(c, raw)] /\ raw <> 0) ->
  match step_dim s with
  | Online => step_ret s <> 0
  | Freqs => step_ret s = -13
  | Governor => step_ret s = -11
  | EnergyPref => step_ret s = -12
  end.
Proof.
  intros (conf & _ & _ & Hshape) (c & raw & Hc & Hraw).
  unfold step_shape in Hshape. rewrite Hc in Hshape.
  destruct (step_dim s).
  - destruct Hshape as [(Hc' & _)|[(Hc' & _)|(Hc' & _)]];
      [discriminate| |]; injection Hc' as _ ->; exact Hraw.
  - destruct Hshape as [(Hc' & _)|(a & b & raw' & _ & Hc' & ->)];
      [discriminate|]. injection Hc' as _ <-.
    destruct (mapped_values (-13) raw) as [[? _]|[_ ->]];
      [contradiction|reflexivity].
  - destruct Hshape as [(Hc' & _)|(g & raw' & _ & Hc' & ->)];
      [discriminate|]. injection Hc' as _ <-.
    destruct (mapped_values (-11) raw) as [[? _]|[_ ->]];
      [contradiction|reflexivity].
  - destruct Hshape as [(Hc' & _)|[(Hc' & _)|(p & raw' & _ & _ & Hc' & ->)]];
      [discriminate|discriminate|]. injection Hc' as _ <-.
    destruct (mapped_values (-12) raw) as [[? _]|[_ ->]];
      [contradiction|reflexivity].
Qed.

(** X5.  When the frequency, governor and energy-preference writes of one
    pass are all three refused and every other step returns 0, the result
    is -36, which is no entry of the table: the user is shown the generic
    unknown-error message. *)
Theorem triple_failure_is_unknown_error
  (settings : Dict.t C) (h h' : H) (l : list Step) (t : list Event)
  (sf sg se : Step) :
  NoDup (Dict.keys settings) ->
  isauthorized HELPER h = true ->
  pass_steps HELPER energy_pref_avail settings h = (Some l, h', t) ->
  In sf l -> step_dim sf = Freqs ->
  In sg l -> step_dim sg = Governor ->
  In se l -> step_dim se = EnergyPref ->
  (exists c raw, step_calls sf = [(c, raw)] /\ raw <> 0) ->
  (exists c raw, step_calls sg = [(c, raw)] /\ raw <> 0) ->
  (exists c raw, step_calls se = [(c, raw)] /\ raw <> 0) ->
  (forall s, In s l -> s <> sf -> s <> sg -> s <> se -> step_ret s = 0) ->
  on_apply_clicked HELPER energy_pref_avail settings h
  = (Applied (-36) (Some "Unknown error occurred."), h', t).
Proof.
  intros Hnd Hauth Hsteps Hsf Hdf Hsg Hdg Hse Hde Hff Hfg Hfe Hrest.
  destruct (pass_spec HELPER energy_pref_avail settings h)
    as (l0 & h0 & E & A & Hok & Hnodup & _).
  rewrite Hsteps in E. injection E as <- <- ->.
  rewrite Forall_forall in Hok.
  pose proof (refused_step_ret settings sf (Hok sf Hsf) Hff) as Rf.
  pose proof (refused_step_ret settings sg (Hok sg Hsg) Hfg) as Rg.
  pose proof (refused_step_ret settings se (Hok se Hse) Hfe) as Re.
  rewrite Hdf in Rf. rewrite Hdg in Rg. rewrite Hde in Re.
  assert (Htotal : total l = -36).
  { rewrite (total_three l sf sg se); auto; try lia;
      intros ->; congruence. }
  rewrite Htotal in A.
  now rewrite (on_apply_clicked_authorized HELPER energy_pref_avail settings
                 h (-36) h' (writes l)).
Qed.

(** X6.  The codes are summed over all CPUs before the table is read, so
    two failures on different CPUs can add up to the code of another
    failure: when the energy-preference writes of two CPUs are refused and
    every other step returns 0, the result is -24 and the user is told
    that setting governor and frequencies failed. *)
Theorem two_energy_failures_read_as_governor_and_frequencies
  (settings : Dict.t C) (h h' : H) (l : list Step) (t : list Event)
  (s1 s2 : Step) :
  NoDup (Dict.keys settings) ->
  isauthorized HELPER h = true ->
  pass_steps HELPER energy_pref_avail settings h = (Some l, h', t) ->
  In s1 l -> step_dim s1 = EnergyPref ->
  In s2 l -> step_dim s2 = EnergyPref ->
  step_cpu s1 <> step_cpu s2 ->
  (exists c raw, step_calls s1 = [(c, raw)] /\ raw <> 0) ->
  (exists c raw, step_calls s2 = [(c, raw)] /\ raw <> 0) ->
  (forall s, In s l -> s <> s1 -> s <> s2 -> step_ret s = 0) ->
  on_apply_clicked HELPER energy_pref_avail settings h
  = (Applied (-24) (Some "Setting governor and frequencies failed."), h', t).
Proof.
  intros Hnd Hauth Hsteps Hs1 Hd1 Hs2 Hd2 Hcpu Hf1 Hf2 Hrest.
  destruct (pass_spec HELPER energy_pref_avail settings h)
    as (l0 & h0 & E & A & Hok & Hnodup & _).
  rewrite Hsteps in E. injection E as <- <- ->.
  rewrite Forall_forall in Hok.
  pose proof (refused_step_ret settings s1 (Hok s1 Hs1) Hf1) as R1.
  pose proof (refused_step_ret settings s2 (Hok s2 Hs2) Hf2) as R2.
  rewrite Hd1 in R1. rewrite Hd2 in R2.
  assert (Htotal : total l = -24).
  { rewrite (total_two l s1 s2); auto; [lia|]. intros ->. now elim Hcpu. }
  rewrite Htotal in A.
  now rewrite (on_apply_clicked_authorized HELPER energy_pref_avail settings
                 h (-24) h' (writes l)).
Qed.

End ApplyMore.

(** ** More of the apply pass on the reference machine *)

Section ApplyMoreExamples.

Import Config Apply Trace Sim Cases.

(** X2 on four CPUs: the governor write of CPU 1. *)
Lemma writes_carry_settings_values_witness :
  In 1 (changed_cpus [(0, untouched); (1, freq_and_governor)])
  /\ exists conf,
       Dict.get [(0, untouched); (1, freq_and_governor)] 1 = Some conf
       /\ online conf = true /\ setting_changed conf "governor" = true
       /\ governor conf = Some "performance".
Proof.
  exact (writes_carry_settings_values machine true
           [(0, untouched); (1, freq_and_governor)] (four_cpus [])
           (four_cpus []) (Some 0)
           [(UpdateCpuSettings 1 1200000 3200000, 0);
            (UpdateCpuGovernor 1 "performance", 0)]
           (UpdateCpuGovernor 1 "performance") 0 eq_refl
           (or_intror (or_introl eq_refl))).
Defined.

(** X3 on the same pass. *)
Lemma one_write_per_cpu_and_dimension_witness :
  NoDup
    (map (fun e : Event => (call_cpu (fst e), call_dim (fst e)))
       [(UpdateCpuSettings 1 1200000 3200000, 0);
        (UpdateCpuGovernor 1 "performance", 0)]).
Proof.
  refine (one_write_per_cpu_and_dimension machine true
            [(0, untouched); (1, freq_and_governor)] (four_cpus [])
            (four_cpus []) (Some 0) _ _ eq_refl).
  repeat (constructor; [simpl; intuition lia|]); constructor.
Defined.

(** X5 on CPU 1 with all three writes refused. *)
Lemma triple_failure_is_unknown_error_witness :
  on_apply_clicked machine true [(1, all_three)]
    (four_cpus [(UpdateCpuSettings 1 1200000 3200000, -1);
                (UpdateCpuGovernor 1 "performance", -1);
                (UpdateCpuEnergyPrefs 1 "performance", -1)])
  = (Applied (-36) (Some "Unknown error occurred."),
     four_cpus [(UpdateCpuSettings 1 1200000 3200000, -1);
                (UpdateCpuGovernor 1 "performance", -1);
                (UpdateCpuEnergyPrefs 1 "performance", -1)],
     [(UpdateCpuSettings 1 1200000 3200000, -1);
      (UpdateCpuGovernor 1 "performance", -1);
      (UpdateCpuEnergyPrefs 1 "performance", -1)]).
Proof.
  refine (triple_failure_is_unknown_error machine true [(1, all_three)]
    (four_cpus [(UpdateCpuSettings 1 1200000 3200000, -1);
                (UpdateCpuGovernor 1 "performance", -1);
                (UpdateCpuEnergyPrefs 1 "performance", -1)])
    (four_cpus [(UpdateCpuSettings 1 1200000 3200000, -1);
                (UpdateCpuGovernor 1 "performance", -1);
                (UpdateCpuEnergyPrefs 1 "performance", -1)])
    [ {| step_cpu := 1; step_dim := Online; step_calls := [];
         step_ret := 0 |};
      {| step_cpu := 1; step_dim := Freqs;
         step_calls := [(UpdateCpuSettings 1 1200000 3200000, -1)];
         step_ret := -13 |};
      {| step_cpu := 1; step_dim := Governor;
         step_calls := [(UpdateCpuGovernor 1 "performance", -1)];
         step_ret := -11 |};
      {| step_cpu := 1; step_dim := EnergyPref;
         step_calls := [(UpdateCpuEnergyPrefs 1 "performance", -1)];
         step_ret := -12 |} ] _
    {| step_cpu := 1; step_dim := Freqs;
       step_calls := [(UpdateCpuSettings 1 1200000 3200000, -1)];
       step_ret := -13 |}
    {| step_cpu := 1; step_dim := Governor;
       step_calls := [(UpdateCpuGovernor 1 "performance", -1)];
       step_ret := -11 |}
    {| step_cpu := 1; step_dim := EnergyPref;
       step_calls := [(UpdateCpuEnergyPrefs 1 "performance", -1)];
       step_ret := -12 |}
    _ eq_refl eq_refl _ eq_refl _ eq_refl _ eq_refl _ _ _ _).
  - repeat (constructor; [simpl; intuition lia|]); constructor.
  - simpl. auto.
  - simpl. auto.
  - simpl. auto.
  - exists (UpdateCpuSettings 1 1200000 3200000), (-1).
    split; [reflexivity|lia].
  - exists (UpdateCpuGovernor 1 "performance"), (-1).
    split; [reflexivity|lia].
  - exists (UpdateCpuEnergyPrefs 1 "performance"), (-1).
    split; [reflexivity|lia].
  - intros s [<-|[<-|[<-|[<-|[]]]]] Hf Hg He; [reflexivity| | |];
      exfalso; [now apply Hf|now apply Hg|now apply He].
Defined.

(** X6 on CPUs 1 and 2, each with a refused energy-preference write. *)
Lemma two_energy_failures_read_as_governor_and_frequencies_witness :
  on_apply_clicked machine true [(1, energy_only); (2, energy_only)]
    (four_cpus [(UpdateCpuEnergyPrefs 1 "power", -1);
                (UpdateCpuEnergyPrefs 2 "power", -1)])
  = (Applied (-24) (Some "Setting governor and frequencies failed."),
     four_cpus [(UpdateCpuEnergyPrefs 1 "power", -1);
                (UpdateCpuEnergyPrefs 2 "power", -1)],
     [(UpdateCpuEnergyPrefs 1 "power", -1);
      (UpdateCpuEnergyPrefs 2 "power", -1)]).
Proof.
  refine (two_energy_failures_read_as_governor_and_frequencies machine true
    [(1, energy_only); (2, energy_only)]
    (four_cpus [(UpdateCpuEnergyPrefs 1 "power", -1);
                (UpdateCpuEnergyPrefs 2 "power", -1)])
    (four_cpus [(UpdateCpuEnergyPrefs 1 "power", -1);
                (UpdateCpuEnergyPrefs 2 "power", -1)])
    [ {| step_cpu := 1; step_dim := Online; step_calls := [];
         step_ret := 0 |};
      {| step_cpu := 1; step_dim := EnergyPref;
         step_calls := [(UpdateCpuEnergyPrefs 1 "power", -1)];
         step_ret := -12 |};
      {| step_cpu := 2; step_dim := Online; step_calls := [];
         step_ret := 0 |};
      {| step_cpu := 2; step_dim := EnergyPref;
         step_calls := [(UpdateCpuEnergyPrefs 2 "power", -1)];
         step_ret := -12 |} ] _
    {| step_cpu := 1; step_dim := EnergyPref;
       step_calls := [(UpdateCpuEnergyPrefs 1 "power", -1)];
       step_ret := -12 |}
    {| step_cpu := 2; step_dim := EnergyPref;
       step_calls := [(UpdateCpuEnergyPrefs 2 "power", -1)];
       step_ret := -12 |}
    _ eq_refl eq_refl _ eq_refl _ eq_refl _ _ _ _).
  - repeat (constructor; [simpl; intuition lia|]); constructor.
  - simpl. auto.
  - simpl. auto.
  - simpl. lia.
  - exists (UpdateCpuEnergyPrefs 1 "power"), (-1). split; [reflexivity|lia].
  - exists (UpdateCpuEnergyPrefs 2 "power"), (-1). split; [reflexivity|lia].
  - intros s [<-|[<-|[<-|[<-|[]]]]] H1 H2; try reflexivity;
      exfalso; [now apply H1|now apply H2].
Defined.

End ApplyMoreExamples.

(** ** Filling the settings dict *)

Section StartupFacts.

Import Startup.

Lemma get_dict_set {V} (d : Dict.t V) (k k0 : Z) (v : V) :
  Dict.get (dict_set d k v) k0
  = if k0 =? k then Some v else Dict.get d k0.
Proof.
  induction d as [|[k' v'] d IH]; simpl.
  - destruct (Z.eqb_spec k k0) as [->|Hne].
    + now rewrite Z.eqb_refl.
    + destruct (Z.eqb_spec k0 k); [congruence|reflexivity].
  - destruct (Z.eqb_spec k' k) as [->|Hne]; simpl.
    + destruct (Z.eqb_spec k k0) as [->|Hne'].
      * now rewrite Z.eqb_refl.
      * destruct (Z.eqb_spec k0 k); [congruence|reflexivity].
    + destruct (Z.eqb_spec k' k0) as [->|Hne'].
      * destruct (Z.eqb_spec k0 k); [congruence|reflexivity].
      * exact IH.
Qed.

Lemma In_keys_dict_set {V} (d : Dict.t V) (k k0 : Z) (v : V) :
  In k0 (Dict.keys (dict_set d k v)) <-> k0 = k \/ In k0 (Dict.keys d).
Proof.
  unfold Dict.keys. induction d as [|[k' v'] d IH]; simpl.
  - intuition.
  - destruct (Z.eqb_spec k' k) as [->|Hne]; simpl.
    + intuition.
    + rewrite IH. intuition.
Qed.

Lemma NoDup_dict_set {V} (d : Dict.t V) (k : Z) (v : V) :
  NoDup (Dict.keys d) -> NoDup (Dict.keys (dict_set d k v)).
Proof.
  induction d as [|[k' v'] d IH]; simpl; intros Hnd.
  - constructor; [intros []|constructor].
  - inversion Hnd as [|? ? Hnotin Hnd']; subst.
    destruct (Z.eqb_spec k' k) as [->|Hne]; simpl.
    + now constructor.
    + constructor; [|now apply IH].
      intros Hin. apply In_keys_dict_set in Hin as [Heq|Hin]; auto.
Qed.

Lemma dict_set_not_empty {V} (d : Dict.t V) (k : Z) (v : V) :
  dict_set d k v <> [].
Proof.
  destruct d as [|[k' v'] d]; simpl; [discriminate|].
  now destruct (k' =? k).
Qed.

Context {C : Type}.
Variable new_settings : Z -> C.
Variable conf_energy_pref_avail : C -> bool.

(** The loop of [load_cpu_settings]. *)
Lemma fill_spec (cpus : list Z) (d : Dict.t C) :
  let d' :=
    fold_left (fun d cpu => dict_set d cpu (new_settings cpu)) cpus d in
  (forall k, In k cpus -> Dict.get d' k = Some (new_settings k))
  /\ (forall k, ~ In k cpus -> Dict.get d' k = Dict.get d k)
  /\ (NoDup (Dict.keys d) -> NoDup (Dict.keys d'))
  /\ (d' = [] <-> cpus = [] /\ d = []).
Proof.
  revert d. induction cpus as [|c cs IH]; intros d; simpl.
  - repeat split; auto; try contradiction; tauto.
  - destruct (IH (dict_set d c (new_settings c)))
      as (Hin & Hout & Hnd & Hempty).
    split; [|split; [|split]].
    + intros k [<-|Hk].
      * destruct (in_dec Z.eq_dec c cs) as [Hc|Hc]; [now apply Hin|].
        rewrite (Hout c Hc), get_dict_set. now rewrite Z.eqb_refl.
      * now apply Hin.
    + intros k Hk. rewrite Hout by tauto. rewrite get_dict_set.
      destruct (Z.eqb_spec k c); [|reflexivity]. subst. tauto.
    + intros Hd. apply Hnd. now apply NoDup_dict_set.
    + split.
      * intros He. apply Hempty in He as [_ He].
        now apply dict_set_not_empty in He.
      * intros [Hc _]. discriminate.
Qed.

(** X7.  [load_cpu_settings] gives every CPU the helper lists a fresh
    settings object and never drops an entry: the objects of CPUs that
    are no longer listed stay as they were.  The flag [energy_pref_avail]
    is then read from the entry of CPU 0: it is that of the fresh object
    when CPU 0 is listed, that of the old entry when it is not, and the read
    raises [KeyError] when the dict is not empty and has no entry for
    CPU 0; on an empty dict the flag is left as it was. *)
Theorem load_cpu_settings_fills_and_keeps
  (online_cpus : list Z) (settings : Dict.t C) (flag : bool) :
  let loaded :=
    load_cpu_settings new_settings conf_energy_pref_avail online_cpus
      settings flag in
  (forall cpu, In cpu online_cpus ->
     Dict.get (fst loaded) cpu = Some (new_settings cpu))
  /\ (forall cpu, ~ In cpu online_cpus ->
        Dict.get (fst loaded) cpu = Dict.get settings cpu)
  /\ (NoDup (Dict.keys settings) -> NoDup (Dict.keys (fst loaded)))
  /\ (online_cpus = [] -> settings = [] -> snd loaded = Some flag)
  /\ (In 0 online_cpus ->
      snd loaded = Some (conf_energy_pref_avail (new_settings 0)))
  /\ (~ In 0 online_cpus -> forall conf,
      Dict.get settings 0 = Some conf ->
      snd loaded = Some (conf_energy_pref_avail conf))
  /\ (~ In 0 online_cpus -> Dict.get settings 0 = None ->
      online_cpus <> [] \/ settings <> [] -> snd loaded = None).
Proof.
  cbv zeta. unfold load_cpu_settings.
  destruct (fill_spec online_cpus settings) as (Hin & Hout & Hnd & Hempty).
  cbv zeta in Hin, Hout, Hnd, Hempty.
  destruct (fold_left (fun d cpu => dict_set d cpu (new_settings cpu))
              online_cpus settings) as [|p t]; cbn [fst snd].
  - destruct (proj1 Hempty eq_refl) as [Hc Hs]. subst.
    split; [exact Hin|]. split; [exact Hout|]. split; [exact Hnd|].
    split; [reflexivity|]. split; [intros []|]. split.
    + intros _ conf Hget. discriminate.
    + intros _ _ [Hne|Hne]; now elim Hne.
  - split; [exact Hin|]. split; [exact Hout|]. split; [exact Hnd|].
    split; [|split; [|split]].
    + intros Hc Hs. discriminate (proj2 Hempty (conj Hc Hs)).
    + intros H0. now rewrite (Hin 0 H0).
    + intros H0 conf Hget. now rewrite (Hout 0 H0), Hget.
    + intros H0 Hget _. now rewrite (Hout 0 H0), Hget.
Qed.

End StartupFacts.

(** [load_cpu_settings] when the helper lists CPUs 1 to 3 only. *)
Lemma load_cpu_settings_fills_and_keeps_witness :
  snd (Startup.load_cpu_settings Sim.cpu_conf
         (fun conf => negb (Config.energy_pref_id conf <? 0)) [1; 2; 3] []
         false)
  = None.
Proof.
  apply (load_cpu_settings_fills_and_keeps Sim.cpu_conf
           (fun conf => negb (Config.energy_pref_id conf <? 0)) [1; 2; 3] []
           false).
  - simpl. intuition lia.
  - reflexivity.
  - left. discriminate.
Defined.

(** ** Where the profiles are listed *)

Section ProfilesFacts.

Import Profiles.

Lemma perm_three {A} (p q r : A -> bool) (l : list A) :
  (forall x, In x l ->
     (p x = true /\ q x = false /\ r x = false)
     \/ (p x = false /\ q x = true /\ r x = false)
     \/ (p x = false /\ q x = false /\ r x = true)) ->
  Permutation (filter p l ++ filter q l ++ filter r l) l.
Proof.
  induction l as [|x l IH]; intros Hex; simpl; [constructor|].
  assert (IH' : Permutation (filter p l ++ filter q l ++ filter r l) l)
    by (apply IH; intros y Hy; apply Hex; now right).
  destruct (Hex x (or_introl eq_refl))
    as [(-> & -> & ->)|[(-> & -> & ->)|(-> & -> & ->)]]; simpl.
  - now constructor.
  - apply Permutation_sym, Permutation_cons_app. now apply Permutation_sym.
  - rewrite app_assoc. apply Permutation_sym, Permutation_cons_app.
    rewrite <- app_assoc. now apply Permutation_sym.
Qed.

Variable get_profile : string -> Profile.

(** The loop of [_generate_profiles_list], from any three lists. *)
Lemma place_all (names : list string) (l : Layouts) :
  fold_left (place_profile get_profile) names l
  = {| user_profiles_layout :=
         user_profiles_layout l
         ++ map (fun n => {| row_name := n; row_deletable := true |})
              (filter (fun n => _custom (get_profile n)
                                && negb (system (get_profile n))) names);
       system_profiles_layout :=
         system_profiles_layout l
         ++ map (fun n => {| row_name := n; row_deletable := false |})
              (filter (fun n => _custom (get_profile n)
                                && system (get_profile n)) names);
       builtin_profiles_layout :=
         builtin_profiles_layout l
         ++ map (fun n => {| row_name := n; row_deletable := false |})
              (filter (fun n => negb (_custom (get_profile n))) names) |}.
Proof.
  revert l. induction names as [|n names IH]; intros l; simpl.
  - destruct l. simpl. now rewrite !app_nil_r.
  - rewrite IH. unfold place_profile, _add_profile_row.
    destruct (_custom (get_profile n)), (system (get_profile n)); simpl;
      now rewrite <- ?app_assoc.
Qed.

(** X8.  [_generate_profiles_list] puts every profile name on exactly one
    of the three lists of the profiles page, in the order of the store:
    custom profiles that are not of the system on the user list, custom
    system profiles on the system list, all others on the built-in list.
    Only the rows of the user list get a delete button. *)
Theorem profiles_page_partition (names : list string) :
  let page := _generate_profiles_list get_profile names in
  map row_name (user_profiles_layout page)
  = filter (fun n => _custom (get_profile n) && negb (system (get_profile n)))
      names
  /\ map row_name (system_profiles_layout page)
     = filter (fun n => _custom (get_profile n) && system (get_profile n))
         names
  /\ map row_name (builtin_profiles_layout page)
     = filter (fun n => negb (_custom (get_profile n))) names
  /\ Permutation
       (map row_name
          (user_profiles_layout page ++ system_profiles_layout page
           ++ builtin_profiles_layout page))
       names
  /\ (forall row,
        In row (user_profiles_layout page ++ system_profiles_layout page
                ++ builtin_profiles_layout page) ->
        row_deletable row = true <-> In row (user_profiles_layout page)).
Proof.
  cbv zeta. unfold _generate_profiles_list. rewrite place_all. simpl.
  assert (Hnames : forall (b : bool) (l : list string),
             map row_name
               (map (fun n => {| row_name := n; row_deletable := b |}) l) = l).
  { intros b l. rewrite map_map. simpl. apply map_id. }
  split; [apply Hnames|]. split; [apply Hnames|]. split; [apply Hnames|].
  split.
  - rewrite !map_app, !Hnames. apply perm_three.
    intros n _. destruct (_custom (get_profile n)), (system (get_profile n));
      simpl; auto.
  - intros row Hin. split.
    + intros Hdel. rewrite !in_app_iff in Hin.
      destruct Hin as [Hin|[Hin|Hin]]; [exact Hin| |];
        apply in_map_iff in Hin as (n & <- & _); discriminate.
    + intros Hin'. apply in_map_iff in Hin' as (n & <- & _). reflexivity.
Qed.

Lemma add_actions_all (keep : Profile -> bool) (profiles : list Profile)
  (menu : list MenuItem) :
  add_actions keep profiles menu = menu ++ map Action (filter keep profiles).
Proof.
  unfold add_actions. revert menu.
  induction profiles as [|p ps IH]; intros menu; simpl.
  - now rewrite app_nil_r.
  - rewrite IH. destruct (keep p); simpl; [|reflexivity].
    now rewrite <- app_assoc.
Qed.

Lemma actions_app (a b : list MenuItem) :
  actions (a ++ b) = actions a ++ actions b.
Proof.
  induction a as [|[p|] a IH]; simpl; [reflexivity| |exact IH].
  now rewrite IH.
Qed.

Lemma actions_of_map (l : list Profile) : actions (map Action l) = l.
Proof. induction l as [|p l IH]; simpl; [reflexivity|now rewrite IH]. Qed.

(** X9.  The tray menu gets the actions of the profiles that are not
    custom, a separator, those of the system profiles, a separator, and
    those of the custom profiles not of the system, each group in the
    order of the store.  Every profile gets an action; one that is of the
    system without being custom gets two, so the number of actions added
    is the number of profiles plus the number of such profiles, and when
    there is none the actions added are a rearrangement of the
    profiles. *)
Theorem tray_menu_lists_every_profile
  (menu : list MenuItem) (profiles : list Profile) :
  actions (_add_profile_actions menu profiles)
  = actions menu
    ++ filter (fun p => negb (_custom p)) profiles
    ++ filter (fun p => system p) profiles
    ++ filter (fun p => _custom p && negb (system p)) profiles
  /\ (forall p, In p profiles ->
        In p (actions (_add_profile_actions menu profiles)))
  /\ List.length (actions (_add_profile_actions menu profiles))
     = (List.length (actions menu) + List.length profiles
        + List.length
            (filter (fun p => negb (_custom p) && system p) profiles))%nat
  /\ ((forall p, In p profiles -> _custom p = false -> system p = false) ->
      Permutation (actions (_add_profile_actions menu profiles))
        (actions menu ++ profiles)).
Proof.
  assert (Hform : actions (_add_profile_actions menu profiles)
                  = actions menu
                    ++ filter (fun p => negb (_custom p)) profiles
                    ++ filter (fun p => system p) profiles
                    ++ filter (fun p => _custom p && negb (system p))
                         profiles).
  { unfold _add_profile_actions. rewrite !add_actions_all.
    rewrite !actions_app, !actions_of_map. simpl.
    now rewrite <- !app_assoc. }
  rewrite Hform. split; [reflexivity|]. split; [|split].
  - intros p Hp. rewrite !in_app_iff, !filter_In.
    destruct (_custom p) eqn:Ec, (system p) eqn:Es; simpl; auto 10.
  - rewrite !length_app. clear Hform.
    induction profiles as [|p ps IH]; simpl; [lia|].
    destruct (_custom p), (system p); simpl; lia.
  - intros Hnone. apply Permutation_app_head.
    replace (filter (fun p => system p) profiles)
      with (filter (fun p => _custom p && system p) profiles).
    + apply perm_three. intros p _.
      destruct (_custom p), (system p); simpl; auto.
    + apply filter_ext_in. intros p Hp.
      destruct (_custom p) eqn:Ec; simpl; [reflexivity|].
      symmetry. now apply Hnone.
Qed.

End ProfilesFacts.

(** X8 and X9 on a built-in, a system and a user profile. *)
Example profiles_page_and_tray_menu :
  Profiles._generate_profiles_list Cases.profile_named
    ["Balanced"; "mine"; "site"]
  = {| Profiles.user_profiles_layout :=
         [{| Profiles.row_name := "mine"; Profiles.row_deletable := true |}];
       Profiles.system_profiles_layout :=
         [{| Profiles.row_name := "site"; Profiles.row_deletable := false |}];
       Profiles.builtin_profiles_layout :=
         [{| Profiles.row_name := "Balanced";
             Profiles.row_deletable := false |}] |}
  /\ Profiles._add_profile_actions []
       [Cases.balanced; Cases.mine; Cases.site]
     = [Profiles.Action Cases.balanced; Profiles.Separator;
        Profiles.Action Cases.site; Profiles.Separator;
        Profiles.Action Cases.mine].
Proof. split; reflexivity. Qed.

(** ** More about the edit handlers *)

Section EditMore.

Import Config Edit Copy.

Lemma update_at_missing {V} (f : V -> V) (k : Z) (d : Dict.t V) :
  Dict.get d k = None -> Dict.update_at f k d = d.
Proof.
  unfold Dict.update_at.
  induction d as [|[k' v] d IH]; simpl; [reflexivity|].
  destruct (Z.eqb_spec k' k); [discriminate|]. intros Hg. now rewrite IH.
Qed.

Lemma get_update_at {V} (f : V -> V) (d : Dict.t V) (k k0 : Z) :
  Dict.get (Dict.update_at f k d) k0
  = if k0 =? k then option_map f (Dict.get d k0) else Dict.get d k0.
Proof.
  destruct (Z.eqb_spec k0 k) as [->|Hne].
  - apply DictFacts.get_update_at_same.
  - now apply DictFacts.get_update_at_other.
Qed.

Lemma set_freqs_other (conf : CpuSettings) (fs : Z * Z) :
  hw_lims (set_freqs conf fs) = hw_lims conf
  /\ governors (set_freqs conf fs) = governors conf
  /\ energy_prefs (set_freqs conf fs) = energy_prefs conf
  /\ is_online (set_freqs conf fs) = is_online conf
  /\ governor_name (set_freqs conf fs) = governor_name conf
  /\ energy_pref_name (set_freqs conf fs) = energy_pref_name conf.
Proof. unfold set_freqs. destruct (hw_lims conf) eqn:E. simpl. auto 10. Qed.

Lemma set_governor_other (conf : CpuSettings) (gov : option string) :
  hw_lims (set_governor conf gov) = hw_lims conf
  /\ governors (set_governor conf gov) = governors conf
  /\ energy_prefs (set_governor conf gov) = energy_prefs conf
  /\ is_online (set_governor conf gov) = is_online conf
  /\ freqs (set_governor conf gov) = freqs conf
  /\ energy_pref_name (set_governor conf gov) = energy_pref_name conf.
Proof.
  unfold set_governor. destruct gov as [name|]; [|auto 10].
  destruct (index_of name (governors conf)); simpl; auto 10.
Qed.

Lemma set_online_other (conf : CpuSettings) (b : bool) :
  hw_lims (set_online conf b) = hw_lims conf
  /\ governors (set_online conf b) = governors conf
  /\ energy_prefs (set_online conf b) = energy_prefs conf
  /\ is_online (set_online conf b) = b
  /\ freqs (set_online conf b) = freqs conf
  /\ governor_name (set_online conf b) = governor_name conf
  /\ energy_pref_name (set_online conf b) = energy_pref_name conf.
Proof. unfold set_online. simpl. auto 10. Qed.

Lemma set_energy_pref_other (conf : CpuSettings) (pref : option string) :
  hw_lims (set_energy_pref conf pref) = hw_lims conf
  /\ governors (set_energy_pref conf pref) = governors conf
  /\ energy_prefs (set_energy_pref conf pref) = energy_prefs conf
  /\ is_online (set_energy_pref conf pref) = is_online conf
  /\ freqs (set_energy_pref conf pref) = freqs conf
  /\ governor_name (set_energy_pref conf pref) = governor_name conf.
Proof.
  unfold set_energy_pref. destruct pref as [name|]; [|auto 10].
  destruct (index_of name (energy_prefs conf)); simpl; auto 10.
Qed.

Lemma governor_name_offered (conf : CpuSettings) (gov : string) :
  governor_name conf = Some gov -> In gov (governors conf).
Proof.
  unfold governor_name. destruct (govid conf) as [i|]; [|discriminate].
  apply nth_error_In.
Qed.

Lemma energy_pref_name_offered (conf : CpuSettings) (pref : string) :
  energy_pref_name conf = Some pref -> In pref (energy_prefs conf).
Proof.
  unfold energy_pref_name. destruct (energy_pref_id conf <? 0); [discriminate|].
  apply nth_error_In.
Qed.


Lemma follows_refl (src : CpuSettings) : follows src src.
Proof. unfold follows. auto 10. Qed.

(** Each of the four assignments of [on_toall_toggled], made from an entry
    that shows what [src] shows to one that does too, leaves it so. *)
Lemma follows_assigned (src s conf : CpuSettings) :
  follows src s -> follows src conf ->
  follows src (set_freqs conf (freqs s))
  /\ follows src (set_governor conf (governor_name s))
  /\ follows src (set_online conf (is_online s))
  /\ follows src (set_energy_pref conf (energy_pref_name s)).
Proof.
  intros (_ & _ & _ & Hso & Hsg & Hsp & Hsf)
         (Hl & Hg & He & Ho & Hgn & Hpn & Hf).
  unfold follows. split; [|split; [|split]].
  - destruct (set_freqs_other conf (freqs s)) as (-> & -> & -> & -> & -> & ->).
    refine (conj Hl (conj Hg (conj He (conj Ho (conj Hgn (conj Hpn _)))))).
    intros Hsettled. rewrite (Hsf Hsettled).
    destruct Hsettled as (Ha & Hab & Hb).
    destruct (freqs src) as [a b], (hw_lims src) as [lo hi] eqn:Elims.
    now apply (set_freqs_inside conf lo hi a b).
  - destruct (set_governor_other conf (governor_name s))
      as (-> & -> & -> & -> & -> & ->).
    refine (conj Hl (conj Hg (conj He (conj Ho (conj _ (conj Hpn Hf)))))).
    rewrite Hsg, <- Hgn. destruct (governor_name conf) as [gov|] eqn:Egov.
    + apply set_governor_reads_back. now apply governor_name_offered.
    + exact Egov.
  - destruct (set_online_other conf (is_online s))
      as (-> & -> & -> & -> & -> & -> & ->).
    exact (conj Hl (conj Hg (conj He (conj Hso (conj Hgn (conj Hpn Hf)))))).
  - destruct (set_energy_pref_other conf (energy_pref_name s))
      as (-> & -> & -> & -> & -> & ->).
    refine (conj Hl (conj Hg (conj He (conj Ho (conj Hgn (conj _ Hf)))))).
    rewrite Hsp, <- Hpn. destruct (energy_pref_name conf) as [pref|] eqn:Epref.
    + apply set_energy_pref_reads_back. now apply energy_pref_name_offered.
    + exact Epref.
Qed.

(** The four assignments in a row, each from an entry that shows what
    [src] shows, to any entry. *)
Lemma assigned_copied (src s1 s2 s3 s4 conf0 conf : CpuSettings) :
  follows src s1 -> follows src s2 -> follows src s3 -> follows src s4 ->
  hw_lims conf = hw_lims conf0 -> governors conf = governors conf0 ->
  energy_prefs conf = energy_prefs conf0 ->
  copied src conf0
    (set_energy_pref
       (set_online
          (set_governor (set_freqs conf (freqs s1)) (governor_name s2))
          (is_online s3))
       (energy_pref_name s4)).
Proof.
  intros (_ & _ & _ & _ & _ & _ & H1f) (_ & _ & _ & _ & H2g & _)
         (_ & _ & _ & H3o & _) (_ & _ & _ & _ & _ & H4p & _) Hl Hg He.
  rewrite H2g, H3o, H4p.
  set (c1 := set_freqs conf (freqs s1)).
  set (c2 := set_governor c1 (governor_name src)).
  set (c3 := set_online c2 (is_online src)).
  destruct (set_freqs_other conf (freqs s1)) as (L1 & G1 & E1 & O1 & N1 & P1).
  destruct (set_governor_other c1 (governor_name src))
    as (L2 & G2 & E2 & O2 & F2 & P2).
  destruct (set_online_other c2 (is_online src))
    as (L3 & G3 & E3 & O3 & F3 & N3 & P3).
  destruct (set_energy_pref_other c3 (energy_pref_name src))
    as (L4 & G4 & E4 & O4 & F4 & N4).
  fold c1 in L1, G1, E1, O1, N1, P1. fold c2 in L2, G2, E2, O2, F2, P2.
  fold c3 in L3, G3, E3, O3, F3, N3, P3.
  unfold copied. split; [congruence|]. split; [congruence|].
  split; [congruence|]. split; [congruence|]. split; [|split].
  - intros Hsame Hsettled. rewrite F4, F3, F2. unfold c1.
    rewrite (H1f Hsettled). destruct Hsettled as (Ha & Hab & Hb).
    destruct (freqs src) as [a b], (hw_lims src) as [lo hi] eqn:Elims.
    apply (set_freqs_inside conf lo hi a b); try assumption. congruence.
  - intros gov Hgov Hin. rewrite N4, N3. unfold c2. rewrite Hgov.
    apply set_governor_reads_back. rewrite G1. congruence.
  - intros pref Hpref Hin. rewrite Hpref.
    apply set_energy_pref_reads_back. rewrite E3, E2, E1. congruence.
Qed.


Lemma next_source (f : CpuSettings -> CpuSettings) (src s : CpuSettings)
  (active c : Z) (d : Dict.t CpuSettings) :
  Dict.get d active = Some s -> follows src s -> follows src (f s) ->
  exists s', Dict.get (Dict.update_at f c d) active = Some s'
             /\ follows src s'.
Proof.
  intros Hget Hs Hfs. rewrite get_update_at, Hget.
  destruct (active =? c); simpl; eauto.
Qed.

(** One round of the loop of [on_toall_toggled], on a dict whose active
    entry shows what [src] shows. *)
Lemma copy_active_round (src : CpuSettings) (active c : Z)
  (d : Dict.t CpuSettings) :
  (exists s, Dict.get d active = Some s /\ follows src s) ->
  (exists s, Dict.get (copy_active active c d) active = Some s
             /\ follows src s)
  /\ Dict.keys (copy_active active c d) = Dict.keys d
  /\ (forall k, k <> c -> Dict.get (copy_active active c d) k = Dict.get d k)
  /\ (forall conf0 conf,
        Dict.get d c = Some conf ->
        hw_lims conf = hw_lims conf0 -> governors conf = governors conf0 ->
        energy_prefs conf = energy_prefs conf0 ->
        exists conf', Dict.get (copy_active active c d) c = Some conf'
                      /\ copied src conf0 conf').
Proof.
  intros (s1 & G1 & F1). unfold copy_active. rewrite G1.
  destruct (next_source (fun conf => set_freqs conf (freqs s1)) src s1
              active c d G1 F1) as (s2 & G2 & F2);
    [apply (follows_assigned src s1 s1 F1 F1)|].
  rewrite G2.
  destruct (next_source (fun conf => set_governor conf (governor_name s2))
              src s2 active c _ G2 F2) as (s3 & G3 & F3);
    [apply (follows_assigned src s2 s2 F2 F2)|].
  rewrite G3.
  destruct (next_source (fun conf => set_online conf (is_online s3))
              src s3 active c _ G3 F3) as (s4 & G4 & F4);
    [apply (follows_assigned src s3 s3 F3 F3)|].
  rewrite G4.
  destruct (next_source (fun conf => set_energy_pref conf
                                       (energy_pref_name s4))
              src s4 active c _ G4 F4) as (s5 & G5 & F5);
    [apply (follows_assigned src s4 s4 F4 F4)|].
  split; [now exists s5|]. split; [|split].
  - now rewrite !DictFacts.keys_update_at.
  - intros k Hk. now rewrite !DictFacts.get_update_at_other.
  - intros conf0 conf Hget Hl Hg He.
    rewrite !DictFacts.get_update_at_same, Hget. simpl.
    eexists. split; [reflexivity|].
    now apply assigned_copied.
Qed.

(** The whole loop over the keys [l]. *)
Lemma copy_active_loop (src : CpuSettings) (active : Z) (l : list Z)
  (d : Dict.t CpuSettings) :
  (exists s, Dict.get d active = Some s /\ follows src s) ->
  let d' := fold_left (fun d c => copy_active active c d) l d in
  (exists s, Dict.get d' active = Some s /\ follows src s)
  /\ Dict.keys d' = Dict.keys d
  /\ (forall k, ~ In k l -> Dict.get d' k = Dict.get d k)
  /\ (forall k conf0 conf,
        Dict.get d k = Some conf ->
        hw_lims conf = hw_lims conf0 -> governors conf = governors conf0 ->
        energy_prefs conf = energy_prefs conf0 ->
        exists conf', Dict.get d' k = Some conf'
                      /\ hw_lims conf' = hw_lims conf0
                      /\ governors conf' = governors conf0
                      /\ energy_prefs conf' = energy_prefs conf0
                      /\ (In k l -> copied src conf0 conf')).
Proof.
  revert d. induction l as [|c l IH]; intros d Hsrc; cbv zeta; simpl.
  - split; [exact Hsrc|]. split; [reflexivity|]. split; [reflexivity|].
    intros k conf0 conf Hget Hl Hg He. exists conf. tauto.
  - destruct (copy_active_round src active c d Hsrc)
      as (Hsrc' & Hkeys & Hother & Hsame).
    destruct (IH _ Hsrc') as (Hsrc'' & Hkeys' & Hout & Hrest).
    cbv zeta in Hrest.
    split; [exact Hsrc''|]. split; [congruence|]. split.
    { intros k Hk. rewrite Hout by tauto. apply Hother. intros ->. tauto. }
    intros k conf0 conf Hget Hl Hg He.
    destruct (Z.eq_dec k c) as [->|Hne].
    + destruct (Hsame conf0 conf Hget Hl Hg He) as (conf1 & Hget1 & Hcopied).
      pose proof Hcopied as (Hl1 & Hg1 & He1 & _).
      destruct (Hrest c conf0 conf1 Hget1 Hl1 Hg1 He1)
        as (conf' & Hget' & Hl' & Hg' & He' & Hin').
      exists conf'. refine (conj Hget' (conj Hl' (conj Hg' (conj He' _)))).
      intros _. destruct (in_dec Z.eq_dec c l) as [Hin|Hnot]; [auto|].
      rewrite (Hout c Hnot), Hget1 in Hget'. now injection Hget' as <-.
    + rewrite <- (Hother k Hne) in Hget.
      destruct (Hrest k conf0 conf Hget Hl Hg He)
        as (conf' & Hget' & Hl' & Hg' & He' & Hin').
      exists conf'. refine (conj Hget' (conj Hl' (conj Hg' (conj He' _)))).
      intros [Heq|Hin]; [congruence|auto].
Qed.

(** X10.  Ticking "apply to all" copies the values of the active CPU to
    every CPU of the settings: each entry gets its online target and, where its
    own hardware offers them, its governor, its energy preference and its
    frequencies; no CPU is added or dropped.  Unticking changes nothing,
    and with no entry for the active CPU ticking fails with a KeyError. *)
Theorem toall_copies_the_active_cpu (w : Window) :
  on_toall_toggled w false = Some w
  /\ (Dict.get (settings w) (_get_active_cpu w) = None ->
      on_toall_toggled w true = None)
  /\ (forall src,
        Dict.get (settings w) (_get_active_cpu w) = Some src ->
        exists w',
          on_toall_toggled w true = Some w'
          /\ Dict.keys (settings w') = Dict.keys (settings w)
          /\ forall k conf,
               Dict.get (settings w) k = Some conf ->
               exists conf',
                 Dict.get (settings w') k = Some conf'
                 /\ copied src conf conf').
Proof.
  split; [reflexivity|]. split.
  - intros Hnone. unfold on_toall_toggled. now rewrite Hnone.
  - intros src Hsrc. unfold on_toall_toggled. rewrite Hsrc.
    eexists. split; [reflexivity|]. simpl.
    destruct (copy_active_loop src (_get_active_cpu w)
                (Dict.keys (settings w)) (settings w))
      as (_ & Hkeys & _ & Hall).
    { exists src. split; [exact Hsrc|apply follows_refl]. }
    split; [exact Hkeys|].
    intros k conf Hget.
    destruct (Hall k conf conf Hget eq_refl eq_refl eq_refl)
      as (conf' & Hget' & _ & _ & _ & Hcopied).
    exists conf'. split; [exact Hget'|]. apply Hcopied.
    apply DictFacts.get_In in Hget. unfold Dict.keys.
    now apply (in_map fst) in Hget.
Qed.


(** [_on_freq_changed] on a window whose spin boxes are ranged to the
    limits of the active CPU: what it stores and what the four widgets
    show afterwards. *)
Lemma after_freq_change (w : Window) (conf : CpuSettings) (lo hi : Z) :
  Dict.get (settings w) (_get_active_cpu w) = Some conf ->
  hw_lims conf = (lo, hi) ->
  boxes_ranged lo hi w ->
  exists w' fmin fmax,
    _on_freq_changed w = Some w'
    /\ resolve_freqs (value (min_spin w)) (value (max_spin w)) lo hi
       = (fmin, fmax)
    /\ active_freqs w' = Some (fmin, fmax)
    /\ value (min_spin w') = fmin
    /\ value (max_spin w') = fmax
    /\ value (min_slider w')
       = qBound (minimum (min_slider w)) fmin (maximum (min_slider w))
    /\ value (max_slider w')
       = qBound (minimum (max_slider w)) fmax (maximum (max_slider w))
    /\ refreshing w' = false
    /\ lo <= fmin /\ fmin <= fmax /\ fmax <= hi.
Proof.
  intros Hget Hlims Hranged.
  pose proof Hranged as (Hl1 & Hh1 & Hv1 & Hl2 & Hh2 & Hv2).
  pose proof (resolve_freqs_ordered (value (min_spin w)) (value (max_spin w))
                lo hi Hv1 Hv2) as (Ha & Hab & Hb).
  destruct (on_freq_changed_within_limits w conf lo hi Hget Hlims Hranged)
    as (w' & fmin & fmax & Hrun & Hstored & Hres & _).
  rewrite Hres in Ha, Hab, Hb. simpl in Ha, Hab, Hb.
  exists w', fmin, fmax.
  split; [exact Hrun|]. split; [exact Hres|]. split; [exact Hstored|].
  unfold _on_freq_changed in Hrun. rewrite Hget, Hlims, Hres in Hrun.
  injection Hrun as <-.
  unfold _update_settings_freqs. simpl.
  destruct (toall_btn w); simpl; unfold qBound; rewrite ?Hl1, ?Hh1, ?Hl2, ?Hh2;
    repeat split; lia.
Qed.

Ltac boxes_still_ranged :=
  match goal with
  | Hr : boxes_ranged _ _ _ |- _ =>
      unfold boxes_ranged, setValue, qBound in *; simpl in *;
      decompose [and] Hr; repeat split; try assumption; lia
  end.

(** X11.  A request for the max frequency never moves min.  With the spin
    boxes ranged to the hardware limits of the active CPU, a value typed
    into the max spin box or arriving from the max slider leaves the min
    spin box as it was; the pair stored keeps that min, and when the value
    asked for lies below it the max stored is min + 10, cut at the hardware
    max, so that the value asked for is not the one stored. *)
Theorem max_request_never_moves_min
  (w : Window) (conf : CpuSettings) (lo hi v : Z) :
  Dict.get (settings w) (_get_active_cpu w) = Some conf ->
  hw_lims conf = (lo, hi) -> lo <= hi ->
  refreshing w = false ->
  boxes_ranged lo hi w ->
  Forall
    (fun handler : Window -> Z -> option Window =>
       exists w',
         handler w v = Some w'
         /\ value (min_spin w') = value (min_spin w)
         /\ active_freqs w'
            = Some (value (min_spin w),
                    if qBound lo v hi <? value (min_spin w)
                    then Z.min (value (min_spin w) + 10) hi
                    else qBound lo v hi))
    [type_max_spin; on_max_slider_changed].
Proof.
  intros Hget Hlims Hle Hrefresh Hranged.
  pose proof (qBound_in_range lo hi v Hle) as Hv.
  assert (Hmax_lo : minimum (max_spin w) = lo) by apply Hranged.
  assert (Hmax_hi : maximum (max_spin w) = hi) by apply Hranged.
  repeat (apply Forall_cons || apply Forall_nil);
    unfold type_max_spin, on_max_spin_changed, on_max_slider_changed;
    simpl; rewrite Hrefresh;
    match goal with |- context [_on_freq_changed ?x] =>
      destruct (after_freq_change x conf lo hi Hget Hlims)
        as (w' & fmin & fmax & Hrun & Hres & Hstored & Hmin & _);
        [boxes_still_ranged|]
    end;
    exists w'; (split; [exact Hrun|]);
    simpl in Hres; rewrite Hmax_lo, Hmax_hi, resolve_freqs_run in Hres;
    rewrite Hstored, Hmin;
    destruct (Z.gtb_spec (value (min_spin w)) (qBound lo v hi));
    destruct (Z.ltb_spec (qBound lo v hi) (value (min_spin w))); try lia;
    injection Hres as <- <-; split; reflexivity.
Qed.


(** X12.  [_update_sliders] sets up what the frequency handlers rely
    on.  It leaves the settings as they are, and after it an edit of either
    frequency, typed into a spin box or coming from a slider, returns and
    stores for the active CPU an ordered pair inside its hardware limits,
    whatever the widgets held before and whatever value arrives. *)
Theorem edit_after_update_sliders_within_limits
  (w : Window) (conf : CpuSettings) (lo hi v : Z) :
  Dict.get (settings w) (_get_active_cpu w) = Some conf ->
  hw_lims conf = (lo, hi) -> lo <= hi ->
  settings (_update_sliders w) = settings w
  /\ Forall
       (fun handler : Window -> Z -> option Window =>
          exists w' fmin fmax,
            handler (_update_sliders w) v = Some w'
            /\ active_freqs w' = Some (fmin, fmax)
            /\ lo <= fmin /\ fmin <= fmax /\ fmax <= hi)
       [type_min_spin; type_max_spin; on_min_slider_changed;
        on_max_slider_changed].
Proof.
  intros Hget Hlims Hle.
  destruct (update_sliders_ranges w conf lo hi Hget Hlims Hle)
    as (Hranged & Hsettings & Hactive & Hrefresh).
  split; [exact Hsettings|].
  rewrite <- Hsettings, <- Hactive in Hget.
  remember (_update_sliders w) as u eqn:Eu. clear Eu Hsettings Hactive.
  pose proof (qBound_in_range lo hi v Hle) as Hv.
  repeat (apply Forall_cons || apply Forall_nil);
    unfold type_min_spin, type_max_spin, on_min_spin_changed,
      on_max_spin_changed, on_min_slider_changed, on_max_slider_changed;
    simpl; rewrite Hrefresh;
    match goal with |- context [_on_freq_changed ?x] =>
      destruct (after_freq_change x conf lo hi Hget Hlims)
        as (w' & fmin & fmax & Hrun & _ & Hstored & _ & _ & _ & _ & _
            & Ha & Hab & Hb);
        [boxes_still_ranged|]
    end;
    exists w', fmin, fmax; auto.
Qed.

(** X13.  With no entry for the active CPU in the settings, which is CPU 0
    when the CPU combo has no selection, the handlers that index the
    settings fail with a KeyError: the online checkbox and every
    frequency edit.  Those that look the entry up with [get] do nothing:
    [_update_sliders] leaves the window as it is, and the governor and the
    energy preference picked for the active CPU alone leave the settings
    as they are. *)
Theorem edits_without_an_entry (w : Window) (v index : Z) (checked : bool) :
  Dict.get (settings w) (_get_active_cpu w) = None ->
  refreshing w = false ->
  on_cpu_online_toggled w checked = None
  /\ Forall (fun handler : Window -> Z -> option Window => handler w v = None)
       [type_min_spin; type_max_spin; on_min_spin_changed;
        on_max_spin_changed; on_min_slider_changed; on_max_slider_changed]
  /\ _update_sliders w = w
  /\ (toall_btn w = false ->
      settings (on_governor_changed w index) = settings w)
  /\ (energy_per_cpu w = true ->
      settings (on_energy_pref_changed w index) = settings w).
Proof.
  intros Hnone Hrefresh. split; [|split; [|split; [|split]]].
  - unfold on_cpu_online_toggled. now rewrite Hrefresh, Hnone.
  - repeat (apply Forall_cons || apply Forall_nil);
      unfold type_min_spin, type_max_spin, on_min_spin_changed,
        on_max_spin_changed, on_min_slider_changed, on_max_slider_changed;
      simpl; rewrite Hrefresh; unfold _on_freq_changed;
      simpl; unfold _get_active_cpu in *; simpl; now rewrite Hnone.
  - unfold _update_sliders. now rewrite Hnone.
  - intros Htoall. unfold on_governor_changed. rewrite Hrefresh, Htoall.
    destruct (index <? 0); simpl; [reflexivity|].
    now apply update_at_missing.
  - intros Hper. unfold on_energy_pref_changed. rewrite Hrefresh, Hper.
    destruct (index <? 0); simpl; [reflexivity|].
    now apply update_at_missing.
Qed.

End EditMore.

(** ** From an edit to the helper *)

Section ApplyComplete.

Import Apply Trace.

Context {H : Type} (HELPER : Helper H).
Context {C : Type} `{CpuSettingsLike C}.
Variable energy_pref_avail : bool.

(** A changed CPU that is to be online has, in the pass, a step for each
    field that counts as changed. *)
Lemma step_of_changed_field
  (settings : Dict.t C) (h : H) (cpu : Z) (conf : C) :
  Dict.get settings cpu = Some conf ->
  changed conf = true -> online conf = true ->
  exists l h',
    apply_pass HELPER energy_pref_avail settings h
    = (Some (total l), h', writes l)
    /\ forall d, d <> Online ->
         setting_changed conf (dim_name d) = true ->
         exists s, In s l /\ step_cpu s = cpu /\ step_dim s = d
                   /\ step_shape energy_pref_avail conf s.
Proof.
  intros Hget Hch Hon.
  destruct (pass_spec HELPER energy_pref_avail settings h)
    as (l & h' & _ & A & Hok & _ & Hin).
  specialize (Hin cpu conf Hget Hch Hon).
  rewrite Forall_forall in Hok.
  exists l, h'. split; [exact A|].
  intros d Hd Hset. destruct (Hin d Hd Hset) as (s & Hs & Hc & Hdim).
  exists s. repeat split; try assumption.
  destruct (Hok s Hs) as (conf' & Hget' & _ & Hshape).
  rewrite Hc, Hget in Hget'. now injection Hget' as <-.
Qed.

(** X14.  The pass leaves out no edited value: for a changed CPU that is to
    be online, each of the frequencies, the governor and the energy
    preference that counts as changed and has a value is handed to the
    helper in this pass, whatever the helper answered to the writes before
    it. *)
Theorem every_edited_value_is_written
  (settings : Dict.t C) (h : H) (cpu : Z) (conf : C) :
  Dict.get settings cpu = Some conf ->
  changed conf = true -> online conf = true ->
  exists ret h' t,
    apply_pass HELPER energy_pref_avail settings h = (Some ret, h', t)
    /\ (forall fmin fmax,
          setting_changed conf "freqs" = true ->
          freqs_scaled conf = (Some fmin, Some fmax) ->
          exists raw, In (UpdateCpuSettings cpu fmin fmax, raw) t)
    /\ (forall gov,
          setting_changed conf "governor" = true ->
          governor conf = Some gov ->
          exists raw, In (UpdateCpuGovernor cpu gov, raw) t)
    /\ (forall pref,
          energy_pref_avail = true ->
          setting_changed conf "energy_pref" = true ->
          energy_pref conf = Some pref -> truthy (Some pref) = true ->
          exists raw, In (UpdateCpuEnergyPrefs cpu pref, raw) t).
Proof.
  intros Hget Hch Hon.
  destruct (step_of_changed_field settings h cpu conf Hget Hch Hon)
    as (l & h' & A & Hstep).
  exists (total l), h', (writes l). split; [exact A|].
  split; [|split].
  - intros fmin fmax Hset Hval.
    destruct (Hstep Freqs) as (s & Hs & Hc & Hd & Hshape);
      [discriminate|exact Hset|].
    unfold step_shape in Hshape. rewrite Hd, Hc, Hval in Hshape.
    destruct Hshape as [(_ & _ & [Hn|Hn])|(a & b & raw & Heq & Hcalls & _)];
      try discriminate.
    injection Heq as <- <-. exists raw. apply In_writes.
    exists s. split; [exact Hs|]. rewrite Hcalls. now left.
  - intros gov Hset Hval.
    destruct (Hstep Governor) as (s & Hs & Hc & Hd & Hshape);
      [discriminate|exact Hset|].
    unfold step_shape in Hshape. rewrite Hd, Hc, Hval in Hshape.
    destruct Hshape as [(_ & _ & Hn)|(g & raw & Heq & Hcalls & _)];
      try discriminate.
    injection Heq as <-. exists raw. apply In_writes.
    exists s. split; [exact Hs|]. rewrite Hcalls. now left.
  - intros pref Havail Hset Hval Htruthy.
    destruct (Hstep EnergyPref) as (s & Hs & Hc & Hd & Hshape);
      [discriminate|exact Hset|].
    unfold step_shape in Hshape. rewrite Hd, Hc, Hval, Htruthy in Hshape.
    destruct Hshape
      as [(_ & _ & Hn)|[(_ & _ & _ & Hn)|(p & raw & _ & Heq & Hcalls & _)]];
      try congruence.
    injection Heq as <-. exists raw. apply In_writes.
    exists s. split; [exact Hs|]. rewrite Hcalls. now left.
Qed.

End ApplyComplete.

Section EditThenApply.

Import Apply Config Edit.

Context {H : Type} (HELPER : Helper H).
Variable energy_pref_avail : bool.

(** X15.  A governor picked in the combo reaches the helper on the next
    Apply.  When the active CPU is to be online, offers the governor picked
    and did not have it when it was last read from the machine, the pass
    that follows the edit hands this governor for this CPU to the helper,
    with "apply to all" ticked or not. *)
Theorem picked_governor_is_written
  (w : Window) (index : Z) (conf : CpuSettings) (gov : string) (h : H) :
  refreshing w = false -> 0 <= index ->
  gov_combo w = Some gov ->
  Dict.get (settings w) (_get_active_cpu w) = Some conf ->
  is_online conf = true ->
  In gov (governors conf) ->
  governor_name (with_current conf (baseline conf)) <> Some gov ->
  exists ret h' t,
    apply_pass HELPER energy_pref_avail
      (settings (on_governor_changed w index)) h
    = (Some ret, h', t)
    /\ exists raw, In (UpdateCpuGovernor (_get_active_cpu w) gov, raw) t.
Proof.
  intros Hrefresh Hindex Hcombo Hget Honline Hoffered Hnew.
  destruct (governor_edit_scope w index (_get_active_cpu w) Hrefresh Hindex)
    as (Hstored & _).
  rewrite Z.eqb_refl, orb_true_r, Hget, Hcombo in Hstored. simpl in Hstored.
  destruct (In_index_of gov _ Hoffered) as [i Hi].
  assert (Hfield : field_changed (set_governor conf (Some gov)) "governor"
                   = true).
  { unfold field_changed, set_governor. rewrite Hi. simpl.
    destruct (f_govid (baseline conf)) as [j|] eqn:Ej; simpl; [|reflexivity].
    destruct (Nat.eqb_spec i j) as [<-|Hne]; [|reflexivity].
    exfalso. apply Hnew. unfold governor_name, govid. simpl. rewrite Ej.
    now apply index_of_nth. }
  destruct (step_of_changed_field HELPER energy_pref_avail
              (settings (on_governor_changed w index)) h
              (_get_active_cpu w) (set_governor conf (Some gov)) Hstored)
    as (l & h' & Hpass & Hstep).
  - change (any_changed (set_governor conf (Some gov)) = true).
    unfold any_changed. rewrite Hfield. now rewrite !orb_true_r.
  - change (is_online (set_governor conf (Some gov)) = true).
    now destruct (set_governor_other conf (Some gov))
      as (_ & _ & _ & -> & _).
  - exists (total l), h', (writes l). split; [exact Hpass|].
    destruct (Hstep Governor) as (s & Hs & Hc & Hd & Hshape);
      [discriminate|exact Hfield|].
    assert (Hval : governor (set_governor conf (Some gov)) = Some gov)
      by now apply set_governor_reads_back.
    unfold step_shape in Hshape. rewrite Hd, Hc, Hval in Hshape.
    destruct Hshape as [(_ & _ & Hn)|(g & raw & Heq & Hcalls & _)];
      try discriminate.
    injection Heq as <-. exists raw. apply In_writes.
    exists s. split; [exact Hs|]. rewrite Hcalls. now left.
Qed.

End EditThenApply.

(** ** Examples for the edit handlers *)

Section MoreExamples.

Import Apply Config Edit Copy Sim Cases.

(** X10 on four CPUs with CPU 1 edited and selected. *)
Lemma toall_copies_the_active_cpu_witness :
  exists w',
    on_toall_toggled (window cpu1_edited 1 false false 1000 2000) true
    = Some w'
    /\ Dict.keys (settings w') = [0; 1; 2; 3]
    /\ forall k conf,
         Dict.get cpu1_edited k = Some conf ->
         exists conf',
           Dict.get (settings w') k = Some conf'
           /\ copied
                (set_online
                   (set_governor (cpu_conf_1000_2000 1) (Some "performance"))
                   false)
                conf conf'.
Proof.
  exact (proj2 (proj2 (toall_copies_the_active_cpu
                         (window cpu1_edited 1 false false 1000 2000)))
           _ eq_refl).
Defined.

(** What the four entries show afterwards. *)
Example toall_copies_cpu1 :
  option_map
    (fun w' =>
       map (fun kv => (fst kv, freqs (snd kv), governor_name (snd kv),
                       is_online (snd kv)))
         (settings w'))
    (on_toall_toggled (window cpu1_edited 1 false false 1000 2000) true)
  = Some [(0, (1000, 2000), Some "performance", false);
          (1, (1000, 2000), Some "performance", false);
          (2, (1000, 2000), Some "performance", false);
          (3, (1000, 2000), Some "performance", false)].
Proof. reflexivity. Qed.

(** X11 on CPU 1 at 1000 to 2000 MHz: max asked down to 900. *)
Lemma max_request_never_moves_min_witness :
  Forall
    (fun handler : Window -> Z -> option Window =>
       exists w',
         handler (window cpu1_edited 1 false false 1000 2000) 900 = Some w'
         /\ value (min_spin w') = 1000
         /\ active_freqs w' = Some (1000, 1010))
    [type_max_spin; on_max_slider_changed].
Proof.
  refine (max_request_never_moves_min
            (window cpu1_edited 1 false false 1000 2000) _ 800 3200 900
            eq_refl eq_refl _ eq_refl _).
  - lia.
  - unfold boxes_ranged. simpl. lia.
Defined.

(** X12 on the same CPU, with widgets that showed 800 before: min asked
    up to 2500. *)
Lemma edit_after_update_sliders_within_limits_witness :
  settings (_update_sliders (window cpu1_edited 1 false false 800 800))
  = cpu1_edited
  /\ Forall
       (fun handler : Window -> Z -> option Window =>
          exists w' fmin fmax,
            handler
              (_update_sliders (window cpu1_edited 1 false false 800 800))
              2500
            = Some w'
            /\ active_freqs w' = Some (fmin, fmax)
            /\ 800 <= fmin /\ fmin <= fmax /\ fmax <= 3200)
       [type_min_spin; type_max_spin; on_min_slider_changed;
        on_max_slider_changed].
Proof.
  refine (edit_after_update_sliders_within_limits
            (window cpu1_edited 1 false false 800 800) _ 800 3200 2500
            eq_refl eq_refl _).
  lia.
Defined.

Example min_typed_above_max_after_update_sliders :
  option_map active_freqs
    (type_min_spin (_update_sliders (window cpu1_edited 1 false false 800 800))
       2500)
  = Some (Some (2500, 2510)).
Proof. reflexivity. Qed.

(** X13 on a window without settings. *)
Lemma edits_without_an_entry_witness :
  on_cpu_online_toggled (window [] 0 false true 800 3200) false = None
  /\ Forall
       (fun handler : Window -> Z -> option Window =>
          handler (window [] 0 false true 800 3200) 1200 = None)
       [type_min_spin; type_max_spin; on_min_spin_changed;
        on_max_spin_changed; on_min_slider_changed; on_max_slider_changed]
  /\ _update_sliders (window [] 0 false true 800 3200)
     = window [] 0 false true 800 3200
  /\ (false = false ->
      settings (on_governor_changed (window [] 0 false true 800 3200) 0) = [])
  /\ (true = true ->
      settings (on_energy_pref_changed (window [] 0 false true 800 3200) 0)
      = []).
Proof.
  exact (edits_without_an_entry (window [] 0 false true 800 3200) 1200 0
           false eq_refl eq_refl).
Defined.

(** X14 on CPU 1 with new frequencies and a new governor. *)
Lemma every_edited_value_is_written_witness :
  exists ret h' t,
    apply_pass machine true [(0, untouched); (1, freq_and_governor)]
      (four_cpus [])
    = (Some ret, h', t)
    /\ (forall fmin fmax,
          setting_changed freq_and_governor "freqs" = true ->
          freqs_scaled freq_and_governor = (Some fmin, Some fmax) ->
          exists raw, In (UpdateCpuSettings 1 fmin fmax, raw) t)
    /\ (forall gov,
          setting_changed freq_and_governor "governor" = true ->
          governor freq_and_governor = Some gov ->
          exists raw, In (UpdateCpuGovernor 1 gov, raw) t)
    /\ (forall pref,
          true = true ->
          setting_changed freq_and_governor "energy_pref" = true ->
          energy_pref freq_and_governor = Some pref ->
          truthy (Some pref) = true ->
          exists raw, In (UpdateCpuEnergyPrefs 1 pref, raw) t).
Proof.
  exact (every_edited_value_is_written machine true
           [(0, untouched); (1, freq_and_governor)] (four_cpus []) 1
           freq_and_governor eq_refl eq_refl eq_refl).
Defined.

(** X15 on four fresh CPUs: performance picked for CPU 1. *)
Lemma picked_governor_is_written_witness :
  exists ret h' t,
    apply_pass machine true
      (settings
         (on_governor_changed (window four_fresh 1 false false 800 3200) 0))
      (four_cpus [])
    = (Some ret, h', t)
    /\ exists raw, In (UpdateCpuGovernor 1 "performance", raw) t.
Proof.
  refine (picked_governor_is_written machine true
            (window four_fresh 1 false false 800 3200) 0 (cpu_conf 1)
            "performance" (four_cpus []) eq_refl _ eq_refl eq_refl eq_refl
            (or_introl eq_refl) _).
  - lia.
  - simpl. discriminate.
Defined.

Example picked_governor_pass :
  apply_pass machine true
    (settings
       (on_governor_changed (window four_fresh 1 false false 800 3200) 0))
    (four_cpus [])
  = (Some 0, four_cpus [], [(UpdateCpuGovernor 1 "performance", 0)]).
Proof. reflexivity. Qed.

End MoreExamples.

(** ** The CPU table and the settings *)

Section TableFacts.

Import Config Table.

Variable capitalize : string -> string.
Variable Freq : Type.
Variable zero : Freq.

Lemma fold_append {A B} (f : A -> B) (l : list A) (acc : list B) :
  fold_left (fun acc x => acc ++ [f x]) l acc = acc ++ map f l.
Proof.
  revert acc. induction l as [|x l IH]; intros acc; simpl.
  - now rewrite app_nil_r.
  - rewrite IH, <- app_assoc. reflexivity.
Qed.

Lemma update_table_rows (settings : Dict.t CpuSettings) :
  _update_table capitalize zero settings
  = map (fun kv => row_of capitalize zero (fst kv) (snd kv)) settings.
Proof. unfold _update_table. now rewrite fold_append. Qed.

Lemma update_cpu_combo_items (cpus : list Z) : _update_cpu_combo cpus = cpus.
Proof.
  unfold _update_cpu_combo.
  rewrite (fold_append (fun cpu => cpu)). simpl. apply map_id.
Qed.

Lemma set_nth_app (f : Row Freq -> Row Freq) (pre post : list (Row Freq))
  (r : Row Freq) :
  set_nth (List.length pre) f (pre ++ r :: post) = pre ++ f r :: post.
Proof. induction pre as [|p pre IH]; simpl; [reflexivity|now rewrite IH]. Qed.

Lemma valid_row_app (pre post : list (Row Freq)) :
  valid_row (Z.of_nat (List.length pre)) (pre ++ post)
  = negb (Nat.eqb (List.length post) 0).
Proof.
  unfold valid_row. rewrite length_app.
  destruct post as [|r post]; simpl.
  - rewrite Nat.add_0_r.
    destruct (Z.leb_spec 0 (Z.of_nat (List.length pre)));
      destruct (Z.ltb_spec (Z.of_nat (List.length pre))
                  (Z.of_nat (List.length pre))); simpl; lia.
  - destruct (Z.leb_spec 0 (Z.of_nat (List.length pre)));
      destruct (Z.ltb_spec (Z.of_nat (List.length pre))
                  (Z.of_nat (List.length pre + S (List.length post))));
      simpl; lia.
Qed.

Lemma set_changed_at (changed : bool) (pre post : list (Row Freq))
  (r : Row Freq) :
  set_changed (Z.of_nat (List.length pre)) changed (pre ++ r :: post)
  = pre ++ with_changed r changed :: post.
Proof.
  unfold set_changed. rewrite valid_row_app. simpl.
  now rewrite Nat2Z.id, set_nth_app.
Qed.

Lemma update_current_freq_at (freq : Freq) (pre post : list (Row Freq))
  (r : Row Freq) :
  update_current_freq (Z.of_nat (List.length pre)) freq (pre ++ r :: post)
  = pre ++ with_current_freq r freq :: post.
Proof.
  unfold update_current_freq. rewrite valid_row_app. simpl.
  now rewrite Nat2Z.id, set_nth_app.
Qed.

Lemma update_current_freq_outside (freq : Freq) (data : list (Row Freq))
  (i : Z) :
  Z.of_nat (List.length data) <= i -> update_current_freq i freq data = data.
Proof.
  intros Hi. unfold update_current_freq, valid_row.
  destruct (Z.ltb_spec i (Z.of_nat (List.length data))); [lia|].
  now rewrite andb_false_r.
Qed.

Lemma update_current_freq_past_end (cpus : list Z) (read : Z -> Freq)
  (data : list (Row Freq)) (i : Z) :
  Z.of_nat (List.length data) <= i ->
  fst (fold_left
         (fun st cpu =>
            (update_current_freq (snd st) (read cpu) (fst st), snd st + 1))
         cpus (data, i))
  = data.
Proof.
  revert i. induction cpus as [|cpu cpus IH]; intros i Hi; [reflexivity|].
  cbn [fold_left fst snd]. rewrite update_current_freq_outside by exact Hi.
  apply IH. lia.
Qed.

(** The timer writes the frequency of the [i]-th CPU of the list into
    the [i]-th row, for as many rows as there are. *)
Lemma update_current_freq_rows (cpus : list Z) (read : Z -> Freq)
  (pre post : list (Row Freq)) :
  fst (fold_left
         (fun st cpu =>
            (update_current_freq (snd st) (read cpu) (fst st), snd st + 1))
         cpus (pre ++ post, Z.of_nat (List.length pre)))
  = pre
    ++ map (fun rc => with_current_freq (fst rc) (read (snd rc)))
         (combine post cpus)
    ++ skipn (List.length cpus) post.
Proof.
  revert pre post. induction cpus as [|cpu cpus IH]; intros pre post.
  - simpl. destruct post; reflexivity.
  - destruct post as [|r post].
    + rewrite update_current_freq_past_end; [reflexivity|].
      rewrite app_nil_r. lia.
    + cbn [fold_left fst snd]. rewrite update_current_freq_at.
      replace (pre ++ with_current_freq r (read cpu) :: post)
        with ((pre ++ [with_current_freq r (read cpu)]) ++ post)
        by now rewrite <- app_assoc.
      replace (Z.of_nat (List.length pre) + 1)
        with (Z.of_nat (List.length (pre ++ [with_current_freq r (read cpu)])))
        by (rewrite length_app; simpl; lia).
      rewrite IH. simpl. now rewrite <- app_assoc.
Qed.


Lemma dict_set_fresh {V} (d : Dict.t V) (k : Z) (v : V) :
  ~ In k (Dict.keys d) -> Startup.dict_set d k v = d ++ [(k, v)].
Proof.
  induction d as [|[k' v'] d IH]; simpl; intros Hk; [reflexivity|].
  destruct (Z.eqb_spec k' k) as [->|_]; [tauto|].
  rewrite IH; [reflexivity|tauto].
Qed.

(** Filling a dict with CPUs it does not hold yet appends them in the
    order of the list. *)
Lemma fill_fresh {V} (new : Z -> V) (cpus : list Z) (d : Dict.t V) :
  NoDup (Dict.keys d ++ cpus) ->
  fold_left (fun d cpu => Startup.dict_set d cpu (new cpu)) cpus d
  = d ++ map (fun cpu => (cpu, new cpu)) cpus.
Proof.
  revert d. induction cpus as [|cpu cpus IH]; intros d Hnd; simpl.
  - now rewrite app_nil_r.
  - rewrite dict_set_fresh.
    + rewrite IH; [now rewrite <- app_assoc|].
      unfold Dict.keys in *. rewrite map_app. simpl.
      now rewrite <- app_assoc.
    + apply NoDup_remove_2 in Hnd. intros Hin. apply Hnd.
      apply in_or_app. now left.
Qed.

Lemma timer_rows (cpus : list Z) (read : Z -> Freq) (data : list (Row Freq)) :
  _update_current_freq cpus read data
  = map (fun rc => with_current_freq (fst rc) (read (snd rc)))
      (combine data cpus)
    ++ skipn (List.length cpus) data.
Proof. exact (update_current_freq_rows cpus read [] data). Qed.

Lemma timer_keeps_settings_cells (cpus : list Z) (read : Z -> Freq)
  (data : list (Row Freq)) :
  map (@settings_cells Freq) (_update_current_freq cpus read data)
  = map (@settings_cells Freq) data.
Proof.
  rewrite timer_rows. revert data.
  induction cpus as [|cpu cpus IH]; intros data.
  - destruct data; reflexivity.
  - destruct data as [|r data]; [reflexivity|]. simpl. now rewrite IH.
Qed.

(** X16.  After the settings were loaded at startup from a list of
    distinct CPUs, the table and the CPU combo list the same CPUs in the
    same order, so that the row of an index is the row of the CPU the combo
    entry of that index carries, and the timer writes into every row the
    current frequency of the CPU of that row.  The timer never changes
    another cell or the number of rows, whatever the list and the table. *)
Theorem rows_follow_the_cpu_list
  (new_settings : Z -> CpuSettings) (avail : CpuSettings -> bool)
  (cpus : list Z) (flag : bool) (read : Z -> Freq) :
  NoDup cpus ->
  let settings :=
    fst (Startup.load_cpu_settings new_settings avail cpus [] flag) in
  let data := _update_table capitalize zero settings in
  map (@r_cpu Freq) data = _update_cpu_combo cpus
  /\ map (fun r => (r_cpu r, r_current_freq r))
       (_update_current_freq cpus read data)
     = map (fun cpu => (cpu, read cpu)) cpus
  /\ forall rows : list (Row Freq),
       map (@settings_cells Freq) (_update_current_freq cpus read rows)
       = map (@settings_cells Freq) rows.
Proof.
  intros Hnd. cbv zeta.
  assert (Hload : fst (Startup.load_cpu_settings new_settings avail cpus []
                         flag)
                  = map (fun cpu => (cpu, new_settings cpu)) cpus).
  { unfold Startup.load_cpu_settings.
    rewrite (fill_fresh new_settings cpus []) by exact Hnd. simpl.
    now destruct (map (fun cpu => (cpu, new_settings cpu)) cpus). }
  rewrite Hload, update_table_rows, update_cpu_combo_items, !map_map. simpl.
  split; [apply map_id|]. split; [|apply timer_keeps_settings_cells].
  rewrite timer_rows. clear Hnd Hload. rewrite map_app.
  induction cpus as [|cpu cpus IH]; [reflexivity|].
  simpl. simpl in IH. now rewrite IH.
Qed.


(** The loop of [set_changed] calls over a dict whose keys are the row
    numbers, from row [length pre] on. *)
Lemma set_changed_loop (g : CpuSettings -> bool) (l : Dict.t CpuSettings)
  (pre post : list (Row Freq)) :
  List.length post = List.length l ->
  Dict.keys l = map Z.of_nat (seq (List.length pre) (List.length l)) ->
  fold_left (fun data kv => set_changed (fst kv) (g (snd kv)) data) l
    (pre ++ post)
  = pre ++ map (fun rk => with_changed (fst rk) (g (snd (snd rk))))
             (combine post l).
Proof.
  revert pre post. induction l as [|[k v] l IH]; intros pre post Hlen Hkeys.
  - destruct post; [reflexivity|discriminate].
  - destruct post as [|r post]; [discriminate|].
    simpl in Hkeys. injection Hkeys as Hk Hkeys. subst k.
    cbn [fold_left fst snd]. rewrite set_changed_at.
    replace (pre ++ with_changed r (g v) :: post)
      with ((pre ++ [with_changed r (g v)]) ++ post)
      by now rewrite <- app_assoc.
    rewrite IH.
    + simpl. now rewrite <- app_assoc.
    + simpl in Hlen. lia.
    + rewrite length_app. simpl. rewrite Nat.add_1_r. exact Hkeys.
Qed.

Lemma rows_without_key (cpu : Z) (c : bool) (l : Dict.t CpuSettings)
  (post : list (Row Freq)) :
  List.length post = List.length l ->
  ~ In cpu (Dict.keys l) ->
  map (fun rk => if fst (snd rk) =? cpu then with_changed (fst rk) c
                 else fst rk)
    (combine post l)
  = post.
Proof.
  revert post. induction l as [|[k v] l IH]; intros post Hlen Hnot.
  - destruct post; [reflexivity|discriminate].
  - destruct post as [|r post]; [discriminate|]. simpl in *.
    destruct (Z.eqb_spec k cpu) as [->|_]; [tauto|].
    rewrite IH; [reflexivity|lia|tauto].
Qed.

(** One [set_changed] call with a CPU number, on such a dict. *)
Lemma set_changed_by_key (cpu : Z) (c : bool) (l : Dict.t CpuSettings)
  (pre post : list (Row Freq)) :
  List.length post = List.length l ->
  Dict.keys l = map Z.of_nat (seq (List.length pre) (List.length l)) ->
  In cpu (Dict.keys l) ->
  set_changed cpu c (pre ++ post)
  = pre ++ map (fun rk => if fst (snd rk) =? cpu
                          then with_changed (fst rk) c else fst rk)
             (combine post l).
Proof.
  revert pre post. induction l as [|[k v] l IH]; intros pre post Hlen Hkeys Hin.
  - destruct Hin.
  - destruct post as [|r post]; [discriminate|].
    simpl in Hkeys. injection Hkeys as Hk Hkeys. subst k.
    simpl in Hlen. cbn [combine map fst snd].
    destruct (Z.eqb_spec (Z.of_nat (List.length pre)) cpu) as [<-|Hne].
    + rewrite set_changed_at, rows_without_key; [reflexivity|lia|].
      rewrite Hkeys. intros Hin'. apply in_map_iff in Hin' as (n & Hn & Hin').
      apply in_seq in Hin'. lia.
    + destruct Hin as [Heq|Hin]; [simpl in Heq; contradiction|].
      replace (pre ++ r :: post) with ((pre ++ [r]) ++ post)
        by now rewrite <- app_assoc.
      rewrite IH; [now rewrite <- app_assoc|lia| |exact Hin].
      rewrite length_app. simpl. rewrite Nat.add_1_r. exact Hkeys.
Qed.

Lemma cons_eq {A} (a b : A) (l l' : list A) :
  a :: l = b :: l' -> a = b /\ l = l'.
Proof. intros Heq. now injection Heq. Qed.

(** A row in step with an entry stays in step when the entry gets a new
    energy preference and the row its changed flag. *)
Lemma cells_after_energy_edit (r : Row Freq) (k : Z) (conf : CpuSettings)
  (pref : option string) :
  settings_cells r = settings_cells (row_of capitalize zero k conf) ->
  settings_cells
    (with_changed r (any_changed (set_energy_pref conf pref)))
  = settings_cells (row_of capitalize zero k (set_energy_pref conf pref)).
Proof.
  intros Hcells.
  destruct (set_energy_pref_other conf pref) as (_ & _ & _ & Ho & Hf & Hg).
  unfold settings_cells, row_of in *. simpl in *.
  rewrite Ho, Hf, Hg. now injection Hcells as -> -> -> -> -> _.
Qed.

Lemma rows_after_energy_edit (sel : Z -> bool) (pref : option string)
  (l : Dict.t CpuSettings) (data : list (Row Freq)) :
  map (@settings_cells Freq) data
  = map (@settings_cells Freq)
      (map (fun kv => row_of capitalize zero (fst kv) (snd kv)) l) ->
  let data' :=
    map (fun rk => if sel (fst (snd rk))
                   then with_changed (fst rk)
                          (any_changed
                             (set_energy_pref (snd (snd rk)) pref))
                   else fst rk)
      (combine data l) in
  map (@settings_cells Freq) data'
  = map (@settings_cells Freq)
      (map (fun kv => row_of capitalize zero (fst kv) (snd kv))
         (map (fun kv => if sel (fst kv)
                         then (fst kv, set_energy_pref (snd kv) pref)
                         else kv) l))
  /\ map (@r_current_freq Freq) data' = map (@r_current_freq Freq) data.
Proof.
  revert data. induction l as [|[k v] l IH]; intros data Hcells; cbv zeta.
  - destruct data; [split; reflexivity|discriminate].
  - destruct data as [|r data]; [discriminate|].
    cbn [map fst snd] in Hcells. apply cons_eq in Hcells as [Hr Hrest].
    destruct (IH data Hrest) as (IH1 & IH2). cbv zeta in IH1, IH2.
    cbn [combine map fst snd]. rewrite IH1, IH2.
    destruct (sel k); cbn [fst snd]; split; try reflexivity.
    + f_equal. now apply cells_after_energy_edit.
    + f_equal. exact Hr.
Qed.

Lemma NoDup_map_of_nat (l : list nat) :
  NoDup l -> NoDup (map Z.of_nat l).
Proof.
  induction 1 as [|n l Hnot Hnd IH]; simpl; constructor; [|exact IH].
  intros Hin. apply in_map_iff in Hin as (m & Hm & Hin).
  apply Nat2Z.inj in Hm. now subst m.
Qed.

Lemma set_changed_loop_rows (g : CpuSettings -> bool)
  (l : Dict.t CpuSettings) (data : list (Row Freq)) :
  List.length data = List.length l ->
  Dict.keys l = map Z.of_nat (seq 0 (List.length l)) ->
  fold_left (fun data kv => set_changed (fst kv) (g (snd kv)) data) l data
  = map (fun rk => with_changed (fst rk) (g (snd (snd rk)))) (combine data l).
Proof. exact (set_changed_loop g l [] data). Qed.

Lemma set_changed_row_of_key (cpu : Z) (conf : CpuSettings)
  (g : CpuSettings -> bool) (l : Dict.t CpuSettings)
  (data : list (Row Freq)) :
  List.length data = List.length l ->
  Dict.keys l = map Z.of_nat (seq 0 (List.length l)) ->
  Dict.get l cpu = Some conf ->
  set_changed cpu (g conf) data
  = map (fun rk => if fst (snd rk) =? cpu
                   then with_changed (fst rk) (g (snd (snd rk)))
                   else fst rk)
      (combine data l).
Proof.
  intros Hlen Hkeys Hget.
  assert (Hin : In cpu (Dict.keys l)).
  { apply DictFacts.get_In in Hget. unfold Dict.keys.
    now apply (in_map fst) in Hget. }
  assert (Hnd : NoDup (Dict.keys l)).
  { rewrite Hkeys. apply NoDup_map_of_nat, seq_NoDup. }
  pose proof (set_changed_by_key cpu (g conf) l [] data Hlen Hkeys Hin)
    as Hrow.
  cbn [app] in Hrow. rewrite Hrow. apply map_ext_in.
  intros [r [k v]] Hrk. cbn [fst snd].
  destruct (Z.eqb_spec k cpu) as [->|_]; [|reflexivity].
  apply in_combine_r in Hrk. apply (DictFacts.In_get _ _ _ Hnd) in Hrk.
  rewrite Hget in Hrk. now injection Hrk as ->.
Qed.

(** X17.  [on_energy_pref_changed] does not rebuild the table; it flags
    the row whose number is the CPU number.  When the CPUs of the settings
    are numbered from 0 in the order of the dict, a table in step with the
    settings before the edit is in step with them after it, and its
    current frequencies are left alone. *)
Theorem energy_edit_keeps_table_in_step
  (w : Edit.Window) (index : Z) (data : list (Row Freq)) :
  Dict.keys (Edit.settings w)
  = map Z.of_nat (seq 0 (List.length (Edit.settings w))) ->
  map (@settings_cells Freq) data
  = map (@settings_cells Freq)
      (_update_table capitalize zero (Edit.settings w)) ->
  map (@settings_cells Freq) (on_energy_pref_changed w index data)
  = map (@settings_cells Freq)
      (_update_table capitalize zero
         (Edit.settings (Edit.on_energy_pref_changed w index)))
  /\ map (@r_current_freq Freq) (on_energy_pref_changed w index data)
     = map (@r_current_freq Freq) data.
Proof.
  intros Hkeys Hstep. rewrite !update_table_rows in *.
  assert (Hlen : List.length data = List.length (Edit.settings w)).
  { apply (f_equal (@List.length _)) in Hstep.
    now rewrite !length_map in Hstep. }
  unfold on_energy_pref_changed, Edit.on_energy_pref_changed.
  destruct (Edit.refreshing w || (index <? 0)); [now split|].
  destruct (Edit.energy_per_cpu w); cbn [Edit.settings Edit.with_settings].
  - destruct (Dict.get (Edit.settings w) (Edit._get_active_cpu w))
      as [conf|] eqn:Hget.
    + rewrite (set_changed_row_of_key (Edit._get_active_cpu w) conf
                 (fun conf => any_changed
                                (set_energy_pref conf (Edit.energy_combo w)))
                 (Edit.settings w) data Hlen Hkeys Hget).
      apply (rows_after_energy_edit (fun k => k =? Edit._get_active_cpu w)
               (Edit.energy_combo w) (Edit.settings w) data Hstep).
    + rewrite update_at_missing by exact Hget. now split.
  - rewrite (set_changed_loop_rows
               (fun conf => any_changed
                              (set_energy_pref conf (Edit.energy_combo w)))
               (Edit.settings w) data Hlen Hkeys).
    apply (rows_after_energy_edit (fun _ => true) (Edit.energy_combo w)
             (Edit.settings w) data Hstep).
Qed.

End TableFacts.

Section TableExamples.

Import Config Edit Table Sim Cases.

(** X16 on four CPUs, with [1000 + cpu] for the frequency read. *)
Lemma rows_follow_the_cpu_list_witness :
  map (@r_cpu Z)
    (_update_table (fun s => s) 0
       (fst (Startup.load_cpu_settings cpu_conf (fun _ => true) [0; 1; 2; 3]
               [] false)))
  = _update_cpu_combo [0; 1; 2; 3]
  /\ map (fun r => (r_cpu r, r_current_freq r))
       (_update_current_freq [0; 1; 2; 3] (fun cpu => 1000 + cpu)
          (_update_table (fun s => s) 0
             (fst (Startup.load_cpu_settings cpu_conf (fun _ => true)
                     [0; 1; 2; 3] [] false))))
     = [(0, 1000); (1, 1001); (2, 1002); (3, 1003)]
  /\ forall rows : list (Row Z),
       map (@settings_cells Z)
         (_update_current_freq [0; 1; 2; 3] (fun cpu => 1000 + cpu) rows)
       = map (@settings_cells Z) rows.
Proof.
  refine (rows_follow_the_cpu_list (fun s => s) Z 0 cpu_conf (fun _ => true)
            [0; 1; 2; 3] false (fun cpu => 1000 + cpu) _).
  repeat (constructor; [simpl; intuition lia|]). constructor.
Defined.

(** When the dict holds CPU 0 from an earlier load and the helper lists
    CPU 1 before it, the rows stand in the order of the dict and the timer
    writes by the order of the list: each row gets the frequency of the
    other CPU. *)
Example timer_after_a_reordered_list :
  map (fun r => (r_cpu r, r_current_freq r))
    (_update_current_freq [1; 0] (fun cpu => 1000 + cpu)
       (_update_table (fun s => s) 0
          (fst (Startup.load_cpu_settings cpu_conf (fun _ => true) [1; 0]
                  [(0, cpu_conf 0)] false))))
  = [(0, 1001); (1, 1000)].
Proof. reflexivity. Qed.

(** X17 on four CPUs, the preference picked for CPU 1 alone. *)
Lemma energy_edit_keeps_table_in_step_witness :
  map (@settings_cells Z)
    (Table.on_energy_pref_changed (window four_fresh 1 false true 800 3200) 0
       (_update_table (fun s => s) 0 four_fresh))
  = map (@settings_cells Z)
      (_update_table (fun s => s) 0
         (settings
            (Edit.on_energy_pref_changed
               (window four_fresh 1 false true 800 3200) 0)))
  /\ map (@r_current_freq Z)
       (Table.on_energy_pref_changed
          (window four_fresh 1 false true 800 3200) 0
          (_update_table (fun s => s) 0 four_fresh))
     = map (@r_current_freq Z) (_update_table (fun s => s) 0 four_fresh).
Proof.
  exact (energy_edit_keeps_table_in_step (fun s => s) Z 0
           (window four_fresh 1 false true 800 3200) 0
           (_update_table (fun s => s) 0 four_fresh) eq_refl eq_refl).
Defined.

(** With CPUs 0 and 2 only, the flag meant for CPU 2 goes to row 2, which
    the table does not have: the row of CPU 2 stays unflagged although its
    settings changed. *)
Example energy_edit_with_a_gap :
  map (fun r => (r_cpu r, r_changed r))
    (Table.on_energy_pref_changed
       (window [(0, cpu_conf 0); (2, cpu_conf 2)] 0 false false 800 3200) 0
       (_update_table (fun s => s) 0 [(0, cpu_conf 0); (2, cpu_conf 2)]))
  = [(0, true); (2, false)]
  /\ map (fun kv => (fst kv, any_changed (snd kv)))
       (settings
          (Edit.on_energy_pref_changed
             (window [(0, cpu_conf 0); (2, cpu_conf 2)] 0 false false 800
                3200) 0))
     = [(0, true); (2, true)].
Proof. split; reflexivity. Qed.

End TableExamples.

(** ** Recalling a profile *)

Section RecallFacts.

Import Recall.

Context {C : Type}.
Variable new_settings : Z -> C.
Variable conf_energy_pref_avail : C -> bool.
Variable F : Type.
Variable governors : C -> list string.
Variable set_freqs_scaled : C -> F -> C.
Variable set_governor : C -> string -> C.
Variable set_online : C -> bool -> C.

Lemma get_recall_cpu (d : Dict.t C) (cpu k : Z) (s : Entry F) :
  Dict.get
    (recall_cpu governors set_freqs_scaled set_governor set_online d cpu s) k
  = if k =? cpu
    then option_map
           (fun conf =>
              assign governors set_freqs_scaled set_governor set_online
                conf s)
           (Dict.get d k)
    else Dict.get d k.
Proof.
  unfold recall_cpu. destruct (Dict.get d cpu) as [conf|] eqn:Hget.
  - apply get_update_at.
  - destruct (Z.eqb_spec k cpu) as [->|_]; [|reflexivity].
    now rewrite Hget.
Qed.

Lemma keys_recall_cpu (d : Dict.t C) (cpu : Z) (s : Entry F) :
  Dict.keys
    (recall_cpu governors set_freqs_scaled set_governor set_online d cpu s)
  = Dict.keys d.
Proof.
  unfold recall_cpu. destruct (Dict.get d cpu); [|reflexivity].
  apply DictFacts.keys_update_at.
Qed.

(** The loop of [_set_profile_settings]. *)
Lemma recall_loop (prof : Dict.t (Entry F)) (d : Dict.t C) :
  NoDup (Dict.keys prof) ->
  let d' :=
    fold_left
      (fun d kv =>
         recall_cpu governors set_freqs_scaled set_governor set_online d
           (fst kv) (snd kv))
      prof d in
  Dict.keys d' = Dict.keys d
  /\ forall k,
       Dict.get d' k
       = match Dict.get d k, Dict.get prof k with
         | Some conf, Some s =>
             Some (assign governors set_freqs_scaled set_governor set_online
                     conf s)
         | o, _ => o
         end.
Proof.
  revert d. induction prof as [|[cpu s] prof IH]; intros d Hnd; cbv zeta.
  - split; [reflexivity|]. intros k. simpl. now destruct (Dict.get d k).
  - simpl in Hnd. inversion Hnd as [|? ? Hnot Hnd']; subst.
    destruct (IH (recall_cpu governors set_freqs_scaled set_governor
                    set_online d cpu s) Hnd') as (Hkeys & Hget).
    cbv zeta in Hkeys, Hget. cbn [fold_left fst snd]. split.
    + now rewrite Hkeys, keys_recall_cpu.
    + intros k. rewrite Hget, get_recall_cpu. cbn [Dict.get].
      destruct (Z.eqb_spec cpu k) as [->|Hne].
      * rewrite Z.eqb_refl.
        assert (Hnone : Dict.get prof k = None).
        { destruct (Dict.get prof k) as [s'|] eqn:Hs; [|reflexivity].
          apply DictFacts.get_In in Hs. elim Hnot. unfold Dict.keys.
          now apply (in_map fst) in Hs. }
        rewrite Hnone. now destruct (Dict.get d k).
      * destruct (Z.eqb_spec k cpu); [congruence|reflexivity].
Qed.

(** X18.  Recalling a profile starts from fresh settings.
    [_set_profile_settings] first loads the settings again, so that every
    CPU the helper lists loses its pending edits, and unticks "apply to
    all".  A listed CPU the profile has settings for then holds the fresh
    object with the profile's frequencies, its governor if the CPU offers
    it, and its online state assigned, in this order; a listed CPU the
    profile does not name holds the fresh object; the settings the profile
    has for a CPU without an entry are skipped, and no entry is added.  When
    the load fails, so does the recall. *)
Theorem recall_starts_from_fresh_settings
  (online_cpus : list Z) (settings : Dict.t C) (flag : bool)
  (prof : Dict.t (Entry F)) :
  NoDup (Dict.keys prof) ->
  let loaded :=
    Startup.load_cpu_settings new_settings conf_energy_pref_avail
      online_cpus settings flag in
  match
    _set_profile_settings new_settings conf_energy_pref_avail governors
      set_freqs_scaled set_governor set_online online_cpus settings flag prof
  with
  | None => snd loaded = None
  | Some (d, flag', toall_btn) =>
      snd loaded = Some flag' /\ toall_btn = false
      /\ Dict.keys d = Dict.keys (fst loaded)
      /\ (forall cpu s,
            In cpu online_cpus -> Dict.get prof cpu = Some s ->
            Dict.get d cpu
            = Some (assign governors set_freqs_scaled set_governor
                      set_online (new_settings cpu) s))
      /\ (forall cpu,
            In cpu online_cpus -> Dict.get prof cpu = None ->
            Dict.get d cpu = Some (new_settings cpu))
      /\ (forall cpu,
            ~ In cpu online_cpus ->
            Dict.get d cpu
            = match Dict.get settings cpu, Dict.get prof cpu with
              | Some conf, Some s =>
                  Some (assign governors set_freqs_scaled set_governor
                          set_online conf s)
              | o, _ => o
              end)
  end.
Proof.
  intros Hnd. cbv zeta. unfold _set_profile_settings.
  destruct (Startup.load_cpu_settings new_settings conf_energy_pref_avail
              online_cpus settings flag) as [loaded [flag'|]] eqn:Eload;
    [|reflexivity].
  assert (Hloaded : loaded
                    = fold_left
                        (fun d cpu =>
                           Startup.dict_set d cpu (new_settings cpu))
                        online_cpus settings).
  { unfold Startup.load_cpu_settings in Eload.
    destruct (fold_left _ online_cpus settings);
      now injection Eload as <- _. }
  destruct (fill_spec new_settings online_cpus settings)
    as (Hin & Hout & _). cbv zeta in Hin, Hout. rewrite <- Hloaded in Hin, Hout.
  destruct (recall_loop prof loaded Hnd) as (Hkeys & Hget).
  cbv zeta in Hkeys, Hget. cbn [fst snd].
  split; [reflexivity|]. split; [reflexivity|]. split; [exact Hkeys|].
  split; [|split].
  - intros cpu s Hcpu Hs. now rewrite Hget, (Hin cpu Hcpu), Hs.
  - intros cpu Hcpu Hs. now rewrite Hget, (Hin cpu Hcpu), Hs.
  - intros cpu Hcpu. now rewrite Hget, (Hout cpu Hcpu).
Qed.

End RecallFacts.

(** ** The combos and the settings *)

Section ComboFacts.

Import Config Edit Combos.

Variable capitalize : string -> string.
Variable spaced : string -> string.

Lemma items_added (text : string -> string) (l : list string) (c : Combo) :
  items (fold_left (fun c x => addItem (text x) x c) l c)
  = items c ++ map (fun x => (text x, x)) l.
Proof.
  revert c. induction l as [|x l IH]; intros c; simpl.
  - now rewrite app_nil_r.
  - rewrite IH. simpl. now rewrite <- app_assoc.
Qed.

(** The data under an index of a combo filled from [l]. *)
Lemma data_at_index (text : string -> string) (l : list string)
  (c : Combo) (index : Z) :
  currentData
    (setCurrentIndex index
       (fold_left (fun c x => addItem (text x) x c) l (clear c)))
  = if index <? 0 then None else nth_error l (Z.to_nat index).
Proof.
  unfold currentData, setCurrentIndex. cbn [currentIndex items].
  rewrite items_added. cbn [clear items app]. rewrite length_map.
  destruct (Z.ltb_spec index 0) as [Hneg|Hpos].
  - destruct (Z.leb_spec 0 index); [lia|]. reflexivity.
  - destruct (Z.leb_spec 0 index); [|lia].
    destruct (Z.ltb_spec index (Z.of_nat (List.length l))) as [Hin|Hout];
      cbn [andb].
    + destruct (Z.ltb_spec index 0); [lia|].
      rewrite nth_error_map. now destruct (nth_error l (Z.to_nat index)).
    + simpl. symmetry. apply nth_error_None. lia.
Qed.

Lemma data_of_setEnabled (b : bool) (c : Combo) (index : Z) :
  currentData (setCurrentIndex index (setEnabled b c))
  = currentData (setCurrentIndex index c)
  /\ currentData (setEnabled b c) = currentData c.
Proof. split; reflexivity. Qed.


(** What the governor combo holds under each index after
    [_update_gov_combo]. *)
Lemma gov_combo_data (conf : CpuSettings) (c : Combo) (index : Z) :
  currentData (_update_gov_combo capitalize conf c) = governor_name conf
  /\ currentData (setCurrentIndex index (_update_gov_combo capitalize conf c))
     = match govid conf with
       | Some _ =>
           if index <? 0 then None
           else nth_error (governors conf) (Z.to_nat index)
       | None => None
       end.
Proof.
  unfold _update_gov_combo, governor_name. cbv zeta.
  destruct (govid conf) as [i|].
  - split.
    + change (currentData
                (setCurrentIndex (Z.of_nat i)
                   (fold_left (fun c gov => addItem (capitalize gov) gov c)
                      (governors conf) (clear c)))
              = nth_error (governors conf) i).
      rewrite data_at_index.
      destruct (Z.ltb_spec (Z.of_nat i) 0); [lia|]. now rewrite Nat2Z.id.
    + change (currentData
                (setCurrentIndex index
                   (fold_left (fun c gov => addItem (capitalize gov) gov c)
                      (governors conf) (clear c)))
              = if index <? 0 then None
                else nth_error (governors conf) (Z.to_nat index)).
      apply data_at_index.
  - split; [reflexivity|].
    unfold currentData, setCurrentIndex.
    cbn [currentIndex items setEnabled clear List.length Z.of_nat].
    destruct (Z.leb_spec 0 index); destruct (Z.ltb_spec index 0);
      try lia; reflexivity.
Qed.

(** X19.  The governor combo and the settings agree.  After
    [_update_gov_combo] the entry shown carries the governor stored for
    the active CPU, none when there is none; every entry carries a governor
    the CPU offers; and whichever entry is picked, [on_governor_changed]
    stores the governor of that entry for the active CPU. *)
Theorem governor_combo_shows_and_stores
  (w : Window) (conf : CpuSettings) (c : Combo) :
  let gov_combo := _update_gov_combo capitalize conf c in
  currentData gov_combo = governor_name conf
  /\ (forall index gov,
        currentData (setCurrentIndex index gov_combo) = Some gov ->
        In gov (governors conf))
  /\ (Dict.get (settings w) (_get_active_cpu w) = Some conf ->
      refreshing w = false ->
      forall index gov,
        currentData (setCurrentIndex index gov_combo) = Some gov ->
        option_map governor_name
          (Dict.get (settings (pick_governor w gov_combo index))
             (_get_active_cpu w))
        = Some (Some gov)).
Proof.
  cbv zeta.
  assert (Hentry : forall index gov,
            currentData
              (setCurrentIndex index (_update_gov_combo capitalize conf c))
            = Some gov ->
            0 <= index /\ In gov (governors conf)
            /\ currentIndex
                 (setCurrentIndex index (_update_gov_combo capitalize conf c))
               = index).
  { intros index gov Hdata.
    pose proof (proj2 (gov_combo_data conf c index)) as Hat.
    rewrite Hdata in Hat. destruct (govid conf); [|discriminate].
    destruct (Z.ltb_spec index 0) as [|Hpos]; [discriminate|].
    split; [exact Hpos|]. split; [now apply (nth_error_In _ (Z.to_nat index))|].
    unfold currentData in Hdata. unfold setCurrentIndex in *.
    cbn [currentIndex items] in *.
    destruct ((0 <=? index)
              && (index <? Z.of_nat
                    (List.length
                       (items (_update_gov_combo capitalize conf c)))));
      [reflexivity|discriminate]. }
  split; [apply gov_combo_data; exact 0|]. split.
  - intros index gov Hdata. now apply (Hentry index gov).
  - intros Hget Hrefresh index gov Hdata.
    destruct (Hentry index gov Hdata) as (Hpos & Hin & Hindex).
    unfold pick_governor. cbv zeta. rewrite Hdata, Hindex.
    destruct (governor_edit_scope
                (with_combo_data w (Some gov) (energy_combo w)) index
                (_get_active_cpu w) Hrefresh Hpos) as (Hstored & _).
    change (_get_active_cpu (with_combo_data w (Some gov) (energy_combo w)))
      with (_get_active_cpu w) in Hstored.
    rewrite Z.eqb_refl, orb_true_r in Hstored.
    change (_get_active_cpu (with_combo_data w (Some gov) (energy_combo w)))
      with (_get_active_cpu w).
    rewrite Hstored. cbn [with_combo_data settings gov_combo].
    rewrite Hget. cbn [option_map]. f_equal.
    now apply set_governor_reads_back.
Qed.


(** What the energy preference combo holds under each index after
    [_update_energy_pref_combo]. *)
Lemma energy_combo_data (conf : CpuSettings) (c : Combo) (index : Z) :
  currentData (_update_energy_pref_combo capitalize spaced conf c)
  = energy_pref_name conf
  /\ currentData
       (setCurrentIndex index
          (_update_energy_pref_combo capitalize spaced conf c))
     = if energy_pref_id conf =? -1 then None
       else if index <? 0 then None
       else nth_error (energy_prefs conf) (Z.to_nat index).
Proof.
  unfold _update_energy_pref_combo, energy_pref_name. cbv zeta.
  destruct (Z.eqb_spec (energy_pref_id conf) (-1)) as [Hid|Hid]; cbn [negb].
  - split.
    + rewrite Hid. reflexivity.
    + unfold currentData, setCurrentIndex.
      cbn [currentIndex items setEnabled clear List.length Z.of_nat].
      destruct (Z.leb_spec 0 index); destruct (Z.ltb_spec index 0);
        try lia; reflexivity.
  - split.
    + change (currentData
                (setCurrentIndex (energy_pref_id conf)
                   (fold_left
                      (fun c pref =>
                         addItem (capitalize (spaced pref)) pref c)
                      (energy_prefs conf) (clear c)))
              = if energy_pref_id conf <? 0 then None
                else nth_error (energy_prefs conf)
                       (Z.to_nat (energy_pref_id conf))).
      apply (data_at_index (fun pref => capitalize (spaced pref))).
    + change (currentData
                (setCurrentIndex index
                   (fold_left
                      (fun c pref =>
                         addItem (capitalize (spaced pref)) pref c)
                      (energy_prefs conf) (clear c)))
              = if index <? 0 then None
                else nth_error (energy_prefs conf) (Z.to_nat index)).
      apply (data_at_index (fun pref => capitalize (spaced pref))).
Qed.

Lemma energy_edit_active (w : Window) (index : Z) :
  refreshing w = false -> 0 <= index ->
  Dict.get (settings (on_energy_pref_changed w index)) (_get_active_cpu w)
  = option_map (fun conf => set_energy_pref conf (energy_combo w))
      (Dict.get (settings w) (_get_active_cpu w)).
Proof.
  intros Hrefresh Hindex. unfold on_energy_pref_changed. rewrite Hrefresh.
  destruct (Z.ltb_spec index 0); [lia|]. cbn [orb].
  destruct (energy_per_cpu w); cbn [settings with_settings].
  - apply DictFacts.get_update_at_same.
  - apply DictFacts.get_update_all.
Qed.

(** X20.  The energy preference combo and the settings agree.  After
    [_update_energy_pref_combo] the entry shown carries the preference
    stored for the active CPU, none when there is none; every entry carries
    a preference the CPU offers; and whichever entry is picked,
    [on_energy_pref_changed] stores the preference of that entry for the
    active CPU, per CPU or for all. *)
Theorem energy_combo_shows_and_stores
  (w : Window) (conf : CpuSettings) (c : Combo) :
  let energy_combo := _update_energy_pref_combo capitalize spaced conf c in
  currentData energy_combo = energy_pref_name conf
  /\ (forall index pref,
        currentData (setCurrentIndex index energy_combo) = Some pref ->
        In pref (energy_prefs conf))
  /\ (Dict.get (settings w) (_get_active_cpu w) = Some conf ->
      refreshing w = false ->
      forall index pref,
        currentData (setCurrentIndex index energy_combo) = Some pref ->
        option_map energy_pref_name
          (Dict.get (settings (pick_energy_pref w energy_combo index))
             (_get_active_cpu w))
        = Some (Some pref)).
Proof.
  cbv zeta.
  assert (Hentry : forall index pref,
            currentData
              (setCurrentIndex index
                 (_update_energy_pref_combo capitalize spaced conf c))
            = Some pref ->
            0 <= index /\ In pref (energy_prefs conf)
            /\ currentIndex
                 (setCurrentIndex index
                    (_update_energy_pref_combo capitalize spaced conf c))
               = index).
  { intros index pref Hdata.
    pose proof (proj2 (energy_combo_data conf c index)) as Hat.
    rewrite Hdata in Hat.
    destruct (energy_pref_id conf =? -1); [discriminate|].
    destruct (Z.ltb_spec index 0) as [|Hpos]; [discriminate|].
    split; [exact Hpos|]. split; [now apply (nth_error_In _ (Z.to_nat index))|].
    unfold currentData in Hdata. unfold setCurrentIndex in *.
    cbn [currentIndex items] in *.
    destruct ((0 <=? index)
              && (index <? Z.of_nat
                    (List.length
                       (items (_update_energy_pref_combo capitalize spaced
                                 conf c)))));
      [reflexivity|discriminate]. }
  split; [apply energy_combo_data; exact 0|]. split.
  - intros index pref Hdata. now apply (Hentry index pref).
  - intros Hget Hrefresh index pref Hdata.
    destruct (Hentry index pref Hdata) as (Hpos & Hin & Hindex).
    unfold pick_energy_pref. cbv zeta. rewrite Hdata, Hindex.
    pose proof (energy_edit_active
                  (with_combo_data w (gov_combo w) (Some pref)) index
                  Hrefresh Hpos) as Hstored.
    change (_get_active_cpu (with_combo_data w (gov_combo w) (Some pref)))
      with (_get_active_cpu w) in Hstored.
    rewrite Hstored. cbn [with_combo_data settings energy_combo].
    rewrite Hget. cbn [option_map]. f_equal.
    now apply set_energy_pref_reads_back.
Qed.

End ComboFacts.

Section RecallExamples.

Import Config Edit Recall Combos Sim Cases.

(** X18 on four CPUs with CPU 1 edited: a profile for CPU 1 and for a
    CPU 7 the machine does not have. *)
Lemma recall_starts_from_fresh_settings_witness :
  match
    _set_profile_settings cpu_conf (fun _ => true) governors
      (fun conf fs => set_freqs conf fs)
      (fun conf gov => set_governor conf (Some gov)) set_online
      [0; 1; 2; 3] cpu1_edited false
      [(1, {| e_freqs := (1200, 2400); e_governor := "ondemand";
              e_online := true |});
       (7, {| e_freqs := (800, 800); e_governor := "powersave";
              e_online := false |})]
  with
  | None => False
  | Some (d, flag', toall_btn) =>
      Some true = Some flag' /\ toall_btn = false
      /\ Dict.keys d = [0; 1; 2; 3]
      /\ (forall cpu s,
            In cpu [0; 1; 2; 3] ->
            Dict.get
              [(1, {| e_freqs := (1200, 2400); e_governor := "ondemand";
                      e_online := true |});
               (7, {| e_freqs := (800, 800); e_governor := "powersave";
                      e_online := false |})]
              cpu
            = Some s ->
            Dict.get d cpu
            = Some (assign governors (fun conf fs => set_freqs conf fs)
                      (fun conf gov => set_governor conf (Some gov))
                      set_online (cpu_conf cpu) s))
      /\ (forall cpu,
            In cpu [0; 1; 2; 3] ->
            Dict.get
              [(1, {| e_freqs := (1200, 2400); e_governor := "ondemand";
                      e_online := true |});
               (7, {| e_freqs := (800, 800); e_governor := "powersave";
                      e_online := false |})]
              cpu
            = None ->
            Dict.get d cpu = Some (cpu_conf cpu))
      /\ (forall cpu,
            ~ In cpu [0; 1; 2; 3] ->
            Dict.get d cpu
            = match
                Dict.get cpu1_edited cpu,
                Dict.get
                  [(1, {| e_freqs := (1200, 2400); e_governor := "ondemand";
                          e_online := true |});
                   (7, {| e_freqs := (800, 800); e_governor := "powersave";
                          e_online := false |})]
                  cpu
              with
              | Some conf, Some s =>
                  Some (assign governors (fun conf fs => set_freqs conf fs)
                          (fun conf gov => set_governor conf (Some gov))
                          set_online conf s)
              | o, _ => o
              end)
  end.
Proof.
  refine (recall_starts_from_fresh_settings cpu_conf (fun _ => true)
            (Z * Z) governors (fun conf fs => set_freqs conf fs)
            (fun conf gov => set_governor conf (Some gov)) set_online
            [0; 1; 2; 3] cpu1_edited false _ _).
  repeat (constructor; [simpl; intuition lia|]). constructor.
Defined.

(** What the four entries show after that recall: the edits of CPU 1 are
    gone, the governor ondemand, which it does not offer, is skipped, and
    nothing is added for CPU 7. *)
Example recall_on_four_cpus :
  option_map
    (fun r =>
       map (fun kv => (fst kv, freqs (snd kv), governor_name (snd kv),
                       is_online (snd kv)))
         (fst (fst r)))
    (_set_profile_settings cpu_conf (fun _ => true) governors
       (fun conf fs => set_freqs conf fs)
       (fun conf gov => set_governor conf (Some gov)) set_online
       [0; 1; 2; 3] cpu1_edited false
       [(1, {| e_freqs := (1200, 2400); e_governor := "ondemand";
               e_online := true |});
        (7, {| e_freqs := (800, 800); e_governor := "powersave";
               e_online := false |})])
  = Some [(0, (800, 3200), Some "powersave", true);
          (1, (1200, 2400), Some "powersave", true);
          (2, (800, 3200), Some "powersave", true);
          (3, (800, 3200), Some "powersave", true)].
Proof. reflexivity. Qed.

(** X19 on a fresh CPU: the combo shows powersave, and performance is
    picked. *)
Lemma governor_combo_shows_and_stores_witness :
  currentData
    (_update_gov_combo (fun s => s) (cpu_conf 1)
       {| items := []; currentIndex := -1; isEnabled := false |})
  = Some "powersave"
  /\ option_map governor_name
       (Dict.get
          (settings
             (pick_governor (window four_fresh 1 false false 800 3200)
                (_update_gov_combo (fun s => s) (cpu_conf 1)
                   {| items := []; currentIndex := -1; isEnabled := false |})
                0))
          1)
     = Some (Some "performance").
Proof.
  destruct (governor_combo_shows_and_stores (fun s => s)
              (window four_fresh 1 false false 800 3200) (cpu_conf 1)
              {| items := []; currentIndex := -1; isEnabled := false |})
    as (Hshown & _ & Hpick).
  split; [exact Hshown|].
  exact (Hpick eq_refl eq_refl 0 "performance" eq_refl).
Defined.

(** X20 on the same CPU: the combo shows balance_power, and performance
    is picked. *)
Lemma energy_combo_shows_and_stores_witness :
  currentData
    (_update_energy_pref_combo (fun s => s) (fun s => s) (cpu_conf 1)
       {| items := []; currentIndex := -1; isEnabled := false |})
  = Some "balance_power"
  /\ option_map energy_pref_name
       (Dict.get
          (settings
             (pick_energy_pref (window four_fresh 1 false true 800 3200)
                (_update_energy_pref_combo (fun s => s) (fun s => s)
                   (cpu_conf 1)
                   {| items := []; currentIndex := -1; isEnabled := false |})
                0))
          1)
     = Some (Some "performance").
Proof.
  destruct (energy_combo_shows_and_stores (fun s => s) (fun s => s)
              (window four_fresh 1 false true 800 3200) (cpu_conf 1)
              {| items := []; currentIndex := -1; isEnabled := false |})
    as (Hshown & _ & Hpick).
  split; [exact Hshown|].
  exact (Hpick eq_refl eq_refl 0 "performance" eq_refl).
Defined.

End RecallExamples.

(** ** The lock and the row updates *)

Section LockFacts.

Import Config Edit Locking.

(** X22.  [lock] does not release on an error.  When the body runs to
    its end, [refreshing] is false afterwards, whatever it was before.  When
    the body raises, [refreshing] stays true until a later [lock] runs to
    its end, as the one of [_update_sliders] does when the active CPU has
    settings.  While it is set, the handlers of the online checkbox, the
    frequency sliders and spin boxes, the governor combo and the energy
    preference combo return at their first line: any sequence of their
    signals leaves the window, and with it the settings, as it is. *)
Theorem lock_is_not_released_on_error
  (body : Window -> Window * bool) (w : Window) :
  (forall x, refreshing (fst (body x)) = refreshing x) ->
  (snd (lock body w) = true -> refreshing (fst (lock body w)) = false)
  /\ (snd (body (set_refreshing w true)) = false ->
      snd (lock body w) = false
      /\ refreshing (fst (lock body w)) = true
      /\ (forall events,
            handle_all (fst (lock body w)) events = Some (fst (lock body w)))
      /\ (forall conf,
            Dict.get (settings (fst (lock body w)))
              (_get_active_cpu (fst (lock body w)))
            = Some conf ->
            refreshing (_update_sliders (fst (lock body w))) = false)).
Proof.
  intros Hbody. unfold lock.
  pose proof (Hbody (set_refreshing w true)) as Hkept.
  destruct (body (set_refreshing w true)) as [w' finished].
  cbn [fst snd] in *. split.
  - destruct finished; [reflexivity|discriminate].
  - intros ->. cbn [fst snd]. split; [reflexivity|].
    change (refreshing (set_refreshing w true)) with true in Hkept.
    split; [exact Hkept|]. split.
    + intros events. induction events as [|e events IH]; [reflexivity|].
      cbn [handle_all].
      assert (Hone : handle w' e = Some w').
      { destruct e; cbn [handle];
          unfold on_cpu_online_toggled, on_min_slider_changed,
            on_max_slider_changed, on_min_spin_changed, on_max_spin_changed,
            on_governor_changed, on_energy_pref_changed;
          now rewrite Hkept. }
      now rewrite Hone.
    + intros conf Hget. unfold _update_sliders. rewrite Hget.
      now destruct (hw_lims conf), (freqs conf).
Qed.

End LockFacts.

Section TableBounds.

Import Table.

Variable Freq : Type.

Lemma length_set_nth (n : nat) (f : Row Freq -> Row Freq)
  (data : list (Row Freq)) :
  List.length (set_nth n f data) = List.length data.
Proof.
  revert n. induction data as [|r data IH]; intros [|n]; simpl; auto.
Qed.

Lemma nth_error_set_nth (n m : nat) (f : Row Freq -> Row Freq)
  (data : list (Row Freq)) :
  nth_error (set_nth n f data) m
  = if Nat.eqb m n then option_map f (nth_error data m)
    else nth_error data m.
Proof.
  revert n m. induction data as [|r data IH]; intros [|n] [|m]; simpl;
    try reflexivity.
  - now destruct (Nat.eqb m n).
  - apply IH.
Qed.

(** What one guarded row assignment does, for any row number. *)
Lemma guarded_set_nth (row : Z) (f : Row Freq -> Row Freq)
  (data : list (Row Freq)) :
  let data' :=
    if valid_row row data then set_nth (Z.to_nat row) f data else data in
  List.length data' = List.length data
  /\ (forall m, Z.of_nat m <> row -> nth_error data' m = nth_error data m)
  /\ (row < 0 \/ Z.of_nat (List.length data) <= row -> data' = data)
  /\ (forall r, nth_error data (Z.to_nat row) = Some r -> 0 <= row ->
      nth_error data' (Z.to_nat row) = Some (f r)).
Proof.
  cbv zeta. unfold valid_row.
  destruct (Z.leb_spec 0 row) as [Hpos|Hneg];
    destruct (Z.ltb_spec row (Z.of_nat (List.length data))) as [Hin|Hout];
    cbn [andb].
  - split; [apply length_set_nth|]. split; [|split].
    + intros m Hm. rewrite nth_error_set_nth.
      destruct (Nat.eqb_spec m (Z.to_nat row)); [lia|reflexivity].
    + lia.
    + intros r Hr _. rewrite nth_error_set_nth, Nat.eqb_refl, Hr.
      reflexivity.
  - repeat split; auto. intros r Hr _.
    assert (Hlt : (Z.to_nat row < List.length data)%nat)
      by (apply nth_error_Some; rewrite Hr; discriminate).
    lia.
  - repeat split; auto. lia.
  - repeat split; auto. lia.
Qed.

(** X21.  The three row updates of the table model are safe for any row
    number.  [update_row], [update_current_freq] and [set_changed] never
    change the number of rows and touch no row but the one addressed; a
    row number that is negative or past the end changes nothing; inside
    the table the row is replaced, or gets the new frequency or the new
    flag with its other cells kept. *)
Theorem row_updates_are_bounded
  (row : Z) (new_row : Row Freq) (freq : Freq) (changed : bool)
  (data : list (Row Freq)) :
  Forall
    (fun update : (Row Freq -> Row Freq) * list (Row Freq) =>
       List.length (snd update) = List.length data
       /\ (forall m, Z.of_nat m <> row ->
             nth_error (snd update) m = nth_error data m)
       /\ (row < 0 \/ Z.of_nat (List.length data) <= row ->
           snd update = data)
       /\ (forall r, nth_error data (Z.to_nat row) = Some r -> 0 <= row ->
           nth_error (snd update) (Z.to_nat row) = Some (fst update r)))
    [(fun _ => new_row, update_row row new_row data);
     (fun r => with_current_freq r freq, update_current_freq row freq data);
     (fun r => with_changed r changed, set_changed row changed data)].
Proof.
  repeat (apply Forall_cons || apply Forall_nil); cbn [fst snd].
  - apply (guarded_set_nth row (fun _ => new_row) data).
  - apply (guarded_set_nth row (fun r => with_current_freq r freq) data).
  - apply (guarded_set_nth row (fun r => with_changed r changed) data).
Qed.

End TableBounds.

Section LockExamples.

Import Table Config Edit Locking Sim Cases.

(** X21 at the two ends of a table of four rows. *)
Example row_updates_outside_the_table :
  set_changed (-1) true (_update_table (fun s => s) 0 four_fresh)
  = _update_table (fun s => s) 0 four_fresh
  /\ update_current_freq 4 1000 (_update_table (fun s => s) 0 four_fresh)
     = _update_table (fun s => s) 0 four_fresh
  /\ map (@r_changed Z)
       (set_changed 3 true (_update_table (fun s => s) 0 four_fresh))
     = [false; false; false; true].
Proof. repeat split. Qed.

(** X22 with a body that raises at once. *)
Lemma lock_is_not_released_on_error_witness :
  snd (lock (fun x => (x, false)) (window four_fresh 1 false false 800 3200))
  = false
  /\ refreshing
       (fst (lock (fun x => (x, false))
               (window four_fresh 1 false false 800 3200)))
     = true
  /\ (forall events,
        handle_all
          (fst (lock (fun x => (x, false))
                  (window four_fresh 1 false false 800 3200)))
          events
        = Some (fst (lock (fun x => (x, false))
                       (window four_fresh 1 false false 800 3200))))
  /\ (forall conf,
        Dict.get four_fresh 1 = Some conf ->
        refreshing
          (_update_sliders
             (fst (lock (fun x => (x, false))
                     (window four_fresh 1 false false 800 3200))))
        = false).
Proof.
  exact (proj2 (lock_is_not_released_on_error (fun x => (x, false))
                  (window four_fresh 1 false false 800 3200)
                  (fun x => eq_refl))
           eq_refl).
Defined.

(** On the window the failed lock leaves, an edit of the governor and one
    of the max frequency change nothing; after [_update_sliders] the
    governor edit is stored again. *)
Example edits_after_a_failed_lock :
  option_map
    (fun w' => map (fun kv => (fst kv, governor_name (snd kv), freqs (snd kv)))
                 (settings w'))
    (handle_all
       (fst (lock (fun x => (x, false))
               (window four_fresh 1 false false 800 3200)))
       [GovernorChanged 0; MaxSpinChanged 1200])
  = Some [(0, Some "powersave", (800, 3200));
          (1, Some "powersave", (800, 3200));
          (2, Some "powersave", (800, 3200));
          (3, Some "powersave", (800, 3200))]
  /\ option_map
       (fun w' => map (fun kv => (fst kv, governor_name (snd kv)))
                    (settings w'))
       (handle_all
          (_update_sliders
             (fst (lock (fun x => (x, false))
                     (window four_fresh 1 false false 800 3200))))
          [GovernorChanged 0])
     = Some [(0, Some "powersave"); (1, Some "performance");
             (2, Some "powersave"); (3, Some "powersave")].
Proof. split; reflexivity. Qed.

End LockExamples.

(** ** A click on Apply, to its end *)

Section ClickFacts.

Import Apply Click.

Context {H : Type} (HELPER : Helper H).
Context {C : Type} `{CpuSettingsLike C}.
Variable get_cpus_available : H -> list Z.
Variable new_settings : H -> Z -> C.
Variable conf_energy_pref_avail : C -> bool.
Variable update_conf : H -> C -> C.
Variable reset_conf : C -> C.

Lemma get_None_keys {V} (d : Dict.t V) (k : Z) :
  Dict.get d k = None <-> ~ In k (Dict.keys d).
Proof.
  split.
  - intros Hnone Hin. apply DictFacts.In_keys_get in Hin as [v Hv].
    congruence.
  - intros Hnot. destruct (Dict.get d k) as [v|] eqn:Hget; [|reflexivity].
    elim Hnot. apply DictFacts.get_In in Hget. unfold Dict.keys.
    now apply (in_map fst) in Hget.
Qed.

Lemma get_None_keys_not {V} (d : Dict.t V) (k : Z) :
  Dict.get d k <> None -> In k (Dict.keys d).
Proof.
  intros Hsome. destruct (in_dec Z.eq_dec k (Dict.keys d)) as [Hin|Hnot];
    [exact Hin|].
  elim Hsome. now apply get_None_keys.
Qed.

Lemma keys_update_sliders (w : @Window C) :
  settings (_update_sliders w) = settings w
  /\ energy_pref_avail (_update_sliders w) = energy_pref_avail w
  /\ profile_index (_update_sliders w) = profile_index w.
Proof.
  unfold _update_sliders.
  now destruct (Dict.get (settings w) (active_cpu w)).
Qed.

(** The refresh of the entries of [cpus], all of them keys, never fails
    and keeps the keys. *)
Lemma refresh_all_runs (h : H) (cpus : list Z) (w : @Window C) :
  (forall cpu, In cpu cpus -> In cpu (Dict.keys (settings w))) ->
  exists w',
    refresh_all update_conf h cpus w = Some w'
    /\ Dict.keys (settings w') = Dict.keys (settings w)
    /\ energy_pref_avail w' = energy_pref_avail w
    /\ profile_index w' = profile_index w.
Proof.
  revert w. induction cpus as [|cpu cpus IH]; intros w Hkeys.
  - exists w. auto.
  - cbn [refresh_all]. unfold _refresh_cpu_settings.
    destruct (DictFacts.In_keys_get (settings w) cpu
                (Hkeys cpu (or_introl eq_refl))) as [conf Hget].
    rewrite Hget. cbn [and_then].
    set (w1 := _update_sliders
                 (with_settings w
                    (Dict.update_at (update_conf h) cpu (settings w)))).
    assert (H1 : Dict.keys (settings w1) = Dict.keys (settings w)
                 /\ energy_pref_avail w1 = energy_pref_avail w
                 /\ profile_index w1 = profile_index w).
    { unfold w1. destruct (keys_update_sliders
                             (with_settings w
                                (Dict.update_at (update_conf h) cpu
                                   (settings w)))) as (-> & -> & ->).
      cbn [with_settings settings energy_pref_avail profile_index].
      now rewrite DictFacts.keys_update_at. }
    destruct H1 as (K1 & E1 & P1).
    destruct (IH w1) as (w' & Hrun & K & E & P).
    { intros c Hc. rewrite K1. apply Hkeys. now right. }
    exists w'. split; [exact Hrun|]. split; [congruence|].
    split; congruence.
Qed.

(** When [load_cpu_settings] fails and what it leaves when it does
    not. *)
Lemma load_cpu_settings_runs (h : H) (w : @Window C) :
  let cpus := get_cpus_available h in
  (~ In 0 cpus /\ ~ In 0 (Dict.keys (settings w))
   /\ (cpus <> [] \/ Dict.keys (settings w) <> []) ->
   load_cpu_settings get_cpus_available new_settings conf_energy_pref_avail
     h w = None)
  /\ (In 0 cpus \/ In 0 (Dict.keys (settings w))
      \/ (cpus = [] /\ Dict.keys (settings w) = []) ->
      exists w',
        load_cpu_settings get_cpus_available new_settings
          conf_energy_pref_avail h w = Some w'
        /\ (forall cpu, In cpu cpus ->
              Dict.get (settings w') cpu = Some (new_settings h cpu))
        /\ (forall cpu, In cpu (Dict.keys (settings w)) ->
              In cpu (Dict.keys (settings w')))
        /\ (In 0 cpus \/ In 0 (Dict.keys (settings w'))
            \/ (cpus = [] /\ Dict.keys (settings w') = []))
        /\ refreshing w' = refreshing w
        /\ active_cpu w' = active_cpu w
        /\ profile_index w' = profile_index w).
Proof.
  cbv zeta. unfold load_cpu_settings, Startup.load_cpu_settings.
  destruct (fill_spec (new_settings h) (get_cpus_available h) (settings w))
    as (Hin & Hout & _ & Hempty). cbv zeta in Hin, Hout, Hempty.
  set (d := fold_left
              (fun d cpu => Startup.dict_set d cpu (new_settings h cpu))
              (get_cpus_available h) (settings w)) in *.
  assert (Hkeep : forall cpu, In cpu (Dict.keys (settings w)) ->
                    In cpu (Dict.keys d)).
  { intros cpu Hcpu.
    destruct (in_dec Z.eq_dec cpu (get_cpus_available h)) as [Hl|Hl].
    - apply get_None_keys_not. now rewrite (Hin cpu Hl).
    - apply get_None_keys_not. rewrite (Hout cpu Hl). intros Hnone.
      now apply get_None_keys in Hnone. }
  split.
  - intros (Hcpus & Hkeys & Hsome).
    assert (Hget : Dict.get d 0 = None).
    { rewrite (Hout 0 Hcpus). now apply get_None_keys. }
    destruct d as [|p d'] eqn:Ed.
    + exfalso. destruct (proj1 Hempty eq_refl) as [Hc Hs].
      destruct Hsome as [Hne|Hne]; [now apply Hne|].
      apply Hne. now rewrite Hs.
    + now rewrite Hget.
  - intros Hsafe.
    destruct d as [|p d'] eqn:Ed.
    + destruct (proj1 Hempty eq_refl) as [Hc Hs].
      eexists. split; [reflexivity|]. cbn [settings refreshing active_cpu
                                             profile_index].
      split; [intros cpu Hcpu; rewrite Hc in Hcpu; destruct Hcpu|].
      split; [intros cpu Hcpu; rewrite Hs in Hcpu; destruct Hcpu|].
      split; [right; right; split; [exact Hc|reflexivity]|]. auto.
    + assert (Hget : exists conf, Dict.get (p :: d') 0 = Some conf).
      { destruct (in_dec Z.eq_dec 0 (get_cpus_available h)) as [Hl|Hl].
        - exists (new_settings h 0). now apply Hin.
        - destruct Hsafe as [Hl'|[Hk|[Hc Hs]]]; [contradiction| |].
          + apply DictFacts.In_keys_get in Hk as [conf Hconf].
            exists conf. now rewrite (Hout 0 Hl).
          + exfalso.
            assert (Hnil : settings w = [])
              by (destruct (settings w); [reflexivity|discriminate]).
            discriminate (proj2 Hempty (conj Hc Hnil)). }
      destruct Hget as [conf Hconf]. rewrite Hconf. cbn [option_map].
      eexists. split; [reflexivity|]. cbn [settings refreshing active_cpu
                                             profile_index].
      split; [exact Hin|]. split; [exact Hkeep|].
      split; [|auto]. right. left.
      apply get_None_keys_not. now rewrite Hconf.
Qed.


(** [setCurrentIndex(0)] on the profile combo: it fails only where
    [load_cpu_settings] does, and drops no key. *)
Lemma select_no_profile_runs (h : H) (w : @Window C) :
  let cpus := get_cpus_available h in
  (~ In 0 cpus /\ ~ In 0 (Dict.keys (settings w))
   /\ (cpus <> [] \/ Dict.keys (settings w) <> []) ->
   select_no_profile get_cpus_available new_settings conf_energy_pref_avail
     reset_conf h w = None
   \/ exists w',
        select_no_profile get_cpus_available new_settings
          conf_energy_pref_avail reset_conf h w = Some w'
        /\ Dict.keys (settings w') = Dict.keys (settings w))
  /\ (In 0 cpus \/ In 0 (Dict.keys (settings w))
      \/ (cpus = [] /\ Dict.keys (settings w) = []) ->
      exists w',
        select_no_profile get_cpus_available new_settings
          conf_energy_pref_avail reset_conf h w = Some w'
        /\ (forall cpu, In cpu (Dict.keys (settings w)) ->
              In cpu (Dict.keys (settings w')))
        /\ (In 0 cpus \/ In 0 (Dict.keys (settings w'))
            \/ (cpus = [] /\ Dict.keys (settings w') = []))).
Proof.
  cbv zeta. unfold select_no_profile, on_profile_changed.
  set (w0 := {| settings := settings w;
                energy_pref_avail := energy_pref_avail w;
                refreshing := refreshing w; active_cpu := active_cpu w;
                profile_index := 0 |}).
  destruct (load_cpu_settings_runs h w0) as (Hfail & Hrun).
  cbv zeta in Hfail, Hrun.
  change (settings w0) with (settings w) in Hfail, Hrun.
  change (refreshing w0) with (refreshing w).
  replace (0 <? 0) with false by reflexivity. rewrite orb_false_r.
  split.
  - intros Hunsafe. destruct (profile_index w =? 0).
    + right. now exists w.
    + destruct (refreshing w).
      * right. now exists w0.
      * left. now rewrite (Hfail Hunsafe).
  - intros Hsafe. destruct (profile_index w =? 0).
    + exists w. auto.
    + destruct (refreshing w).
      * exists w0. auto.
      * destruct (Hrun Hsafe) as (w1 & -> & _ & Hkeep & Hsafe1 & _).
        cbn [and_then]. eexists. split; [reflexivity|].
        destruct (keys_update_sliders
                    (with_settings w1
                       (Dict.update_all reset_conf (settings w1))))
          as (-> & _).
        cbn [with_settings settings]. rewrite DictFacts.keys_update_all.
        auto.
Qed.

(** X1.  A click on Apply ends in one of three ways.  Without
    authorization the permission error is shown, nothing is written and
    the helper is left as it was.  With it the loop over the changed CPUs
    always runs to its end, whatever the settings and the helper's answers,
    and so does the refresh of every entry.  Then the settings are loaded
    again: when that leaves a dict that is not empty and has no entry for
    CPU 0, the click ends in a [KeyError] and no dialog is shown, whatever
    the sum of the pass; otherwise every CPU the helper lists holds a fresh
    settings object, so that the pending edits are gone whether the writes
    succeeded or not, no CPU has lost its entry, and the error dialog is
    shown exactly when the sum is not 0. *)
Theorem click_on_apply_ends_three_ways (w : @Window C) (h : H) :
  (isauthorized HELPER h = false ->
   on_apply_clicked HELPER get_cpus_available new_settings
     conf_energy_pref_avail update_conf reset_conf w h
   = (Denied "You don't have permissions to update CPU settings!", h, []))
  /\ (isauthorized HELPER h = true ->
      exists ret h' t,
        apply_pass HELPER (energy_pref_avail w) (settings w) h
        = (Some ret, h', t)
        /\ (~ In 0 (get_cpus_available h')
            /\ Dict.get (settings w) 0 = None
            /\ (get_cpus_available h' <> [] \/ settings w <> []) ->
            on_apply_clicked HELPER get_cpus_available new_settings
              conf_energy_pref_avail update_conf reset_conf w h
            = (Raised, h', t))
        /\ (In 0 (get_cpus_available h')
            \/ Dict.get (settings w) 0 <> None
            \/ (get_cpus_available h' = [] /\ settings w = []) ->
            exists w',
              on_apply_clicked HELPER get_cpus_available new_settings
                conf_energy_pref_avail update_conf reset_conf w h
              = (Finished ret (report ret) w', h', t)
              /\ (forall cpu, In cpu (get_cpus_available h') ->
                    Dict.get (settings w') cpu = Some (new_settings h' cpu))
              /\ (forall cpu, Dict.get (settings w) cpu <> None ->
                    Dict.get (settings w') cpu <> None))).
Proof.
  split.
  - intros Hauth. unfold on_apply_clicked. now rewrite Hauth.
  - intros Hauth.
    destruct (pass_spec HELPER (energy_pref_avail w) (settings w) h)
      as (l & h' & _ & A & _).
    exists (total l), h', (writes l). split; [exact A|].
    unfold on_apply_clicked. rewrite Hauth, A. cbn [negb].
    unfold after_the_loop.
    destruct (refresh_all_runs h' (Dict.keys (settings w)) w)
      as (w1 & -> & K1 & _); [auto|]. cbn [and_then].
    destruct (select_no_profile_runs h' w1) as (Hfail2 & Hrun2).
    cbv zeta in Hfail2, Hrun2. rewrite K1 in Hfail2, Hrun2.
    assert (Hnil : Dict.keys (settings w) = [] <-> settings w = []).
    { unfold Dict.keys. destruct (settings w); simpl; split;
        intros; (reflexivity || discriminate). }
    split.
    + intros (Hcpus & Hget & Hsome).
      assert (Hunsafe : ~ In 0 (get_cpus_available h')
                        /\ ~ In 0 (Dict.keys (settings w))
                        /\ (get_cpus_available h' <> []
                            \/ Dict.keys (settings w) <> [])).
      { split; [exact Hcpus|]. split; [now apply get_None_keys|].
        destruct Hsome as [Hs|Hs]; [now left|right].
        intros Hk. now apply Hs, Hnil. }
      destruct (Hfail2 Hunsafe) as [->|(w2 & -> & K2)]; [reflexivity|].
      cbn [and_then].
      destruct (load_cpu_settings_runs h' w2) as (Hfail3 & _).
      cbv zeta in Hfail3. rewrite K2 in Hfail3.
      now rewrite (Hfail3 Hunsafe).
    + intros Hsafe.
      assert (Hsafe1 : In 0 (get_cpus_available h')
                       \/ In 0 (Dict.keys (settings w))
                       \/ (get_cpus_available h' = []
                           /\ Dict.keys (settings w) = [])).
      { destruct Hsafe as [Hl|[Hk|[Hc Hs]]]; [now left| |].
        - right. left. now apply get_None_keys_not.
        - right. right. split; [exact Hc|]. now apply Hnil. }
      destruct (Hrun2 Hsafe1) as (w2 & -> & Hkeep2 & Hsafe2).
      cbn [and_then].
      destruct (load_cpu_settings_runs h' w2) as (_ & Hrun3).
      destruct (Hrun3 Hsafe2) as (w3 & -> & Hfresh & Hkeep3 & _).
      cbn [and_then]. eexists. split; [reflexivity|].
      destruct (keys_update_sliders w3) as (-> & _).
      split; [exact Hfresh|].
      intros cpu Hcpu Hnone. apply get_None_keys in Hnone. apply Hnone.
      apply Hkeep3, Hkeep2. now apply get_None_keys_not.
Qed.

End ClickFacts.

Section Corrections.

Import Config Apply Sim Cases.

(** C1 as first stated fails: CPU 1 gets new frequencies and a new
    governor and the helper refuses both writes; no other write is
    attempted, but its energy preference counts as changed and is unset,
    so that step adds -1 without a write.  The result is -25 and the user
    is told that setting frequencies and energy preferences failed. *)
Lemma missing_value_beside_two_failures :
  on_apply_clicked machine true [(0, untouched); (1, no_preference)]
    (four_cpus [(UpdateCpuGovernor 1 "performance", 5);
                (UpdateCpuSettings 1 1200000 3200000, -1)])
  = (Applied (-25)
       (Some "Setting frequencies and energy preferences failed."),
     four_cpus [(UpdateCpuGovernor 1 "performance", 5);
                (UpdateCpuSettings 1 1200000 3200000, -1)],
     [(UpdateCpuSettings 1 1200000 3200000, -1);
      (UpdateCpuGovernor 1 "performance", 5)])
  /\ (forall c raw,
        In (c, raw) [(UpdateCpuSettings 1 1200000 3200000, -1);
                     (UpdateCpuGovernor 1 "performance", 5)] ->
        c <> UpdateCpuSettings 1 1200000 3200000 ->
        c <> UpdateCpuGovernor 1 "performance" -> raw = 0)
  /\ -25 <> -24.
Proof.
  split; [reflexivity|]. split; [|lia].
  intros c raw [[= <- <-]|[[= <- <-]|[]]] Hf Hg;
    [now elim Hf|now elim Hg].
Qed.

(** C10 as first stated fails: energy preferences are not available, the
    energy preference of CPU 1 counts as changed and is unset; the step
    returns 0, not -1, and the pass ends with 0 and no dialog. *)
Lemma missing_preference_without_support :
  energy_pref preference_unset = None
  /\ _set_cpu_energy_preferences machine false [(1, preference_unset)] 1
       (four_cpus [])
     = (0, four_cpus [], [])
  /\ on_apply_clicked machine false [(1, preference_unset)] (four_cpus [])
     = (Applied 0 None, four_cpus [], []).
Proof. repeat split. Qed.

End Corrections.

Section ClickExamples.

Import Apply Sim Cases.

(** X1 on four CPUs: the governor write of CPU 1 is refused. *)
Lemma click_on_apply_ends_three_ways_witness :
  exists ret h' t,
    apply_pass machine true [(0, untouched); (1, freq_and_governor)]
      (four_cpus [(UpdateCpuGovernor 1 "performance", 5)])
    = (Some ret, h', t)
    /\ (~ In 0 (present h')
        /\ Dict.get [(0, untouched); (1, freq_and_governor)] 0 = None
        /\ (present h' <> []
            \/ [(0, untouched); (1, freq_and_governor)] <> []) ->
        Click.on_apply_clicked machine present (fun _ _ => untouched)
          (fun _ => true) (fun _ conf => conf) (fun conf => conf)
          {| Click.settings := [(0, untouched); (1, freq_and_governor)];
             Click.energy_pref_avail := true; Click.refreshing := false;
             Click.active_cpu := 1; Click.profile_index := 0 |}
          (four_cpus [(UpdateCpuGovernor 1 "performance", 5)])
        = (Click.Raised, h', t))
    /\ (In 0 (present h')
        \/ Dict.get [(0, untouched); (1, freq_and_governor)] 0 <> None
        \/ (present h' = [] /\ [(0, untouched); (1, freq_and_governor)] = []) ->
        exists w',
          Click.on_apply_clicked machine present (fun _ _ => untouched)
            (fun _ => true) (fun _ conf => conf) (fun conf => conf)
            {| Click.settings := [(0, untouched); (1, freq_and_governor)];
               Click.energy_pref_avail := true; Click.refreshing := false;
               Click.active_cpu := 1; Click.profile_index := 0 |}
            (four_cpus [(UpdateCpuGovernor 1 "performance", 5)])
          = (Click.Finished ret (report ret) w', h', t)
          /\ (forall cpu, In cpu (present h') ->
                Dict.get (Click.settings w') cpu = Some untouched)
          /\ (forall cpu,
                Dict.get [(0, untouched); (1, freq_and_governor)] cpu
                <> None ->
                Dict.get (Click.settings w') cpu <> None)).
Proof.
  exact (proj2 (click_on_apply_ends_three_ways machine present
                  (fun _ _ => untouched) (fun _ => true)
                  (fun _ conf => conf) (fun conf => conf)
                  {| Click.settings :=
                       [(0, untouched); (1, freq_and_governor)];
                     Click.energy_pref_avail := true;
                     Click.refreshing := false;
                     Click.active_cpu := 1; Click.profile_index := 0 |}
                  (four_cpus [(UpdateCpuGovernor 1 "performance", 5)]))
           eq_refl).
Defined.

(** That click: the error dialog is shown, and every CPU holds a fresh
    object afterwards, the edits of CPU 1 with it. *)
Example click_with_a_refused_write :
  Click.on_apply_clicked machine present (fun _ _ => untouched)
    (fun _ => true) (fun _ conf => conf) (fun conf => conf)
    {| Click.settings := [(0, untouched); (1, freq_and_governor)];
       Click.energy_pref_avail := true; Click.refreshing := false;
       Click.active_cpu := 1; Click.profile_index := 0 |}
    (four_cpus [(UpdateCpuGovernor 1 "performance", 5)])
  = (Click.Finished (-11) (Some "Setting governor failed.")
       {| Click.settings :=
            [(0, untouched); (1, untouched); (2, untouched); (3, untouched)];
          Click.energy_pref_avail := true; Click.refreshing := false;
          Click.active_cpu := 1; Click.profile_index := 0 |},
     four_cpus [(UpdateCpuGovernor 1 "performance", 5)],
     [(UpdateCpuSettings 1 1200000 3200000, 0);
      (UpdateCpuGovernor 1 "performance", 5)]).
Proof. reflexivity. Qed.

(** The same edits on a machine whose helper lists CPUs 1 to 3 only, with
    settings for CPU 1 alone: the write is refused, the reload fails and
    no dialog is shown. *)
Example click_without_cpu_0 :
  Click.on_apply_clicked machine present (fun _ _ => untouched)
    (fun _ => true) (fun _ conf => conf) (fun conf => conf)
    {| Click.settings := [(1, freq_and_governor)];
       Click.energy_pref_avail := true; Click.refreshing := false;
       Click.active_cpu := 1; Click.profile_index := 0 |}
    {| authorized := true; present := [1; 2; 3]; cpus_online := [1; 2; 3];
       cpus_offline := []; pinned := [];
       refused := [(UpdateCpuGovernor 1 "performance", 5)] |}
  = (Click.Raised,
     {| authorized := true; present := [1; 2; 3]; cpus_online := [1; 2; 3];
        cpus_offline := []; pinned := [];
        refused := [(UpdateCpuGovernor 1 "performance", 5)] |},
     [(UpdateCpuSettings 1 1200000 3200000, 0);
      (UpdateCpuGovernor 1 "performance", 5)]).
Proof. reflexivity. Qed.

End ClickExamples.
